(** * zkbench plotting scripts: a shallow embedding and its properties

    Two scripts are modelled:
    - [plot_bench_metrics.py]   (module [PlotBenchMetrics]),
    - [visualize_gradual_overload.py] (module [VisualizeGradualOverload]).

    Python floats are modelled by exact rationals ([Q], compared with [==]).
    Library calls whose behaviour is not part of the repository
    ([float], [datetime.fromisoformat], [pd.to_datetime] on a cell, float
    formatting) are methods of a type class; every general theorem holds
    for all implementations of the class, and reference implementations
    are given for the worked examples.  What the scripts' own control flow
    depends on is modelled in [Py]: string methods, dicts, [sorted], the
    [TypeError] of mixing naive and aware timestamps, and the way [savefig]
    derives the image format from the file name. *)

From Stdlib Require Import Bool Arith ZArith QArith Qminmax Lia List String Ascii.
From Stdlib Require Import Permutation Sorted Setoid Morphisms DecimalString.
Import ListNotations.

Local Open Scope string_scope.
Local Open Scope Z_scope.

(** ** The fragment of Python the scripts use *)

Module Py.

(** Exceptions the scripts can let escape. *)
Inductive exn : Type :=
| ValueError
| TypeError
| KeyError
| IndexError
| ZeroDivisionError
| FileNotFoundError.

(** A computation either returns or raises. *)
Inductive result (A : Type) : Type :=
| Ok (a : A)
| Raise (e : exn).
Arguments Ok {A} a.
Arguments Raise {A} e.

Definition bind {A B : Type} (m : result A) (k : A -> result B) : result B :=
  match m with
  | Ok a => k a
  | Raise e => Raise e
  end.

Definition of_option {A : Type} (e : exn) (o : option A) : result A :=
  match o with
  | Some a => Ok a
  | None => Raise e
  end.

Fixpoint mapM {A B : Type} (f : A -> result B) (l : list A) : result (list B) :=
  match l with
  | [] => Ok []
  | x :: l' =>
      bind (f x) (fun y => bind (mapM f l') (fun ys => Ok (y :: ys)))
  end.

(** How a process ends: an exit status, or an uncaught exception
    (which the interpreter reports with status 1). *)
Inductive termination : Type :=
| Exited (code : Z)
| Uncaught (e : exn).

(** *** Strings *)

(** [c in s] for a one-character [c]. *)
Fixpoint contains (c : ascii) (s : string) : bool :=
  match s with
  | EmptyString => false
  | String a s' => Ascii.eqb a c || contains c s'
  end.

(** [s.split(c)] for a one-character separator. *)
Fixpoint split (c : ascii) (s : string) : list string :=
  match s with
  | EmptyString => [EmptyString]
  | String a s' =>
      if Ascii.eqb a c then EmptyString :: split c s'
      else match split c s' with
           | [] => [String a EmptyString]
           | w :: ws => String a w :: ws
           end
  end.

(** [s.replace(old, new)] for a non-empty [old]: occurrences are replaced
    from the left and do not overlap.  [skip] counts the characters of an
    occurrence that are still to be dropped. *)
Fixpoint replace_from (skip : nat) (old new s : string) : string :=
  match s with
  | EmptyString => EmptyString
  | String a s' =>
      match skip with
      | S k => replace_from k old new s'
      | O =>
          if String.prefix old s
          then new ++ replace_from (String.length old - 1) old new s'
          else String a (replace_from 0 old new s')
      end
  end.

Definition replace (old new s : string) : string := replace_from 0 old new s.

(** [s[:n]] *)
Definition slice_to (n : nat) (s : string) : string := String.substring 0 n s.

Fixpoint repeat_char (c : ascii) (n : nat) : string :=
  match n with
  | O => EmptyString
  | S k => String c (repeat_char c k)
  end.

(** [s.ljust(width, fill)] *)
Definition ljust (width : nat) (fill : ascii) (s : string) : string :=
  s ++ repeat_char fill (width - String.length s).

(** [s.lower()] and [s.rstrip(c)] *)
Definition lower_char (c : ascii) : ascii :=
  let n := nat_of_ascii c in
  if ((65 <=? n) && (n <=? 90))%nat then ascii_of_nat (n + 32) else c.

Fixpoint lower (s : string) : string :=
  match s with
  | EmptyString => EmptyString
  | String a s' => String (lower_char a) (lower s')
  end.

Fixpoint rstrip (c : ascii) (s : string) : string :=
  match s with
  | EmptyString => EmptyString
  | String a s' =>
      match rstrip c s' with
      | EmptyString => if Ascii.eqb a c then EmptyString else String a EmptyString
      | r => String a r
      end
  end.

(** *** File names

    [os.path.splitext(p)[1]] with [/] as the separator: the extension
    starts at the last dot of the last component of the path, provided a
    character other than a dot comes before it in that component;
    otherwise it is empty.  The path is read from the left: [seen] tells
    whether such a character has been met in the current component, [ext]
    is the extension found so far. *)
Fixpoint splitext_from (seen : bool) (ext p : string) : string :=
  match p with
  | EmptyString => ext
  | String c p' =>
      if Ascii.eqb c "/" then splitext_from false EmptyString p'
      else if Ascii.eqb c "." then
        if seen then splitext_from true "." p'
        else splitext_from false EmptyString p'
      else
        splitext_from true
          (match ext with
           | EmptyString => EmptyString
           | _ => ext ++ String c EmptyString
           end) p'
  end.

Definition extension (p : string) : string := splitext_from false EmptyString p.

(** The formats matplotlib's Agg canvas writes. *)
Definition supported_filetypes : list string :=
  ["eps"; "jpeg"; "jpg"; "pdf"; "pgf"; "png"; "ps"; "raw"; "rgba"; "svg";
   "svgz"; "tif"; "tiff"; "webp"].

(** [plt.savefig(fname)] with no [format] argument, in a directory that
    can be written: the format is the extension of [fname] without its dot,
    in lower case; a name without extension gets [.png], the default format,
    appended; a format matplotlib does not know raises [ValueError] and
    nothing is written.  The result is the name of the file written. *)
Definition format_of (fname : string) : string :=
  match extension fname with
  | EmptyString => EmptyString
  | String _ f => f
  end.

Definition savefig (fname : string) : result string :=
  let format_ := format_of fname in
  if String.eqb format_ EmptyString then Ok (rstrip "." fname ++ ".png")
  else if existsb (String.eqb (lower format_)) supported_filetypes then Ok fname
  else Raise ValueError.

(** *** Numbers *)

(** [sum(l)]: additions from the left, starting at 0. *)
Definition sum (l : list Q) : Q := fold_left Qplus l 0%Q.

(** [len(l)] as a number. *)
Definition len {A : Type} (l : list A) : Z := Z.of_nat (List.length l).

(** [a / n] with [n] an integer; a zero divisor raises. *)
Definition truediv (a : Q) (n : Z) : result Q :=
  if n =? 0 then Raise ZeroDivisionError else Ok (a / inject_Z n)%Q.

(** *** Dictionaries

    A [dict] keeps its keys in insertion order: an association list in
    which every key occurs once. *)

Section Dict.
Context {K V : Type} (eqb : K -> K -> bool).

Fixpoint lookup (k : K) (d : list (K * V)) : option V :=
  match d with
  | [] => None
  | (k', v) :: d' => if eqb k k' then Some v else lookup k d'
  end.

(** [d[k]] on a plain dict. *)
Definition getitem (k : K) (d : list (K * V)) : result V :=
  of_option KeyError (lookup k d).

Definition keys (d : list (K * V)) : list K := map fst d.

(** [f(d[k])] on a [defaultdict] with factory value [dflt], where [f]
    mutates the value in place: a missing key is first inserted at the
    end with the default value.  The key object already stored is kept. *)
Fixpoint dd_update (dflt : V) (f : V -> V) (k : K) (d : list (K * V))
  : list (K * V) :=
  match d with
  | [] => [(k, f dflt)]
  | (k', v) :: d' =>
      if eqb k k' then (k', f v) :: d'
      else (k', v) :: dd_update dflt f k d'
  end.

(** Reading [d[k]] on a [defaultdict] when nothing is mutated afterwards. *)
Definition dd_get (dflt : V) (k : K) (d : list (K * V)) : V :=
  match lookup k d with
  | Some v => v
  | None => dflt
  end.
End Dict.

(** *** sorted

    [sorted(l)] only uses [<] on the elements, is stable, and an exception
    raised by a comparison escapes.  Insertion from the right gives the same
    result, and raises exactly when some comparison can raise. *)

Section Sorted.
Context {A : Type} (lt : A -> A -> result bool).

Fixpoint insert (x : A) (l : list A) : result (list A) :=
  match l with
  | [] => Ok [x]
  | y :: l' =>
      bind (lt y x) (fun b =>
        if b then bind (insert x l') (fun r => Ok (y :: r))
        else Ok (x :: y :: l'))
  end.

Fixpoint sorted (l : list A) : result (list A) :=
  match l with
  | [] => Ok []
  | x :: l' => bind (sorted l') (insert x)
  end.
End Sorted.

Definition str_lt (a b : string) : result bool := Ok (String.ltb a b).

(** *** datetime

    A [datetime] is either naive or aware.  An aware value is identified
    with its instant (microseconds since the epoch, UTC): equality, hashing,
    ordering and subtraction of aware values all go through the instant. *)
Record datetime : Type := { aware : bool; micros : Z }.

(** [a == b]: a naive and an aware value are never equal. *)
Definition dt_eqb (a b : datetime) : bool :=
  Bool.eqb (aware a) (aware b) && (micros a =? micros b).

(** [a < b]: comparing a naive with an aware value raises [TypeError]. *)
Definition dt_lt (a b : datetime) : result bool :=
  if Bool.eqb (aware a) (aware b) then Ok (micros a <? micros b)
  else Raise TypeError.

(** The order [sorted] establishes on timestamps it can compare. *)
Definition dt_le (a b : datetime) : Prop :=
  aware a = aware b /\ micros a <= micros b.

(** [a - b], a [timedelta] in microseconds. *)
Definition dt_sub (a b : datetime) : result Z :=
  if Bool.eqb (aware a) (aware b) then Ok (micros a - micros b)
  else Raise TypeError.

(** [td.total_seconds()] *)
Definition total_seconds (td : Z) : Q := (inject_Z td / inject_Z 1000000)%Q.

End Py.

Declare Scope py_scope.
Notation "x <- m ;; k" := (Py.bind m (fun x => k))
  (at level 61, m at next level, right associativity) : py_scope.

(** ** plot_bench_metrics.py *)

Module PlotBenchMetrics.
Import Py.
Local Open Scope py_scope.

(** The two library conversions the script calls.  [None] stands for the
    [ValueError] the library raises on a string it does not accept; NaN and
    the infinities are not among the values of [float]. *)
Class Runtime : Type := {
  float : string -> option Q;
  fromisoformat : string -> option datetime
}.

(** A row as [csv.DictReader] yields it: column name to cell text. *)
Definition row : Type := list (string * string).

(** The innermost dict of [data_by_type]. *)
Record samples : Type := {
  avg_lat : list Q;
  max_lat : list Q;
  p99_lat : list Q;
  throughput : list Q
}.

Definition no_samples : samples :=
  {| avg_lat := []; max_lat := []; p99_lat := []; throughput := [] |}.

Definition by_timestamp : Type := list (datetime * samples).
Definition by_type : Type := list (string * by_timestamp).

(** What is handed to matplotlib for one figure: the title and the data of
    the four curves, which share the time axis. *)
Record figure : Type := {
  suptitle : string;
  time_seconds : list Q;
  avg_lats : list Q;
  max_lats : list Q;
  p99_lats : list Q;
  throughputs : list Q
}.

(** What one run leaves behind: the texts of the [print] calls in order,
    the figures [savefig] has written, each with the file name it was
    given, and how the run ended. *)
Record outcome : Type := {
  stdout : list string;
  saved : list (string * figure);
  status : termination
}.

(** [open(csv_file)] followed by [csv.DictReader]: the rows of the file at
    a path, if it can be read. *)
Definition filesystem : Type := string -> option (list row).

(** Lines 34-38: the text handed to [datetime.fromisoformat]. *)
Definition normalize_timestamp (group_start_time : string) : result string :=
  let ts_str := replace "Z" "+00:00" group_start_time in
  if contains "." ts_str && contains "+" ts_str then
    match split "." ts_str with
    | [base; rest] =>
        match split "+" rest with
        | [microsec; tz] =>
            Ok (base ++ "." ++ ljust 6 "0" (slice_to 6 microsec) ++ "+" ++ tz)
        | _ => Raise ValueError
        end
    | _ => Raise ValueError
    end
  else Ok ts_str.

Definition append_avg_lat (v : Q) (g : samples) : samples :=
  {| avg_lat := avg_lat g ++ [v]; max_lat := max_lat g;
     p99_lat := p99_lat g; throughput := throughput g |}.
Definition append_max_lat (v : Q) (g : samples) : samples :=
  {| avg_lat := avg_lat g; max_lat := max_lat g ++ [v];
     p99_lat := p99_lat g; throughput := throughput g |}.
Definition append_p99_lat (v : Q) (g : samples) : samples :=
  {| avg_lat := avg_lat g; max_lat := max_lat g;
     p99_lat := p99_lat g ++ [v]; throughput := throughput g |}.
Definition append_throughput (v : Q) (g : samples) : samples :=
  {| avg_lat := avg_lat g; max_lat := max_lat g;
     p99_lat := p99_lat g; throughput := throughput g ++ [v] |}.

(** [data_by_type[btype][start_time][field].append(v)] *)
Definition record_metric (app : samples -> samples) (btype : string)
    (start_time : datetime) (data_by_type : by_type) : by_type :=
  dd_update String.eqb [] (dd_update dt_eqb no_samples app start_time)
    btype data_by_type.

Definition accepted (btype : string) : bool :=
  existsb (String.eqb btype) ["READ"; "WRITE"].

Section WithRuntime.
Context `{Runtime}.

(** Lines 34-39 *)
Definition parse_timestamp (group_start_time : string) : result datetime :=
  ts_str <- normalize_timestamp group_start_time ;;
  of_option ValueError (fromisoformat ts_str).

(** [float(row[col])] *)
Definition float_cell (r : row) (col : string) : result Q :=
  cell <- getitem String.eqb col r ;;
  of_option ValueError (float cell).

(** Lines 27-51: the body of the reading loop. *)
Definition read_row (data_by_type : by_type) (r : row) : result by_type :=
  btype <- getitem String.eqb "bench_type" r ;;
  if negb (accepted btype) then Ok data_by_type
  else
    raw <- getitem String.eqb "group_start_time" r ;;
    start_time <- parse_timestamp raw ;;
    a <- float_cell r "average_latency" ;;
    m <- float_cell r "max_latency" ;;
    p <- float_cell r "99th_latency" ;;
    t <- float_cell r "throughput" ;;
    let avg := (a / 1000000)%Q in
    let mx := (m / 1000000)%Q in
    let p99 := (p / 1000000)%Q in
    let d1 := record_metric (append_avg_lat avg) btype start_time data_by_type in
    let d2 := record_metric (append_max_lat mx) btype start_time d1 in
    let d3 := record_metric (append_p99_lat p99) btype start_time d2 in
    Ok (record_metric (append_throughput t) btype start_time d3).

(** Lines 26-51: the reading loop. *)
Fixpoint read_rows (data_by_type : by_type) (rows : list row) : result by_type :=
  match rows with
  | [] => Ok data_by_type
  | r :: rows' =>
      d <- read_row data_by_type r ;;
      read_rows d rows'
  end.

End WithRuntime.

(** [sum(l) / len(l)] *)
Definition mean (l : list Q) : result Q := truediv (sum l) (len l).

(** The four series built by lines 65-81, in the order of the timestamps. *)
Record series : Type := {
  s_avg : list Q;
  s_max : list Q;
  s_p99 : list Q;
  s_thr : list Q;
  s_ts : list datetime
}.

Definition no_series : series :=
  {| s_avg := []; s_max := []; s_p99 := []; s_thr := []; s_ts := [] |}.

(** Lines 71-81: one turn of the aggregation loop. *)
Definition aggregate_step (data_by_timestamp : by_timestamp) (acc : series)
    (ts : datetime) : result series :=
  let data := dd_get dt_eqb no_samples ts data_by_timestamp in
  a <- mean (avg_lat data) ;;
  m <- mean (max_lat data) ;;
  p <- mean (p99_lat data) ;;
  Ok {| s_avg := s_avg acc ++ [a];
        s_max := s_max acc ++ [m];
        s_p99 := s_p99 acc ++ [p];
        s_thr := s_thr acc ++ [sum (throughput data)];
        s_ts := s_ts acc ++ [ts] |}.

Fixpoint aggregate (data_by_timestamp : by_timestamp) (acc : series)
    (sorted_timestamps : list datetime) : result series :=
  match sorted_timestamps with
  | [] => Ok acc
  | ts :: rest =>
      acc' <- aggregate_step data_by_timestamp acc ts ;;
      aggregate data_by_timestamp acc' rest
  end.

(** Lines 84-88: [None] is the [continue] branch. *)
Definition relative_seconds (timestamps : list datetime)
  : result (option (list Q)) :=
  match timestamps with
  | [] => Ok None
  | start_ts :: _ =>
      l <- mapM (fun ts => d <- dt_sub ts start_ts ;; Ok (total_seconds d))
             timestamps ;;
      Ok (Some l)
  end.

(** Line 133 *)
Definition output_path (csv_file btype : string) : string :=
  replace ".dat" ("_" ++ btype ++ "_metrics.png") csv_file.

(** Lines 59-135: the body of the plotting loop for one [btype];
    [None] when the turn is skipped. *)
Definition plot_type (csv_file : string) (data_by_type : by_type)
    (btype : string) : result (option (string * figure)) :=
  let data_by_timestamp := dd_get String.eqb [] btype data_by_type in
  sorted_timestamps <- sorted dt_lt (keys data_by_timestamp) ;;
  s <- aggregate data_by_timestamp no_series sorted_timestamps ;;
  rel <- relative_seconds (s_ts s) ;;
  match rel with
  | None => Ok None
  | Some secs =>
      Ok (Some (output_path csv_file btype,
                {| suptitle := "ZKBench Metrics - " ++ btype ++ " Operations";
                   time_seconds := secs;
                   avg_lats := s_avg s;
                   max_lats := s_max s;
                   p99_lats := s_p99 s;
                   throughputs := s_thr s |}))
  end.

(** Lines 58-137: the plotting loop.  An exception ends the run; what was
    saved and printed before stays.  When [savefig] raises, the figure is
    not saved and its line is not printed. *)
Fixpoint plot_types (csv_file : string) (data_by_type : by_type)
    (btypes : list string) (out : outcome) : outcome :=
  match btypes with
  | [] => out
  | btype :: rest =>
      match plot_type csv_file data_by_type btype with
      | Raise e =>
          {| stdout := stdout out; saved := saved out; status := Uncaught e |}
      | Ok None => plot_types csv_file data_by_type rest out
      | Ok (Some (output, fig)) =>
          match savefig output with
          | Raise e =>
              {| stdout := stdout out; saved := saved out;
                 status := Uncaught e |}
          | Ok _ =>
              plot_types csv_file data_by_type rest
                {| stdout := stdout out ++ ["Saved: " ++ output];
                   saved := saved out ++ [(output, fig)];
                   status := status out |}
          end
      end
  end.

Definition silent (t : termination) : outcome :=
  {| stdout := []; saved := []; status := t |}.

(** [main()], with [sys.argv] and the file system as arguments. *)
Definition main `{Runtime} (argv : list string) (fs : filesystem) : outcome :=
  match argv with
  | _ :: csv_file :: _ =>
      match fs csv_file with
      | None => silent (Uncaught FileNotFoundError)
      | Some rows =>
          match read_rows [] rows with
          | Raise e => silent (Uncaught e)
          | Ok [] =>
              {| stdout := ["No READ/WRITE test data found"];
                 saved := [];
                 status := Exited 0 |}
          | Ok data_by_type =>
              match sorted str_lt (keys data_by_type) with
              | Raise e => silent (Uncaught e)
              | Ok btypes =>
                  plot_types csv_file data_by_type btypes (silent (Exited 0))
              end
          end
      end
  | _ =>
      {| stdout := ["Usage: python plot_bench_metrics.py <summary.dat>"];
         saved := [];
         status := Exited 1 |}
  end.

End PlotBenchMetrics.

(** ** visualize_gradual_overload.py *)

Module VisualizeGradualOverload.
Import Py.
Local Open Scope py_scope.

(** A [pd.Timestamp]: whether it carries a time zone, and its instant in
    nanoseconds since the epoch.  An aware timestamp is identified with
    its instant; the aware cells of one file are taken to carry one UTC
    offset. *)
Record Timestamp : Type := { tz_aware : bool; value : Z }.

(** Library behaviour the script relies on: [pd.to_datetime] on the text
    of one cell ([None] when it raises) and the fixed-point formatting
    [f"{x:.nf}"] of a float. *)
Class Runtime : Type := {
  to_datetime : string -> option Timestamp;
  format_float : nat -> Q -> string
}.

(** A row of the metrics frame as [pd.read_csv] types it; the timestamp
    is still text. *)
Record metrics_row : Type := {
  timestamp : string;
  throughput : Q;
  avg_latency_ms : Q;
  p99_latency_ms : Q;
  workload : Z;
  phase : string
}.

(** The metrics frame: its rows, and which optional columns it has. *)
Record metrics_frame : Type := {
  metrics_rows : list metrics_row;
  has_p99_latency_ms : bool;
  has_phase : bool
}.

(** A row of the phase-transitions frame. *)
Record phase_row : Type := {
  transition_timestamp : string;
  transition_phase : string
}.

(** A plotting coordinate; [None] is NaN (a difference with [NaT], or the
    maximum of an empty column). *)
Definition coord : Type := option Q.

(** The matplotlib calls of a run, in program order; [ax] is the index of
    the subplot.  Styling arguments are left out, and so is the height of a
    phase label, which is read back from the axis limits. *)
Inductive call : Type :=
| Plot (ax : nat) (label : string) (xs ys : list Q)
| Axvline (ax : nat) (x : coord)
| Text (ax : nat) (x : coord) (label : string)
| Axvspan (ax : nat) (xmin xmax : coord) (color : string)
| Annotate (label : string) (x y xtext ytext : Q)
| Savefig (path : string).

(** What one run leaves behind: the matplotlib calls made, the texts of
    the [print] calls in order (one text can hold several lines), and how
    the run ended. *)
Record outcome : Type := {
  calls : list call;
  stdout : list string;
  status : termination
}.

Definition axes : list nat := [0%nat; 1%nat; 2%nat].

Definition phase_colors : list (string * string) :=
  [ ("INIT", "#90EE90");
    ("WARMUP", "#FFD700");
    ("LOAD_INCREASE", "#FFA500");
    ("FAILURE", "#FF6347");
    ("MITIGATION", "#87CEEB");
    ("RECOVERED", "#98FB98");
    ("STABLE", "#32CD32");
    ("PARTIAL_RECOVERY", "#F0E68C") ].

(** [phase_colors.get(name, '#FFFFFF')] *)
Definition color_of (phase_name : string) : string :=
  match lookup String.eqb phase_name phase_colors with
  | Some c => c
  | None => "#FFFFFF"
  end.

(** [Series.min()] on timestamps; [None] is [NaT]. *)
Definition ts_min (l : list Z) : option Z :=
  match l with
  | [] => None
  | t :: l' => Some (fold_left Z.min l' t)
  end.

(** [Series.max()] on floats; [None] is NaN. *)
Definition series_max (l : list Q) : coord :=
  match l with
  | [] => None
  | x :: l' => Some (fold_left Qmax l' x)
  end.

(** The time-zone awareness of a datetime column; an empty column is
    naive. *)
Definition column_aware (col : list Timestamp) : bool :=
  match col with
  | [] => false
  | t :: _ => tz_aware t
  end.

(** [(t - start_time).total_seconds()] for a timestamp [t] of the phase
    table; [start_time] is [NaT] or a timestamp of the metrics, whose
    awareness is [aware0].  A difference with [NaT] is [NaT]; subtracting
    a naive and an aware timestamp raises [TypeError]. *)
Definition seconds_since (aware0 : bool) (start_time : option Z) (t : Timestamp)
  : result coord :=
  match start_time with
  | None => Ok None
  | Some s =>
      if Bool.eqb (tz_aware t) aware0
      then Ok (Some (inject_Z (value t - s) / inject_Z 1000000000)%Q)
      else Raise TypeError
  end.

(** Line 30: the [time_seconds] column.  [start_time] is the minimum of
    the same column, so it is [NaT] only when there is no row. *)
Definition time_seconds_column (start_time : option Z) (ts : list Z) : list Q :=
  match start_time with
  | Some s => map (fun t => (inject_Z (t - s) / inject_Z 1000000000)%Q) ts
  | None => []
  end.

(** [str(n)] for an integer. *)
Definition str_int (n : Z) : string :=
  DecimalString.NilZero.string_of_int (Z.to_int n).

Definition newline : string := String (ascii_of_nat 10) EmptyString.

(** [range(n)] *)
Definition range (n : Z) : list nat := List.seq 0 (Z.to_nat n).

(** [df.iloc[i]] for [i >= 0] *)
Definition iloc {A : Type} (l : list A) (i : nat) : result A :=
  of_option IndexError (nth_error l i).

(** A loop whose body computes, then draws: the calls made up to the
    first exception, and that exception if there is one. *)
Fixpoint for_each {A : Type} (body : A -> result (list call)) (l : list A)
  : list call * option exn :=
  match l with
  | [] => ([], None)
  | x :: l' =>
      match body x with
      | Raise e => ([], Some e)
      | Ok drawn =>
          let (more, failed) := for_each body l' in ((drawn ++ more)%list, failed)
      end
  end.

(** Lines 71-75: one turn of the marker loop. *)
Definition annotate_phase (aware0 : bool) (start_time : option Z)
    (ph : Timestamp * string) : result (list call) :=
  phase_time <- seconds_since aware0 start_time (fst ph) ;;
  let phase_name := snd ph in
  Ok (flat_map (fun ax => [Axvline ax phase_time; Text ax phase_time phase_name])
        axes).

(** Lines 79-86: one turn of the background loop. *)
Definition background (aware0 : bool) (start_time : option Z)
    (phases : list (Timestamp * string)) (i : nat) : result (list call) :=
  current_phase <- iloc phases i ;;
  next_phase <- iloc phases (i + 1) ;;
  start <- seconds_since aware0 start_time (fst current_phase) ;;
  end_ <- seconds_since aware0 start_time (fst next_phase) ;;
  let color := color_of (snd current_phase) in
  Ok (map (fun ax => Axvspan ax start end_ color) axes).

(** Lines 88-95 *)
Definition last_background (aware0 : bool) (start_time : option Z)
    (phases : list (Timestamp * string)) (time_seconds : list Q)
  : result (list call) :=
  if len phases >? 0 then
    last_phase <- iloc phases (Z.to_nat (len phases - 1)) ;;
    start <- seconds_since aware0 start_time (fst last_phase) ;;
    let end_ := series_max time_seconds in
    let color := color_of (snd last_phase) in
    Ok (map (fun ax => Axvspan ax start end_ color) axes)
  else Ok [].

(** Line 97: the rows labelled FAILURE, with their [time_seconds]. *)
Definition failure_point (has_phase_column : bool)
    (rows : list (metrics_row * Q)) : list (metrics_row * Q) :=
  if has_phase_column
  then filter (fun r => String.eqb (phase (fst r)) "FAILURE") rows
  else [].

Section WithRuntime.
Context `{Runtime}.

(** [f"{x:.nf}"] *)
Definition fmt (n : nat) (x : coord) : string :=
  match x with
  | Some q => format_float n q
  | None => "nan"
  end.

(** Lines 108-114.  The frame always has an [avg_latency_ms] column here:
    line 54 has already read it. *)
Definition summary (rows : list (metrics_row * Q)) (failures : list (metrics_row * Q))
  : list string :=
  [ newline ++ "=== Test Summary ===";
    "Total test duration: " ++ fmt 1 (series_max (map snd rows)) ++ " seconds";
    "Peak throughput: "
      ++ fmt 2 (series_max (map (fun r => throughput (fst r)) rows)) ++ " ops/sec";
    "Maximum latency: "
      ++ fmt 2 (series_max (map (fun r => avg_latency_ms (fst r)) rows)) ++ " ms" ]
  ++ match failures with
     | [] => []
     | fp :: _ =>
         ["Failure detected at workload: " ++ str_int (workload (fst fp))
            ++ " requests"]
     end.

(** [pd.to_datetime(column)]: every cell has to parse, and naive and
    aware cells do not mix; the library (pandas 2 and later) raises
    [ValueError] in both cases.  The cells of one column are taken to be
    written in one format, as the benchmark writes them. *)
Definition to_datetime_column (cells : list string) : result (list Timestamp) :=
  col <- mapM (fun c => of_option ValueError (to_datetime c)) cells ;;
  if forallb (fun t => Bool.eqb (tz_aware t) (column_aware col)) col
  then Ok col
  else Raise ValueError.

(** [main(prefix)], with the two frames [pd.read_csv] returns.  Rendering
    succeeds, and so does [savefig]: the name of the image ends in
    [.png]. *)
Definition main (prefix : string) (metrics_df : metrics_frame)
    (phases_df : list phase_row) : outcome :=
  let raised e := {| calls := []; stdout := []; status := Uncaught e |} in
  match to_datetime_column (map timestamp (metrics_rows metrics_df)) with
  | Raise e => raised e
  | Ok metrics_col =>
  match to_datetime_column (map transition_timestamp phases_df) with
  | Raise e => raised e
  | Ok phases_col =>
      let metrics_ts := map value metrics_col in
      let aware0 := column_aware metrics_col in
      let phases := combine phases_col (map transition_phase phases_df) in
      let start_time := ts_min metrics_ts in
      let time_seconds := time_seconds_column start_time metrics_ts in
      let rows := combine (metrics_rows metrics_df) time_seconds in
      let plots : list call :=
        ([Plot 0 "Throughput" time_seconds (map throughput (metrics_rows metrics_df));
         Plot 1 "Avg Latency" time_seconds (map avg_latency_ms (metrics_rows metrics_df))]
        ++ (if has_p99_latency_ms metrics_df
            then [Plot 1 "P99 Latency" time_seconds
                    (map p99_latency_ms (metrics_rows metrics_df))]
            else [])
        ++ [Plot 2 "Workload" time_seconds
              (map (fun r => inject_Z (workload r)) (metrics_rows metrics_df))])%list in
      let (markers, failed) :=
        for_each (annotate_phase aware0 start_time) phases in
      match failed with
      | Some e =>
          {| calls := (plots ++ markers)%list; stdout := []; status := Uncaught e |}
      | None =>
      let (spans, failed) :=
        for_each (background aware0 start_time phases)
          (range (len phases_df - 1)) in
      match failed with
      | Some e =>
          {| calls := (plots ++ markers ++ spans)%list; stdout := [];
             status := Uncaught e |}
      | None =>
      match last_background aware0 start_time phases time_seconds with
      | Raise e =>
          {| calls := (plots ++ markers ++ spans)%list; stdout := [];
             status := Uncaught e |}
      | Ok last_span =>
          let failures := failure_point (has_phase metrics_df) rows in
          let note :=
            match failures with
            | [] => []
            | fp :: _ =>
                [Annotate ("Failure" ++ newline ++ str_int (workload (fst fp)) ++ " req")
                   (snd fp) (throughput (fst fp))
                   (snd fp - 10)%Q (throughput (fst fp) * (12 # 10))%Q]
            end in
          let out_png := prefix ++ "visualization.png" in
          {| calls := (plots ++ markers ++ spans ++ last_span
                         ++ note ++ [Savefig out_png])%list;
             stdout := ("Visualization written to " ++ out_png)
                         :: summary rows failures;
             status := Exited 0 |}
      end
      end
      end
  end
  end.

End WithRuntime.

End VisualizeGradualOverload.

(** ** Vocabulary of the statements about visualize_gradual_overload.py *)

Module OverloadSpec.
Import Py VisualizeGradualOverload.
Local Open Scope py_scope.

(** The calls that draw a phase: marker line, phase label, shaded interval. *)
Definition phase_overlay (c : call) : bool :=
  match c with
  | Axvline _ _ | Text _ _ _ | Axvspan _ _ _ _ => true
  | _ => false
  end.

(** Elapsed seconds between two instants given in nanoseconds. *)
Definition seconds_between (start_time t : Z) : Q :=
  (inject_Z (t - start_time) / inject_Z 1000000000)%Q.

(** The timestamp column of a frame, parsed: the instants of its cells. *)
Definition parse_column `{Runtime} {A : Type} (cell : A -> string) (l : list A)
  : result (list Z) :=
  col <- to_datetime_column (map cell l) ;;
  Ok (map value col).

(** No timestamp of the metrics and timestamp of the phase table differ in
    having a time zone. *)
Definition same_convention `{Runtime} (metrics_df : metrics_frame)
    (phases_df : list phase_row) : bool :=
  forallb (fun r =>
    forallb (fun p =>
      match to_datetime (timestamp r), to_datetime (transition_timestamp p) with
      | Some a, Some b => Bool.eqb (tz_aware b) (tz_aware a)
      | _, _ => true
      end) phases_df) (metrics_rows metrics_df).

(** The instants and names of a parsed phase table. *)
Definition instants (phases : list (Timestamp * string)) : list (Z * string) :=
  map (fun ph => (value (fst ph), snd ph)) phases.

(** Seconds from [start_time] to the instant [t]; NaN when [start_time]
    is [NaT]. *)
Definition since (start_time : option Z) (t : Z) : coord :=
  match start_time with
  | Some s => Some (seconds_between s t)
  | None => None
  end.

(** The marker line and the label of each transition, on the three
    subplots. *)
Definition markers (start_time : option Z) (phases : list (Z * string))
  : list call :=
  flat_map (fun ph =>
    flat_map (fun ax => [Axvline ax (since start_time (fst ph));
                         Text ax (since start_time (fst ph)) (snd ph)]) axes)
    phases.

(** The shaded intervals of a phase table: each phase runs to the next
    transition, the last one to [tmax]. *)
Fixpoint intervals (start_time : option Z) (tmax : coord)
    (phases : list (Z * string)) : list (coord * coord * string) :=
  match phases with
  | [] => []
  | p :: rest =>
      match rest with
      | [] => [(since start_time (fst p), tmax, color_of (snd p))]
      | q :: _ =>
          (since start_time (fst p), since start_time (fst q),
           color_of (snd p)) :: intervals start_time tmax rest
      end
  end.

(** One interval shaded on the three subplots. *)
Definition shade (iv : coord * coord * string) : list call :=
  map (fun ax => Axvspan ax (fst (fst iv)) (snd (fst iv)) (snd iv)) axes.

Definition is_plot (c : call) : bool :=
  match c with
  | Plot _ _ _ _ => true
  | _ => false
  end.


(** Lines 46-67: the curves of the three subplots. *)
Definition curves (metrics_df : metrics_frame) (time_seconds : list Q)
  : list call :=
  ([Plot 0 "Throughput" time_seconds (map throughput (metrics_rows metrics_df));
    Plot 1 "Avg Latency" time_seconds
      (map avg_latency_ms (metrics_rows metrics_df))]
   ++ (if has_p99_latency_ms metrics_df
       then [Plot 1 "P99 Latency" time_seconds
               (map p99_latency_ms (metrics_rows metrics_df))]
       else [])
   ++ [Plot 2 "Workload" time_seconds
         (map (fun r => inject_Z (workload r)) (metrics_rows metrics_df))])%list.

(** Lines 98-100: the arrow on the first FAILURE row. *)
Definition failure_note (failures : list (metrics_row * Q)) : list call :=
  match failures with
  | [] => []
  | fp :: _ =>
      [Annotate ("Failure" ++ newline ++ str_int (workload (fst fp)) ++ " req")
         (snd fp) (throughput (fst fp))
         (snd fp - 10)%Q (throughput (fst fp) * (12 # 10))%Q]
  end.

(** The names the colour table knows. *)
Definition known_phases : list string :=
  ["INIT"; "WARMUP"; "LOAD_INCREASE"; "FAILURE"; "MITIGATION"; "RECOVERED";
   "STABLE"; "PARTIAL_RECOVERY"].

End OverloadSpec.

(** ** Reference implementations of the library calls

    Used for the worked examples only.  [fromisoformat] follows the
    interpreter versions the script was written for, which accept
    [YYYY-MM-DD?HH:MM:SS[.fff[fff]][+HH:MM]] and nothing wider. *)

Module Reference.
Import Py.

Definition digit (c : ascii) : option Z :=
  let n := Z.of_N (N_of_ascii c) in
  if (48 <=? n) && (n <=? 57) then Some (n - 48) else None.

Fixpoint digits_from (acc : Z) (s : string) : option Z :=
  match s with
  | EmptyString => Some acc
  | String c s' =>
      match digit c with
      | Some d => digits_from (10 * acc + d) s'
      | None => None
      end
  end.

(** A non-empty run of decimal digits. *)
Definition number (s : string) : option Z :=
  match s with
  | EmptyString => None
  | _ => digits_from 0 s
  end.

Definition signed (s : string) : option Z :=
  match s with
  | String "-" s' => option_map Z.opp (number s')
  | String "+" s' => number s'
  | _ => number s
  end.

Definition pow10 (e : Z) : Q :=
  if e <? 0 then (1 / inject_Z (10 ^ (- e)))%Q else inject_Z (10 ^ e).

Definition mantissa (s : string) : option Q :=
  match split "." s with
  | [i] => option_map inject_Z (signed i)
  | [i; f] =>
      match signed i, number f with
      | Some a, Some b =>
          let frac := (inject_Z b / inject_Z (10 ^ Z.of_nat (String.length f)))%Q in
          Some (if contains "-" i then inject_Z a - frac else inject_Z a + frac)%Q
      | _, _ => None
      end
  | _ => None
  end.

(** [float(s)] on decimal literals such as [100], [12.5] or [10e6]. *)
Definition float (s : string) : option Q :=
  match split "e" s with
  | [m] => option_map Qred (mantissa m)
  | [m; e] =>
      match mantissa m, signed e with
      | Some a, Some b => Some (Qred (a * pow10 b))
      | _, _ => None
      end
  | _ => None
  end.

Definition leap (y : Z) : bool :=
  ((y mod 4 =? 0) && negb (y mod 100 =? 0)) || (y mod 400 =? 0).

Definition days_in_month (y m : Z) : Z :=
  if m =? 2 then (if leap y then 29 else 28)
  else if (m =? 4) || (m =? 6) || (m =? 9) || (m =? 11) then 30 else 31.

(** Days from 1970-01-01 to the given civil date. *)
Definition days_from_civil (y m d : Z) : Z :=
  let y' := if m <=? 2 then y - 1 else y in
  let era := y' / 400 in
  let yoe := y' - era * 400 in
  let doy := (153 * (if m >? 2 then m - 3 else m + 9) + 2) / 5 + d - 1 in
  let doe := yoe * 365 + yoe / 4 - yoe / 100 + doy in
  era * 146097 + doe - 719468.

Definition parse_date (s : string) : option Z :=
  match number (substring 0 4 s), substring 4 1 s,
        number (substring 5 2 s), substring 7 1 s,
        number (substring 8 2 s) with
  | Some y, "-", Some m, "-", Some d =>
      if (String.length s =? 10)%nat
         && (1 <=? y) && (1 <=? m) && (m <=? 12)
         && (1 <=? d) && (d <=? days_in_month y m)
      then Some (days_from_civil y m d) else None
  | _, _, _, _, _ => None
  end.

(** [HH:MM:SS], in seconds. *)
Definition parse_hms (s : string) : option Z :=
  match number (substring 0 2 s), substring 2 1 s,
        number (substring 3 2 s), substring 5 1 s,
        number (substring 6 2 s) with
  | Some h, ":", Some m, ":", Some sec =>
      if (String.length s =? 8)%nat && (h <? 24) && (m <? 60) && (sec <? 60)
      then Some (h * 3600 + m * 60 + sec) else None
  | _, _, _, _, _ => None
  end.

(** [HH:MM], in seconds. *)
Definition parse_offset (s : string) : option Z :=
  match number (substring 0 2 s), substring 2 1 s, number (substring 3 2 s) with
  | Some h, ":", Some m =>
      if (String.length s =? 5)%nat && (h <? 24) && (m <? 60)
      then Some (h * 3600 + m * 60) else None
  | _, _, _ => None
  end.

(** [HH:MM:SS[.fff[fff]]], in microseconds. *)
Definition parse_time (s : string) : option Z :=
  match parse_hms (substring 0 8 s) with
  | None => None
  | Some sec =>
      let rest := substring 8 (String.length s - 8) s in
      match rest with
      | EmptyString => Some (sec * 1000000)
      | String "." f =>
          match number f with
          | Some us =>
              if (String.length f =? 6)%nat then Some (sec * 1000000 + us)
              else if (String.length f =? 3)%nat
                   then Some (sec * 1000000 + us * 1000)
                   else None
          | None => None
          end
      | _ => None
      end
  end.

(** Position of the first sign character, if any. *)
Fixpoint sign_index (s : string) : option nat :=
  match s with
  | EmptyString => None
  | String c s' =>
      if Ascii.eqb c "+" || Ascii.eqb c "-" then Some O
      else option_map S (sign_index s')
  end.

Definition fromisoformat (s : string) : option datetime :=
  match parse_date (substring 0 10 s) with
  | None => None
  | Some days =>
      let rest := substring 11 (String.length s - 11) s in
      if (String.length s <? 11)%nat then None
      else
        match sign_index rest with
        | None =>
            option_map (fun us => {| aware := false;
                                     micros := days * 86400000000 + us |})
              (parse_time rest)
        | Some i =>
            let tz := substring (i + 1) (String.length rest - (i + 1)) rest in
            match parse_time (substring 0 i rest), parse_offset tz with
            | Some us, Some off =>
                let off' := if contains "-" (substring i 1 rest) then - off else off in
                Some {| aware := true;
                        micros := days * 86400000000 + us - off' * 1000000 |}
            | _, _ => None
            end
        end
  end.

(** [pd.to_datetime] on one cell, for the same format, in nanoseconds. *)
Definition to_datetime (s : string) : option VisualizeGradualOverload.Timestamp :=
  option_map (fun d => {| VisualizeGradualOverload.tz_aware := aware d;
                          VisualizeGradualOverload.value := micros d * 1000 |})
    (fromisoformat s).

Definition pad_left (width : nat) (s : string) : string :=
  repeat_char "0" (width - String.length s) ++ s.

(** The integer nearest to [q], ties to even. *)
Definition round_half_even (q : Q) : Z :=
  let n := Qnum q in
  let d := Z.pos (Qden q) in
  let fl := n / d in
  let r := n mod d in
  match 2 * r ?= d with
  | Lt => fl
  | Gt => fl + 1
  | Eq => if Z.even fl then fl else fl + 1
  end.

(** [f"{q:.nf}"] for the exact value [q]. *)
Definition format_float (n : nat) (q : Q) : string :=
  let scale := 10 ^ Z.of_nat n in
  let r := round_half_even (q * inject_Z scale) in
  let a := Z.abs r in
  let body := NilZero.string_of_int (Z.to_int (a / scale)) in
  let frac := pad_left n (NilZero.string_of_int (Z.to_int (a mod scale))) in
  (if r <? 0 then "-" else "")
    ++ body ++ (match n with O => "" | _ => "." ++ frac end).

Definition bench_runtime : PlotBenchMetrics.Runtime :=
  {| PlotBenchMetrics.float := float;
     PlotBenchMetrics.fromisoformat := fromisoformat |}.

Definition overload_runtime : VisualizeGradualOverload.Runtime :=
  {| VisualizeGradualOverload.to_datetime := to_datetime;
     VisualizeGradualOverload.format_float := format_float |}.

End Reference.

(** ** Vocabulary of the statements about plot_bench_metrics.py *)

Module BenchSpec.
Import Py PlotBenchMetrics.
Local Open Scope py_scope.

(** An accepted row after parsing: latencies already in milliseconds. *)
Record sample : Type := {
  sm_type : string;
  sm_time : datetime;
  sm_avg : Q;
  sm_max : Q;
  sm_p99 : Q;
  sm_thr : Q
}.

(** What a row denotes: nothing when it is discarded, a sample when it is
    accepted and well formed, an exception otherwise. *)
Definition sample_of `{Runtime} (r : row) : result (option sample) :=
  btype <- getitem String.eqb "bench_type" r ;;
  if negb (accepted btype) then Ok None
  else
    raw <- getitem String.eqb "group_start_time" r ;;
    start_time <- parse_timestamp raw ;;
    a <- float_cell r "average_latency" ;;
    m <- float_cell r "max_latency" ;;
    p <- float_cell r "99th_latency" ;;
    t <- float_cell r "throughput" ;;
    Ok (Some {| sm_type := btype; sm_time := start_time;
                sm_avg := (a / 1000000)%Q; sm_max := (m / 1000000)%Q;
                sm_p99 := (p / 1000000)%Q; sm_thr := t |}).

(** The samples of a file, in row order. *)
Fixpoint samples_of `{Runtime} (rows : list row) : result (list sample) :=
  match rows with
  | [] => Ok []
  | r :: rows' =>
      o <- sample_of r ;;
      ss <- samples_of rows' ;;
      Ok (match o with Some s => s :: ss | None => ss end)
  end.

(** The samples of one (operation type, timestamp) group. *)
Definition in_group (btype : string) (ts : datetime) (s : sample) : bool :=
  String.eqb btype (sm_type s) && dt_eqb ts (sm_time s).

Definition group (btype : string) (ts : datetime) (ss : list sample)
  : list sample :=
  filter (in_group btype ts) ss.

(** The stored lists of a group. *)
Definition stored (data_by_type : by_type) (btype : string) (ts : datetime)
  : option samples :=
  match lookup String.eqb btype data_by_type with
  | Some data_by_timestamp => lookup dt_eqb ts data_by_timestamp
  | None => None
  end.

(** What the four appends of lines 48-51 do for one sample. *)
Definition add_sample (s : sample) (data_by_type : by_type) : by_type :=
  let b := sm_type s in
  let t := sm_time s in
  record_metric (append_throughput (sm_thr s)) b t
    (record_metric (append_p99_lat (sm_p99 s)) b t
       (record_metric (append_max_lat (sm_max s)) b t
          (record_metric (append_avg_lat (sm_avg s)) b t data_by_type))).

(** The lists of a group after the samples [l] have been appended. *)
Definition pushes (l : list sample) (g : samples) : samples :=
  {| avg_lat := avg_lat g ++ map sm_avg l;
     max_lat := max_lat g ++ map sm_max l;
     p99_lat := p99_lat g ++ map sm_p99 l;
     throughput := throughput g ++ map sm_thr l |}.

Definition or_empty (o : option samples) : samples :=
  match o with
  | Some g => g
  | None => no_samples
  end.

(** [savefig] accepts the image names derived from the input path. *)
Definition accepts_images (csv_file : string) : bool :=
  forallb (fun btype =>
             match savefig (output_path csv_file btype) with
             | Ok _ => true
             | Raise _ => false
             end) ["READ"; "WRITE"].

(** The line printed for a saved image. *)
Definition printed_line (pf : string * figure) : string := "Saved: " ++ fst pf.

(** Seconds elapsed between [start_ts] and [ts]. *)
Definition elapsed (start_ts ts : datetime) : Q :=
  total_seconds (micros ts - micros start_ts).

(** Arithmetic mean, as a rational. *)
Definition average (l : list Q) : Q :=
  (fold_right Qplus 0 l / inject_Z (Z.of_nat (List.length l)))%Q.

Definition total (l : list Q) : Q := fold_right Qplus 0%Q l.

(** The timestamps of one operation type are all naive or all aware. *)
Definition coherent (ss : list sample) : Prop :=
  forall s1 s2, In s1 ss -> In s2 ss -> sm_type s1 = sm_type s2 ->
    aware (sm_time s1) = aware (sm_time s2).

(** The cell of a row that decides whether it is kept. *)
Definition kept (r : row) : bool :=
  match lookup String.eqb "bench_type" r with
  | Some btype => accepted btype
  | None => false
  end.

(** The operation type of a row, when it is an accepted one. *)
Definition accepted_type (r : row) : list string :=
  match lookup String.eqb "bench_type" r with
  | Some btype => if accepted btype then [btype] else []
  | None => []
  end.

(** The distinct accepted operation types among the rows. *)
Definition types_present (rows : list row) : list string :=
  nodup string_dec (flat_map accepted_type rows).

(** A file name without its extension: the text before the last dot. *)
Fixpoint strip_extension (path : string) : string :=
  match path with
  | EmptyString => EmptyString
  | String c rest =>
      if Ascii.eqb c "." && negb (contains "." rest) then EmptyString
      else String c (strip_extension rest)
  end.

(** [old] occurs nowhere in [s]. *)
Fixpoint free_of (old s : string) : bool :=
  match s with
  | EmptyString => true
  | String _ s' => negb (String.prefix old s) && free_of old s'
  end.

Definition is_digit (c : ascii) : bool :=
  let n := N_of_ascii c in ((48 <=? n) && (n <=? 57))%N.

Fixpoint all_digits (s : string) : bool :=
  match s with
  | EmptyString => true
  | String c s' => is_digit c && all_digits s'
  end.

(** None of the characters the normalization looks for. *)
Definition plain (s : string) : bool :=
  negb (contains "." s) && negb (contains "+" s) && negb (contains "Z" s).

(** Two outcomes of one turn of the aggregation loop that differ at most
    in the representation of their rational numbers. *)
Definition point_equiv (r r' : result series) : Prop :=
  match r, r' with
  | Ok s, Ok s' =>
      Forall2 Qeq (s_avg s) (s_avg s') /\
      Forall2 Qeq (s_max s) (s_max s') /\
      Forall2 Qeq (s_p99 s) (s_p99 s') /\
      Forall2 Qeq (s_thr s) (s_thr s') /\
      s_ts s = s_ts s'
  | _, _ => False
  end.

(** Two figures that differ at most in the representation of their
    rational numbers. *)
Definition figure_equiv (f g : figure) : Prop :=
  suptitle f = suptitle g /\
  Forall2 Qeq (time_seconds f) (time_seconds g) /\
  Forall2 Qeq (avg_lats f) (avg_lats g) /\
  Forall2 Qeq (max_lats f) (max_lats g) /\
  Forall2 Qeq (p99_lats f) (p99_lats g) /\
  Forall2 Qeq (throughputs f) (throughputs g).

(** Two series, two results of a turn of the plotting loop and two runs
    that differ at most in the representation of their rational numbers. *)
Definition series_equiv (s s' : series) : Prop :=
  Forall2 Qeq (s_avg s) (s_avg s') /\
  Forall2 Qeq (s_max s) (s_max s') /\
  Forall2 Qeq (s_p99 s) (s_p99 s') /\
  Forall2 Qeq (s_thr s) (s_thr s') /\
  s_ts s = s_ts s'.

Definition image_equiv (pf pf' : string * figure) : Prop :=
  fst pf = fst pf' /\ figure_equiv (snd pf) (snd pf').

Definition plot_equiv (r r' : result (option (string * figure))) : Prop :=
  match r, r' with
  | Ok None, Ok None => True
  | Ok (Some pf), Ok (Some pf') => image_equiv pf pf'
  | Raise e, Raise e' => e = e'
  | _, _ => False
  end.

Definition outcome_equiv (o o' : outcome) : Prop :=
  stdout o = stdout o' /\
  status o = status o' /\
  Forall2 image_equiv (saved o) (saved o').

(** What the four appends of lines 48-51 do to the dict of one type. *)
Definition add_to_type (s : sample) (data_by_timestamp : by_timestamp)
  : by_timestamp :=
  let t := sm_time s in
  dd_update dt_eqb no_samples (append_throughput (sm_thr s)) t
    (dd_update dt_eqb no_samples (append_p99_lat (sm_p99 s)) t
       (dd_update dt_eqb no_samples (append_max_lat (sm_max s)) t
          (dd_update dt_eqb no_samples (append_avg_lat (sm_avg s)) t
             data_by_timestamp))).

(** The row belongs to operation type [btype]. *)
Definition type_is (btype : string) (r : row) : bool :=
  match lookup String.eqb "bench_type" r with
  | Some t => String.eqb btype t
  | None => false
  end.

(** The accepted types among [present], in the order of the plotting loop. *)
Definition plotted_types (present : list string) : list string :=
  filter (fun b => existsb (String.eqb b) present) ["READ"; "WRITE"].


(** How many times [c] occurs in [s]. *)
Fixpoint occurrences (c : ascii) (s : string) : nat :=
  match s with
  | EmptyString => O
  | String a s' => if Ascii.eqb a c then S (occurrences c s') else occurrences c s'
  end.

(** The text after the first [c] of [s]; empty when there is none. *)
Fixpoint after (c : ascii) (s : string) : string :=
  match s with
  | EmptyString => EmptyString
  | String a s' => if Ascii.eqb a c then s' else after c s'
  end.

End BenchSpec.

(** ** Worked examples *)

Module Examples.
Import Py PlotBenchMetrics BenchSpec.

Definition client_row (btype time avg mx p99 thr : string) : row :=
  [ ("bench_type", btype);
    ("group_start_time", time);
    ("average_latency", avg);
    ("max_latency", mx);
    ("99th_latency", p99);
    ("throughput", thr) ].

(** Two clients reporting for the same READ interval. *)
Definition two_clients : list row :=
  [ client_row "READ" "2025-01-01T00:00:00.123Z" "10e6" "20e6" "15e6" "100";
    client_row "READ" "2025-01-01T00:00:00.123Z" "20e6" "20e6" "15e6" "50" ].

Definition two_clients_time : datetime :=
  {| aware := true; micros := 1735689600123000 |}.

Definition two_clients_swapped : list row := rev two_clients.

(** A file with nothing but an operation type the script does not plot. *)
Definition only_create : list row :=
  [ client_row "CREATE" "2025-01-01T00:00:00.123Z" "10e6" "20e6" "15e6" "100" ].

(** A file system with one file. *)
Definition one_file (path : string) (rows : list row) : filesystem :=
  fun p => if String.eqb p path then Some rows else None.

(** Two READ intervals one and a half seconds apart, and one WRITE row. *)
Definition three_rows : list row :=
  [ client_row "READ" "2025-01-01T00:00:01.62300078Z" "10e6" "20e6" "15e6" "100";
    client_row "WRITE" "2025-01-01T00:00:00.123Z" "30e6" "40e6" "35e6" "10";
    client_row "READ" "2025-01-01T00:00:00.123Z" "20e6" "20e6" "15e6" "50" ].



(** A good row, then a row whose timestamp is no date, then a row without
    any of the columns. *)
Definition bad_second_row : list row :=
  [ client_row "READ" "2025-01-01T00:00:00.123Z" "20e6" "20e6" "15e6" "50";
    client_row "WRITE" "yesterday" "30e6" "40e6" "35e6" "10";
    [] ].
End Examples.

Module OverloadExamples.
Import Py VisualizeGradualOverload.

Definition sample_row (time : string) (thr lat : Q) (load : Z)
    (label : string) : metrics_row :=
  {| timestamp := time; throughput := thr; avg_latency_ms := lat;
     p99_latency_ms := lat; workload := load; phase := label |}.

(** One minute of metrics, a sample every thirty seconds. *)
Definition one_minute : metrics_frame :=
  {| metrics_rows :=
       [ sample_row "2025-01-01T00:00:00" 100 5 10 "WARMUP";
         sample_row "2025-01-01T00:00:30" 250 (15 # 2) 40 "FAILURE";
         sample_row "2025-01-01T00:01:00" 120 9 20 "FAILURE" ];
     has_p99_latency_ms := false;
     has_phase := true |}.

Definition two_phases : list phase_row :=
  [ {| transition_timestamp := "2025-01-01T00:00:00";
       transition_phase := "WARMUP" |};
    {| transition_timestamp := "2025-01-01T00:00:30";
       transition_phase := "FAILURE" |} ].

(** A table whose second phase has a name of its own. *)
Definition custom_phases : list phase_row :=
  [ {| transition_timestamp := "2025-01-01T00:00:00";
       transition_phase := "WARMUP" |};
    {| transition_timestamp := "2025-01-01T00:00:30";
       transition_phase := "CHAOS" |} ].

(** A phase table written with a time zone, unlike the metrics. *)
Definition aware_phases : list phase_row :=
  [ {| transition_timestamp := "2025-01-01T00:00:00+00:00";
       transition_phase := "WARMUP" |};
    {| transition_timestamp := "2025-01-01T00:00:30+00:00";
       transition_phase := "FAILURE" |} ].

(** A phase table with a date that does not parse. *)
Definition bad_phases : list phase_row :=
  [ {| transition_timestamp := "noon"; transition_phase := "WARMUP" |} ].

End OverloadExamples.

(** ** Facts about the Python fragment *)

Module PyFacts.
Import Py.

Lemma append_assoc (a b c : string) : (a ++ b) ++ c = a ++ (b ++ c).
Proof. induction a as [|x a IH]; simpl; [reflexivity | now rewrite IH]. Qed.

Lemma append_nil_r (a : string) : a ++ "" = a.
Proof. induction a as [|x a IH]; simpl; [reflexivity | now rewrite IH]. Qed.

Lemma length_append (a b : string) :
  String.length (a ++ b) = (String.length a + String.length b)%nat.
Proof. induction a as [|x a IH]; simpl; [reflexivity | now rewrite IH]. Qed.

Lemma prefix_nil (s : string) : String.prefix "" s = true.
Proof. now destruct s. Qed.

Lemma prefix_cons (a b : ascii) (s1 s2 : string) :
  String.prefix (String a s1) (String b s2) = Ascii.eqb a b && String.prefix s1 s2.
Proof.
  simpl. destruct (ascii_dec a b) as [->|Hne].
  - now rewrite Ascii.eqb_refl.
  - destruct (Ascii.eqb_spec a b); [contradiction | reflexivity].
Qed.

Lemma contains_app (c : ascii) (s1 s2 : string) :
  contains c (s1 ++ s2) = contains c s1 || contains c s2.
Proof.
  induction s1 as [|a s1 IH]; simpl; [reflexivity|].
  rewrite IH. now rewrite orb_assoc.
Qed.

Lemma split_plain (c : ascii) (s : string) :
  contains c s = false -> split c s = [s].
Proof.
  induction s as [|a s IH]; simpl; intros Hc; [reflexivity|].
  apply orb_false_iff in Hc. destruct Hc as [Ha Hs].
  rewrite Ha, (IH Hs). reflexivity.
Qed.

Lemma split_app (c : ascii) (s1 s2 : string) :
  contains c s1 = false ->
  split c (s1 ++ String c s2) = s1 :: split c s2.
Proof.
  induction s1 as [|a s1 IH]; simpl; intros Hc.
  - now rewrite Ascii.eqb_refl.
  - apply orb_false_iff in Hc. destruct Hc as [Ha Hs].
    rewrite Ha, (IH Hs). reflexivity.
Qed.

(** Replacing a single character works character by character. *)
Lemma replace_char_cons (z a : ascii) (new s : string) :
  replace (String z "") new (String a s) =
  if Ascii.eqb a z then new ++ replace (String z "") new s
  else String a (replace (String z "") new s).
Proof.
  unfold replace. simpl.
  destruct (ascii_dec z a) as [->|Hne].
  - now rewrite prefix_nil, Ascii.eqb_refl.
  - destruct (Ascii.eqb_spec a z) as [->|_]; [contradiction | reflexivity].
Qed.

Lemma replace_char_app (z : ascii) (new s1 s2 : string) :
  replace (String z "") new (s1 ++ s2) =
  replace (String z "") new s1 ++ replace (String z "") new s2.
Proof.
  induction s1 as [|a s1 IH].
  - reflexivity.
  - change (String a s1 ++ s2) with (String a (s1 ++ s2)).
    rewrite !replace_char_cons, IH.
    destruct (Ascii.eqb a z); [now rewrite append_assoc | reflexivity].
Qed.

Lemma replace_char_absent (z : ascii) (new s : string) :
  contains z s = false -> replace (String z "") new s = s.
Proof.
  induction s as [|a s IH]; intros Hc; [reflexivity|].
  simpl in Hc. apply orb_false_iff in Hc. destruct Hc as [Ha Hs].
  now rewrite replace_char_cons, Ha, (IH Hs).
Qed.

Lemma length_repeat_char (c : ascii) (n : nat) :
  String.length (repeat_char c n) = n.
Proof. induction n; simpl; congruence. Qed.

Lemma length_slice_to (n : nat) (s : string) :
  String.length (slice_to n s) = Nat.min n (String.length s).
Proof.
  unfold slice_to. revert s.
  induction n as [|n IH]; intros [|a s]; simpl; try reflexivity.
  now rewrite IH.
Qed.

Lemma slice_to_short (n : nat) (s : string) :
  (String.length s <= n)%nat -> slice_to n s = s.
Proof.
  unfold slice_to. revert s.
  induction n as [|n IH]; intros [|a s]; simpl; intros Hl;
    try reflexivity; try lia.
  rewrite IH by lia. reflexivity.
Qed.

Lemma slice_to_prefix (n : nat) (s : string) :
  String.prefix (slice_to n s) s = true.
Proof.
  unfold slice_to. revert s.
  induction n as [|n IH]; intros [|a s]; simpl; try reflexivity.
  destruct (ascii_dec a a) as [_|Hne]; [apply IH | contradiction].
Qed.

Lemma length_ljust (w : nat) (c : ascii) (s : string) :
  (String.length s <= w)%nat -> String.length (ljust w c s) = w.
Proof.
  intros Hl. unfold ljust. rewrite length_append, length_repeat_char. lia.
Qed.

Lemma ljust_full (w : nat) (c : ascii) (s : string) :
  (w <= String.length s)%nat -> ljust w c s = s.
Proof.
  intros Hl. unfold ljust.
  replace (w - String.length s)%nat with 0%nat by lia.
  apply append_nil_r.
Qed.

(** *** Dictionaries *)

Section DictFacts.
Context {K V : Type} (eqb : K -> K -> bool).
Hypothesis eqb_spec : forall a b, reflect (a = b) (eqb a b).

Lemma lookup_dd_update (dflt : V) (f : V -> V) (k k' : K) (d : list (K * V)) :
  lookup eqb k (dd_update eqb dflt f k' d) =
  if eqb k k' then Some (f (dd_get eqb dflt k' d)) else lookup eqb k d.
Proof.
  unfold dd_get. induction d as [|[k0 v] d IH]; simpl.
  - reflexivity.
  - destruct (eqb_spec k' k0) as [->|Hne]; simpl.
    + destruct (eqb_spec k k0); reflexivity.
    + rewrite IH.
      destruct (eqb_spec k k0) as [->|Hk]; [|reflexivity].
      destruct (eqb_spec k0 k'); [congruence | reflexivity].
Qed.

Lemma lookup_in_keys (k : K) (d : list (K * V)) :
  In k (keys d) <-> lookup eqb k d <> None.
Proof.
  induction d as [|[k0 v] d IH]; simpl.
  - split; [contradiction | congruence].
  - destruct (eqb_spec k k0) as [->|Hne].
    + split; [discriminate | auto].
    + rewrite <- IH. split; [intros [E|I]; [congruence|exact I] | auto].
Qed.

Lemma keys_dd_update (dflt : V) (f : V -> V) (k : K) (d : list (K * V)) :
  keys (dd_update eqb dflt f k d) =
  match lookup eqb k d with
  | Some _ => keys d
  | None => (keys d ++ [k])%list
  end.
Proof.
  induction d as [|[k0 v] d IH]; simpl.
  - reflexivity.
  - destruct (eqb_spec k k0) as [->|Hne]; simpl; [reflexivity|].
    rewrite IH. now destruct (lookup eqb k d).
Qed.

Lemma NoDup_keys_dd_update (dflt : V) (f : V -> V) (k : K) (d : list (K * V)) :
  NoDup (keys d) -> NoDup (keys (dd_update eqb dflt f k d)).
Proof.
  intros Hnd. rewrite keys_dd_update.
  destruct (lookup eqb k d) eqn:E; [exact Hnd|].
  apply NoDup_app; [exact Hnd | repeat constructor; auto |].
  intros x Hx [<-|[]]. apply lookup_in_keys in Hx. congruence.
Qed.
Lemma lookup_In (k : K) (v : V) (d : list (K * V)) :
  lookup eqb k d = Some v -> exists k', In (k', v) d.
Proof.
  induction d as [|[k0 v0] d IH]; simpl; [discriminate|].
  destruct (eqb k k0).
  - intros E. injection E as ->. eauto.
  - intros E. destruct (IH E) as [k' Hin]. eauto.
Qed.

(** A property of the values that updates preserve holds of the whole
    dictionary. *)
Lemma Forall_dd_update (P : V -> Prop) (dflt : V) (f : V -> V) (k : K)
    (d : list (K * V)) :
  P (f dflt) -> (forall v, P v -> P (f v)) ->
  Forall (fun kv => P (snd kv)) d ->
  Forall (fun kv => P (snd kv)) (dd_update eqb dflt f k d).
Proof.
  intros Hd Hf. induction 1 as [|[k0 v] d Hv Hrest IH]; simpl.
  - repeat constructor. exact Hd.
  - destruct (eqb k k0); constructor; simpl; auto.
Qed.
End DictFacts.

(** *** Sums *)

Lemma fold_left_Qplus (l : list Q) (a : Q) :
  (fold_left Qplus l a == a + fold_right Qplus 0 l)%Q.
Proof.
  revert a. induction l as [|x l IH]; intros a; simpl.
  - ring.
  - rewrite IH. ring.
Qed.

Lemma sum_fold_right (l : list Q) : (sum l == fold_right Qplus 0 l)%Q.
Proof. unfold sum. rewrite fold_left_Qplus. ring. Qed.

Lemma fold_right_Qplus_perm (l l' : list Q) :
  Permutation l l' -> (fold_right Qplus 0 l == fold_right Qplus 0 l')%Q.
Proof.
  induction 1 as [|x l l' _ IH|x y l|l l' l'' _ IH1 _ IH2]; simpl.
  - reflexivity.
  - now rewrite IH.
  - ring.
  - now rewrite IH1.
Qed.

Lemma Permutation_filter_compat {A : Type} (f : A -> bool) (l l' : list A) :
  Permutation l l' -> Permutation (filter f l) (filter f l').
Proof.
  induction 1 as [|x l l' _ IH|x y l|l l' l'' _ IH1 _ IH2]; simpl.
  - constructor.
  - destruct (f x); [now constructor | exact IH].
  - destruct (f x), (f y); try reflexivity. constructor.
  - now transitivity (filter f l').
Qed.

Lemma append_same_length (a b c d : string) :
  String.length a = String.length b -> a ++ c = b ++ d -> a = b.
Proof.
  revert b. induction a as [|x a IH]; intros [|y b]; simpl; intros Hl E;
    try discriminate; [reflexivity|].
  injection E as -> E. f_equal. apply IH; [now injection Hl | exact E].
Qed.

Lemma append_inj_l (a b c : string) : a ++ b = a ++ c -> b = c.
Proof.
  induction a as [|x a IH]; simpl; intros E; [exact E|].
  injection E as E. now apply IH.
Qed.

Lemma append_inj_r (a b c : string) : a ++ c = b ++ c -> a = b.
Proof.
  intros E. apply (append_same_length a b c c); [|exact E].
  apply (f_equal String.length) in E. rewrite !length_append in E. lia.
Qed.

Lemma NoDup_map_injective {A B : Type} (f : A -> B) (l : list A) :
  (forall a b, f a = f b -> a = b) -> NoDup l -> NoDup (map f l).
Proof.
  intros Hinj. induction 1 as [|x l Hx _ IH]; simpl; constructor; [|exact IH].
  intros Hin. apply in_map_iff in Hin. destruct Hin as (y & E & Hy).
  apply Hinj in E. now subst y.
Qed.

(** *** sorted *)

Section SortedFacts.
Context {A : Type} (lt : A -> A -> result bool).

Lemma insert_perm (x : A) (l r : list A) :
  insert lt x l = Ok r -> Permutation (x :: l) r.
Proof.
  revert r. induction l as [|y l IH]; simpl; intros r E.
  - injection E as <-. reflexivity.
  - destruct (lt y x) as [[|]|e]; simpl in E; [| |discriminate].
    + destruct (insert lt x l) as [r'|e]; simpl in E; [|discriminate].
      injection E as <-. rewrite perm_swap. constructor. now apply IH.
    + injection E as <-. reflexivity.
Qed.

Lemma sorted_perm (l r : list A) : sorted lt l = Ok r -> Permutation l r.
Proof.
  revert r. induction l as [|x l IH]; simpl; intros r E.
  - injection E as <-. constructor.
  - destruct (sorted lt l) as [r'|e]; simpl in E; [|discriminate].
    rewrite (IH r' eq_refl). now apply insert_perm.
Qed.

Lemma insert_ok (x : A) (l : list A) :
  (forall y, In y l -> exists c, lt y x = Ok c) ->
  exists r, insert lt x l = Ok r.
Proof.
  induction l as [|y l IH]; simpl; intros Hc; [eauto|].
  destruct (Hc y (or_introl eq_refl)) as [c ->]. simpl.
  destruct c; [|eauto].
  destruct IH as [r ->]; [auto|]. simpl. eauto.
Qed.

(** Sorting succeeds as soon as any two elements can be compared. *)
Lemma sorted_ok (l : list A) :
  (forall a b, In a l -> In b l -> exists c, lt a b = Ok c) ->
  exists r, sorted lt l = Ok r.
Proof.
  induction l as [|x l IH]; simpl; intros Hc; [eauto|].
  destruct IH as [r' E]; [auto|]. rewrite E. simpl.
  apply insert_ok. intros y Hy. apply Hc; [right | now left].
  apply Permutation_in with (l := r'); [symmetry; now apply sorted_perm | exact Hy].
Qed.

Section Order.
Variable le : A -> A -> Prop.
Hypothesis le_trans : forall a b c, le a b -> le b c -> le a c.
Hypothesis lt_true : forall a b, lt a b = Ok true -> le a b.
Hypothesis lt_false : forall a b, lt a b = Ok false -> le b a.

Lemma insert_sorted (x : A) (l r : list A) :
  StronglySorted le l -> insert lt x l = Ok r -> StronglySorted le r.
Proof.
  revert r. induction l as [|y l IH]; simpl; intros r Hs E.
  - injection E as <-. repeat constructor.
  - apply StronglySorted_inv in Hs. destruct Hs as [Hl Hy].
    destruct (lt y x) as [[|]|e] eqn:C; simpl in E; [| |discriminate].
    + destruct (insert lt x l) as [r'|e] eqn:I; simpl in E; [|discriminate].
      injection E as <-. constructor; [now apply IH|].
      apply (Permutation_Forall (insert_perm x l r' I)).
      constructor; [now apply lt_true | exact Hy].
    + injection E as <-. constructor; [now constructor|].
      constructor; [now apply lt_false|].
      eapply Forall_impl; [|exact Hy]. intros z Hz.
      apply le_trans with (b := y); [now apply lt_false | exact Hz].
Qed.

Lemma sorted_sorted (l r : list A) :
  sorted lt l = Ok r -> StronglySorted le r.
Proof.
  revert r. induction l as [|x l IH]; simpl; intros r E.
  - injection E as <-. constructor.
  - destruct (sorted lt l) as [r'|e]; simpl in E; [|discriminate].
    eapply insert_sorted; [now apply IH | exact E].
Qed.
End Order.

(** Two sorted lists with the same elements are the same list. *)
Lemma sorted_unique (le : A -> A -> Prop) (l l' : list A) :
  (forall a b, le a b -> le b a -> a = b) ->
  StronglySorted le l -> StronglySorted le l' -> Permutation l l' -> l = l'.
Proof.
  intros Hanti Hs. revert l'.
  induction Hs as [|a l Hl IH Ha]; intros l' Hs' Hp.
  - now apply Permutation_nil in Hp.
  - destruct Hs' as [|b l' Hl' Hb].
    + apply Permutation_sym, Permutation_nil in Hp. discriminate.
    + assert (E : a = b).
      { assert (Hin : In a (b :: l')) by (apply (Permutation_in _ Hp); now left).
        assert (Hin' : In b (a :: l))
          by (apply (Permutation_in _ (Permutation_sym Hp)); now left).
        destruct Hin as [E|Hin]; [now symmetry|].
        destruct Hin' as [E|Hin']; [exact E|].
        rewrite Forall_forall in Ha, Hb. apply Hanti; auto. }
      subst b. f_equal. apply IH; [exact Hl'|].
      now apply Permutation_cons_inv in Hp.
Qed.
End SortedFacts.

Lemma dt_lt_inv (a b : datetime) (c : bool) :
  dt_lt a b = Ok c -> aware a = aware b /\ c = (micros a <? micros b).
Proof.
  unfold dt_lt. destruct (Bool.eqb_spec (aware a) (aware b)); [|discriminate].
  intros E. injection E as <-. auto.
Qed.

Lemma sorted_dt_le (l r : list datetime) :
  sorted dt_lt l = Ok r -> StronglySorted dt_le r.
Proof.
  apply sorted_sorted.
  - intros a b c [E1 L1] [E2 L2]. split; [congruence | lia].
  - intros a b E. apply dt_lt_inv in E. destruct E as [Ea Eb].
    split; [exact Ea|]. symmetry in Eb. apply Z.ltb_lt in Eb. lia.
  - intros a b E. apply dt_lt_inv in E. destruct E as [Ea Eb].
    split; [now symmetry|]. symmetry in Eb. apply Z.ltb_ge in Eb. exact Eb.
Qed.

Lemma insert_dt_raise (x : datetime) (l : list datetime) (e : exn) :
  insert dt_lt x l = Raise e -> e = TypeError.
Proof.
  induction l as [|y l IH]; simpl; [discriminate|].
  unfold dt_lt at 1.
  destruct (Bool.eqb (aware y) (aware x)); simpl; [|congruence].
  destruct (micros y <? micros x); [|discriminate].
  destruct (insert dt_lt x l); simpl; [discriminate|].
  intros E. injection E as <-. now apply IH.
Qed.

Lemma sorted_dt_raise (l : list datetime) (e : exn) :
  sorted dt_lt l = Raise e -> e = TypeError.
Proof.
  induction l as [|x l IH]; simpl; [discriminate|].
  destruct (sorted dt_lt l) as [r|e']; simpl.
  - apply insert_dt_raise.
  - intros E. injection E as <-. now apply IH.
Qed.

Lemma dt_le_antisym (a b : datetime) : dt_le a b -> dt_le b a -> a = b.
Proof.
  destruct a as [aa am], b as [ba bm]. unfold dt_le. simpl.
  intros [-> H1] [_ H2]. f_equal. lia.
Qed.

(** Timestamps that were sorted are all naive or all aware. *)
Lemma sorted_dt_uniform (l r : list datetime) :
  sorted dt_lt l = Ok r -> forall a b, In a l -> In b l -> aware a = aware b.
Proof.
  intros Hs a b Ha Hb.
  pose proof (sorted_perm _ _ _ Hs) as Hp.
  apply sorted_dt_le in Hs.
  apply (Permutation_in _ Hp) in Ha, Hb. clear Hp l.
  induction Hs as [|x r Hr IH Hx]; [contradiction|].
  rewrite Forall_forall in Hx.
  destruct Ha as [<-|Ha], Hb as [<-|Hb]; auto.
  - now apply Hx.
  - symmetry. now apply Hx.
Qed.

Lemma dt_lt_ok (a b : datetime) :
  aware a = aware b -> exists c, dt_lt a b = Ok c.
Proof.
  intros E. unfold dt_lt. rewrite E, Bool.eqb_reflx. eauto.
Qed.

(** [sorted] sees a list of timestamps only as a multiset. *)
Lemma sorted_dt_perm (l l' : list datetime) :
  Permutation l l' -> sorted dt_lt l = sorted dt_lt l'.
Proof.
  assert (Hone : forall l l' r, Permutation l l' -> sorted dt_lt l = Ok r ->
                                sorted dt_lt l' = Ok r).
  { intros l0 l0' r Hp Hs.
    destruct (sorted_ok dt_lt l0') as [r' Hs'].
    { intros a b Ha Hb. apply dt_lt_ok.
      apply (sorted_dt_uniform l0 r Hs);
        now apply (Permutation_in _ (Permutation_sym Hp)). }
    rewrite Hs'. f_equal. symmetry.
    apply (sorted_unique dt_le).
    - apply dt_le_antisym.
    - now apply sorted_dt_le in Hs.
    - now apply sorted_dt_le in Hs'.
    - rewrite <- (sorted_perm _ _ _ Hs), <- (sorted_perm _ _ _ Hs'). exact Hp. }
  intros Hp.
  destruct (sorted dt_lt l) as [r|e] eqn:E.
  - symmetry. now apply (Hone l l').
  - destruct (sorted dt_lt l') as [r'|e'] eqn:E'.
    + apply (Hone l' l) in E'; [congruence | now symmetry].
    + apply sorted_dt_raise in E, E'. congruence.
Qed.

Lemma total_seconds_mono (a b : Z) :
  a <= b -> (total_seconds a <= total_seconds b)%Q.
Proof.
  intros Hab. unfold total_seconds, Qdiv.
  apply Qmult_le_compat_r.
  - now rewrite <- Zle_Qle.
  - discriminate.
Qed.

Lemma total_seconds_zero : (total_seconds 0 == 0)%Q.
Proof. reflexivity. Qed.

Lemma dt_eqb_spec (a b : datetime) : reflect (a = b) (dt_eqb a b).
Proof.
  destruct a as [aa am], b as [ba bm]. unfold dt_eqb. simpl.
  destruct (Bool.eqb_spec aa ba) as [->|Hne]; simpl.
  - destruct (Z.eqb_spec am bm) as [->|Hm]; constructor; congruence.
  - constructor. congruence.
Qed.

(** *** savefig *)

Lemma splitext_from_png (a : string) (c : ascii) (seen : bool) (ext : string) :
  Ascii.eqb c "." = false -> Ascii.eqb c "/" = false ->
  splitext_from seen ext (a ++ String c ".png") = ".png".
Proof.
  intros Hdot Hsep. revert seen ext.
  induction a as [|x a IH]; intros seen ext.
  - cbn [append splitext_from]. rewrite Hdot, Hsep. reflexivity.
  - cbn [append splitext_from].
    destruct (Ascii.eqb x "/"); [apply IH|].
    destruct (Ascii.eqb x "."); [destruct seen; apply IH | apply IH].
Qed.

(** A name that ends in [.png] after a character of the file name is
    written as it stands. *)
Lemma savefig_png (a : string) (c : ascii) :
  Ascii.eqb c "." = false -> Ascii.eqb c "/" = false ->
  savefig (a ++ String c ".png") = Ok (a ++ String c ".png").
Proof.
  intros Hdot Hsep. unfold savefig, format_of, extension.
  rewrite (splitext_from_png a c false EmptyString Hdot Hsep). reflexivity.
Qed.

Lemma savefig_metrics_png (stem btype : string) :
  savefig (stem ++ "_" ++ btype ++ "_metrics.png")
  = Ok (stem ++ "_" ++ btype ++ "_metrics.png").
Proof.
  replace (stem ++ "_" ++ btype ++ "_metrics.png")
    with ((stem ++ "_" ++ btype ++ "_metric") ++ String "s" ".png").
  - now apply savefig_png.
  - now rewrite !append_assoc.
Qed.

Lemma savefig_ok (fname written : string) :
  savefig fname = Ok written ->
  format_of fname = "" /\ written = rstrip "." fname ++ ".png" \/
  format_of fname <> "" /\ written = fname.
Proof.
  unfold savefig. destruct (String.eqb_spec (format_of fname) EmptyString) as [E|E].
  - intros [= <-]. now left.
  - destruct (existsb _ _); [|discriminate]. intros [= <-]. now right.
Qed.

Lemma savefig_raise (fname : string) (e : exn) :
  savefig fname = Raise e -> e = ValueError.
Proof.
  unfold savefig. destruct (String.eqb _ EmptyString); [discriminate|].
  destruct (existsb _ _); [discriminate|]. now intros [= <-].
Qed.

End PyFacts.

(** ** Properties of plot_bench_metrics.py *)

Module BenchProps.
Import Py PyFacts PlotBenchMetrics BenchSpec.
Local Open Scope py_scope.

(** *** Timestamp normalization *)

Lemma digit_is_not (z c : ascii) :
  is_digit z = false -> is_digit c = true -> Ascii.eqb c z = false.
Proof.
  intros Hz Hc. destruct (Ascii.eqb_spec c z) as [->|_]; [congruence | reflexivity].
Qed.

Lemma all_digits_free (z : ascii) (s : string) :
  is_digit z = false -> all_digits s = true -> contains z s = false.
Proof.
  intros Hz. induction s as [|c s IH]; simpl; intros Hd; [reflexivity|].
  apply andb_true_iff in Hd. destruct Hd as [Hc Hs].
  now rewrite (digit_is_not z c Hz Hc), (IH Hs).
Qed.

Lemma all_digits_app (s1 s2 : string) :
  all_digits (s1 ++ s2) = all_digits s1 && all_digits s2.
Proof.
  induction s1 as [|c s1 IH]; simpl; [reflexivity|].
  now rewrite IH, andb_assoc.
Qed.

Lemma all_digits_repeat_zero (n : nat) : all_digits (repeat_char "0" n) = true.
Proof. induction n; simpl; auto. Qed.

Lemma all_digits_slice_to (n : nat) (s : string) :
  all_digits s = true -> all_digits (slice_to n s) = true.
Proof.
  unfold slice_to. revert s.
  induction n as [|n IH]; intros [|c s]; simpl; intros Hd; try reflexivity.
  apply andb_true_iff in Hd. destruct Hd as [Hc Hs].
  now rewrite Hc, (IH s Hs).
Qed.

Lemma plain_inv (s : string) :
  plain s = true ->
  contains "." s = false /\ contains "+" s = false /\ contains "Z" s = false.
Proof.
  unfold plain. intros Hp.
  apply andb_true_iff in Hp. destruct Hp as [Hp Hz].
  apply andb_true_iff in Hp. destruct Hp as [Hd Hp].
  repeat split; now apply negb_true_iff.
Qed.

(** Once [Z] has been replaced, a string with one dot and one plus sign
    after it gets its fraction cut or padded. *)
Lemma normalize_after_replace (raw base frac off : string) :
  replace "Z" "+00:00" raw = base ++ "." ++ frac ++ "+" ++ off ->
  contains "." base = false ->
  contains "." frac = false -> contains "+" frac = false ->
  contains "." off = false -> contains "+" off = false ->
  normalize_timestamp raw =
  Ok (base ++ "." ++ ljust 6 "0" (slice_to 6 frac) ++ "+" ++ off).
Proof.
  intros Hr Hb Hf1 Hf2 Ho1 Ho2.
  unfold normalize_timestamp. rewrite Hr.
  assert (Hrest : contains "." (frac ++ "+" ++ off) = false).
  { rewrite contains_app, Hf1. simpl. exact Ho1. }
  assert (Hdot : contains "." (base ++ "." ++ frac ++ "+" ++ off) = true).
  { rewrite contains_app. simpl. apply orb_true_r. }
  assert (Hplus : contains "+" (base ++ "." ++ frac ++ "+" ++ off) = true).
  { rewrite contains_app. simpl. rewrite contains_app. simpl.
    rewrite !orb_true_r. reflexivity. }
  rewrite Hdot, Hplus. simpl andb. cbv iota.
  change (base ++ "." ++ frac ++ "+" ++ off)
    with (base ++ String "." (frac ++ "+" ++ off)).
  rewrite (split_app "." base _ Hb), (split_plain "." _ Hrest).
  change (frac ++ "+" ++ off) with (frac ++ String "+" off).
  rewrite (split_app "+" frac _ Hf2), (split_plain "+" _ Ho2).
  reflexivity.
Qed.

(** *** Output file names *)

Lemma prefix_dat_inside (s : string) :
  s <> "" -> String.prefix ".dat" (s ++ ".dat") = true ->
  String.prefix ".dat" s = true.
Proof.
  intros Hne.
  destruct s as [|c1 [|c2 [|c3 [|c4 s]]]]; [contradiction| | | |];
    cbn [append]; rewrite !prefix_cons, ?prefix_nil;
    repeat match goal with
           | |- context [Ascii.eqb ?a ?b] =>
               destruct (Ascii.eqb_spec a b); subst; cbn [andb]
           end; intros; try discriminate; try reflexivity.
Qed.

Lemma replace_suffix_dat (new stem : string) :
  free_of ".dat" stem = true ->
  replace ".dat" new (stem ++ ".dat") = stem ++ new.
Proof.
  unfold replace. induction stem as [|a s IH]; intros Hfree.
  - simpl. now rewrite append_nil_r.
  - cbn [free_of] in Hfree. apply andb_true_iff in Hfree.
    destruct Hfree as [Hp Hs]. apply negb_true_iff in Hp.
    change (String a s ++ ".dat") with (String a (s ++ ".dat")).
    cbn [replace_from].
    destruct (String.prefix ".dat" (String a (s ++ ".dat"))) eqn:E.
    + apply (prefix_dat_inside (String a s)) in E; [congruence | discriminate].
    + rewrite (IH Hs). reflexivity.
Qed.

Lemma output_path_dat (stem btype : string) :
  free_of ".dat" stem = true ->
  output_path (stem ++ ".dat") btype = stem ++ "_" ++ btype ++ "_metrics.png".
Proof. intros Hf. unfold output_path. now apply replace_suffix_dat. Qed.

(** *** What the reading loop stores *)

Lemma read_row_sample `{Runtime} (d : by_type) (r : row) :
  read_row d r =
  (o <- sample_of r ;;
   Ok (match o with Some s => add_sample s d | None => d end)).
Proof.
  unfold read_row, sample_of.
  destruct (getitem String.eqb "bench_type" r) as [btype|e]; simpl; [|reflexivity].
  destruct (accepted btype); simpl; [|reflexivity].
  destruct (getitem String.eqb "group_start_time" r); simpl; [|reflexivity].
  destruct (parse_timestamp a); simpl; [|reflexivity].
  destruct (float_cell r "average_latency"); simpl; [|reflexivity].
  destruct (float_cell r "max_latency"); simpl; [|reflexivity].
  destruct (float_cell r "99th_latency"); simpl; [|reflexivity].
  destruct (float_cell r "throughput"); simpl; reflexivity.
Qed.

Lemma read_rows_samples `{Runtime} (rows : list row) (d : by_type) :
  read_rows d rows =
  (ss <- samples_of rows ;; Ok (fold_left (fun d s => add_sample s d) ss d)).
Proof.
  revert d. induction rows as [|r rows IH]; intros d; simpl; [reflexivity|].
  rewrite read_row_sample.
  destruct (sample_of r) as [[s|]|e]; simpl; [| |reflexivity];
    rewrite IH; destruct (samples_of rows); reflexivity.
Qed.

Lemma stored_record_metric (app : samples -> samples) (b : string)
    (t : datetime) (d : by_type) (b' : string) (t' : datetime) :
  stored (record_metric app b t d) b' t' =
  if String.eqb b' b && dt_eqb t' t
  then Some (app (or_empty (stored d b t)))
  else stored d b' t'.
Proof.
  unfold stored, record_metric.
  rewrite (lookup_dd_update String.eqb String.eqb_spec).
  destruct (String.eqb_spec b' b) as [->|Hb]; simpl; [|reflexivity].
  rewrite (lookup_dd_update dt_eqb dt_eqb_spec). unfold dd_get.
  destruct (lookup String.eqb b d) as [bt|]; simpl.
  - destruct (dt_eqb t' t); [|reflexivity].
    now destruct (lookup dt_eqb t bt).
  - now destruct (dt_eqb t' t).
Qed.

Lemma in_group_eq (b : string) (t : datetime) (s : sample) :
  in_group b t s = true <-> b = sm_type s /\ t = sm_time s.
Proof.
  unfold in_group. rewrite andb_true_iff.
  destruct (String.eqb_spec b (sm_type s)), (dt_eqb_spec t (sm_time s));
    intuition congruence.
Qed.

Lemma in_group_self (s : sample) : in_group (sm_type s) (sm_time s) s = true.
Proof. now apply in_group_eq. Qed.

Lemma stored_add_sample (s : sample) (d : by_type) (b : string) (t : datetime) :
  stored (add_sample s d) b t =
  if in_group b t s then Some (pushes [s] (or_empty (stored d b t)))
  else stored d b t.
Proof.
  unfold add_sample. cbv zeta.
  rewrite !stored_record_metric.
  pose proof (in_group_self s) as Hself. unfold in_group in Hself.
  rewrite Hself. fold (in_group b t s).
  destruct (in_group b t s) eqn:E; [|reflexivity].
  apply in_group_eq in E. destruct E as [-> ->].
  unfold pushes, append_throughput, append_p99_lat, append_max_lat,
    append_avg_lat. simpl. reflexivity.
Qed.

Lemma pushes_cons (s : sample) (l : list sample) (g : samples) :
  pushes l (pushes [s] g) = pushes (s :: l) g.
Proof.
  unfold pushes. simpl. now rewrite <- !app_assoc.
Qed.

Lemma stored_fold (ss : list sample) (d : by_type) (b : string) (t : datetime) :
  stored (fold_left (fun d s => add_sample s d) ss d) b t =
  match group b t ss with
  | [] => stored d b t
  | g => Some (pushes g (or_empty (stored d b t)))
  end.
Proof.
  revert d. induction ss as [|s ss IH]; intros d; simpl; [reflexivity|].
  rewrite IH, stored_add_sample. unfold group.
  destruct (in_group b t s); [|reflexivity].
  destruct (filter (in_group b t) ss) as [|s' g]; [reflexivity|].
  simpl or_empty. now rewrite pushes_cons.
Qed.

(** After a file has been read, a group holds exactly the values of its
    samples, in row order. *)
Lemma stored_read `{Runtime} (rows : list row) (ss : list sample) :
  samples_of rows = Ok ss ->
  exists data,
    read_rows [] rows = Ok data /\
    data = fold_left (fun d s => add_sample s d) ss [] /\
    forall b t,
      stored data b t =
      match group b t ss with
      | [] => None
      | g => Some (pushes g no_samples)
      end.
Proof.
  intros Hs. eexists. rewrite read_rows_samples, Hs. simpl.
  split; [reflexivity|]. split; [reflexivity|].
  intros b t. now rewrite stored_fold.
Qed.

(** *** Aggregation of one group *)

Lemma mean_nonempty (l : list Q) :
  l <> [] -> mean l = Ok (sum l / inject_Z (len l))%Q.
Proof.
  intros Hne. unfold mean, truediv, len.
  destruct l as [|x l]; [contradiction|]. reflexivity.
Qed.

Lemma mean_average (l : list Q) (a : Q) :
  mean l = Ok a -> (a == average l)%Q.
Proof.
  unfold mean, truediv, average, len.
  destruct (Z.of_nat (List.length l) =? 0); [discriminate|].
  intros E. injection E as <-. now rewrite sum_fold_right.
Qed.

Lemma stored_dd_get (d : by_type) (b : string) (t : datetime) (g : samples) :
  stored d b t = Some g ->
  dd_get dt_eqb no_samples t (dd_get String.eqb [] b d) = g.
Proof.
  unfold stored, dd_get, by_type, by_timestamp in *.
  destruct (lookup String.eqb b d) as [bt|]; [|discriminate].
  intros E. now rewrite E.
Qed.

Lemma pushes_fresh_nonempty (g : list sample) :
  g <> [] ->
  avg_lat (pushes g no_samples) <> [] /\
  max_lat (pushes g no_samples) <> [] /\
  p99_lat (pushes g no_samples) <> [].
Proof. destruct g; [contradiction|]. simpl. repeat split; discriminate. Qed.

Lemma aggregate_step_group (d : by_type) (b : string) (t : datetime)
    (g : list sample) (acc : series) :
  g <> [] -> stored d b t = Some (pushes g no_samples) ->
  exists a m p,
    aggregate_step (dd_get String.eqb [] b d) acc t =
      Ok {| s_avg := s_avg acc ++ [a]; s_max := s_max acc ++ [m];
            s_p99 := s_p99 acc ++ [p];
            s_thr := s_thr acc ++ [sum (map sm_thr g)];
            s_ts := s_ts acc ++ [t] |} /\
    mean (map sm_avg g) = Ok a /\
    mean (map sm_max g) = Ok m /\
    mean (map sm_p99 g) = Ok p.
Proof.
  intros Hne Hst. unfold aggregate_step.
  rewrite (stored_dd_get _ _ _ _ Hst). simpl.
  destruct (pushes_fresh_nonempty g Hne) as (Ha & Hm & Hp). simpl in Ha, Hm, Hp.
  rewrite (mean_nonempty _ Ha), (mean_nonempty _ Hm), (mean_nonempty _ Hp).
  simpl. eauto 10.
Qed.

Lemma read_rows_inv `{Runtime} (rows : list row) (data : by_type) :
  read_rows [] rows = Ok data ->
  exists ss, samples_of rows = Ok ss /\
             data = fold_left (fun d s => add_sample s d) ss [].
Proof.
  rewrite read_rows_samples.
  destruct (samples_of rows) as [ss|e]; simpl; [|discriminate].
  intros E. injection E as <-. eauto.
Qed.

Lemma stored_data_inv (ss : list sample) (b : string) (t : datetime) (g : samples) :
  stored (fold_left (fun d s => add_sample s d) ss []) b t = Some g ->
  group b t ss <> [] /\ g = pushes (group b t ss) no_samples.
Proof.
  rewrite stored_fold. simpl.
  destruct (group b t ss); [discriminate|].
  intros E. injection E as <-. split; [discriminate | reflexivity].
Qed.



(** *** The plotting loop *)

Lemma aggregate_step_ts (dbt : by_timestamp) (acc acc' : series) (ts : datetime) :
  aggregate_step dbt acc ts = Ok acc' -> s_ts acc' = (s_ts acc ++ [ts])%list.
Proof.
  unfold aggregate_step.
  destruct (mean (avg_lat _)); simpl; [|discriminate].
  destruct (mean (max_lat _)); simpl; [|discriminate].
  destruct (mean (p99_lat _)); simpl; [|discriminate].
  intros E. injection E as <-. reflexivity.
Qed.

Lemma aggregate_ts (dbt : by_timestamp) (l : list datetime) (acc s : series) :
  aggregate dbt acc l = Ok s -> s_ts s = (s_ts acc ++ l)%list.
Proof.
  revert acc. induction l as [|ts l IH]; simpl; intros acc E.
  - injection E as <-. now rewrite app_nil_r.
  - destruct (aggregate_step dbt acc ts) as [acc'|e] eqn:S; simpl in E;
      [|discriminate].
    rewrite (IH _ E), (aggregate_step_ts _ _ _ _ S), <- app_assoc. reflexivity.
Qed.

Lemma mapM_dt_sub (start_ts : datetime) (l : list datetime) (secs : list Q) :
  mapM (fun ts => d <- dt_sub ts start_ts ;; Ok (total_seconds d)) l = Ok secs ->
  secs = map (elapsed start_ts) l.
Proof.
  revert secs. induction l as [|ts l IH]; simpl; intros secs E.
  - now injection E as <-.
  - unfold dt_sub at 1 in E.
    destruct (Bool.eqb (aware ts) (aware start_ts)); simpl in E; [|discriminate].
    destruct (mapM _ l) as [r|e]; simpl in E; [|discriminate].
    injection E as <-. now rewrite (IH r eq_refl).
Qed.

Lemma relative_seconds_inv (l : list datetime) (secs : list Q) :
  relative_seconds l = Ok (Some secs) ->
  exists start_ts rest, l = start_ts :: rest /\ secs = map (elapsed start_ts) l.
Proof.
  destruct l as [|x l]; [discriminate|].
  unfold relative_seconds.
  destruct (mapM _ (x :: l)) as [r|e] eqn:E; simpl; [|discriminate].
  intros E'. injection E' as <-.
  exists x, l. split; [reflexivity | exact (mapM_dt_sub x (x :: l) r E)].
Qed.

Lemma plot_type_inv (csv_file : string) (data : by_type) (btype path : string)
    (fig : figure) :
  plot_type csv_file data btype = Ok (Some (path, fig)) ->
  path = output_path csv_file btype /\
  suptitle fig = "ZKBench Metrics - " ++ btype ++ " Operations" /\
  exists start_ts rest,
    sorted dt_lt (keys (dd_get String.eqb [] btype data)) = Ok (start_ts :: rest) /\
    time_seconds fig = map (elapsed start_ts) (start_ts :: rest).
Proof.
  unfold plot_type.
  destruct (sorted dt_lt _) as [l|e] eqn:Es; simpl; [|discriminate].
  destruct (aggregate _ no_series l) as [s|e] eqn:Ea; simpl; [|discriminate].
  apply aggregate_ts in Ea. simpl in Ea. rewrite Ea.
  destruct (relative_seconds l) as [[secs|]|e] eqn:Er; simpl; try discriminate.
  intros E. injection E as <- <-. simpl.
  destruct (relative_seconds_inv l secs Er) as (x & rest & -> & ->).
  split; [reflexivity|]. split; [reflexivity|]. eauto.
Qed.

Lemma saved_plot_types_inv (csv_file : string) (data : by_type)
    (btypes : list string) (out : outcome) (pf : string * figure) :
  In pf (saved (plot_types csv_file data btypes out)) ->
  In pf (saved out) \/
  exists btype, In btype btypes /\ plot_type csv_file data btype = Ok (Some pf).
Proof.
  revert out. induction btypes as [|b btypes IH]; simpl; intros out Hin.
  - now left.
  - destruct (plot_type csv_file data b) as [[[output fig]|]|e] eqn:E.
    + destruct (savefig output) as [written|e]; [|now left].
      apply IH in Hin. simpl in Hin.
      destruct Hin as [Hin|(b' & Hb' & Hp)]; [|right; eauto].
      apply in_app_or in Hin. destruct Hin as [Hin|[<-|[]]]; [now left|].
      right. eauto.
    + apply IH in Hin. destruct Hin as [Hin|(b' & Hb' & Hp)]; [now left|].
      right. eauto.
    + now left.
Qed.

Lemma plot_types_printed (csv_file : string) (data : by_type)
    (btypes : list string) (out : outcome) :
  stdout out = map printed_line (saved out) ->
  stdout (plot_types csv_file data btypes out) =
  map printed_line (saved (plot_types csv_file data btypes out)).
Proof.
  revert out. induction btypes as [|b btypes IH]; simpl; intros out Hout.
  - exact Hout.
  - destruct (plot_type csv_file data b) as [[[output fig]|]|e]; simpl.
    + destruct (savefig output) as [written|e]; [|exact Hout].
      apply IH. simpl. now rewrite map_app, Hout.
    + now apply IH.
    + exact Hout.
Qed.

(** Every image of a run comes from one turn of the plotting loop. *)
Lemma saved_main_inv `{Runtime} (argv : list string) (fs : filesystem)
    (pf : string * figure) :
  In pf (saved (main argv fs)) ->
  exists prog csv_file rest rows data btype,
    argv = prog :: csv_file :: rest /\
    fs csv_file = Some rows /\
    read_rows [] rows = Ok data /\
    In btype (keys data) /\
    plot_type csv_file data btype = Ok (Some pf) /\
    In (printed_line pf) (stdout (main argv fs)).
Proof.
  unfold main.
  destruct argv as [|prog [|csv_file rest]]; simpl; try contradiction.
  destruct (fs csv_file) as [rows|] eqn:Ef; simpl; [|contradiction].
  destruct (read_rows [] rows) as [data|e] eqn:Er; simpl; [|contradiction].
  destruct data as [|kv data']; [simpl; contradiction|].
  cbv beta iota. remember (kv :: data') as data eqn:Ed.
  destruct (sorted str_lt (keys data)) as [btypes|e] eqn:Es;
    [|simpl; contradiction].
  intros Hin.
  pose proof (plot_types_printed csv_file data btypes (silent (Exited 0))
                eq_refl) as Hp.
  destruct (saved_plot_types_inv _ _ _ _ _ Hin) as [[]|(b & Hb & Hpt)].
  exists prog, csv_file, rest, rows, data, b.
  repeat split; try assumption; try reflexivity.
  - apply Permutation_in with (l := btypes); [|exact Hb].
    symmetry. exact (sorted_perm _ _ _ Es).
  - rewrite Hp. now apply in_map.
Qed.

Lemma saved_plot_types_written (csv_file : string) (data : by_type)
    (btypes : list string) (out : outcome) (pf : string * figure) :
  In pf (saved (plot_types csv_file data btypes out)) ->
  In pf (saved out) \/ exists written, savefig (fst pf) = Ok written.
Proof.
  revert out. induction btypes as [|b btypes IH]; simpl; intros out Hin.
  - now left.
  - destruct (plot_type csv_file data b) as [[[output fig]|]|e] eqn:E.
    + destruct (savefig output) as [written|e] eqn:Ew; [|now left].
      apply IH in Hin. simpl in Hin. destruct Hin as [Hin|Hw]; [|now right].
      apply in_app_or in Hin. destruct Hin as [Hin|[<-|[]]]; [now left|].
      right. simpl. eauto.
    + now apply IH.
    + now left.
Qed.

(** Every image of a run has a name [savefig] accepts. *)
Lemma saved_main_written `{Runtime} (argv : list string) (fs : filesystem)
    (pf : string * figure) :
  In pf (saved (main argv fs)) -> exists written, savefig (fst pf) = Ok written.
Proof.
  unfold main.
  destruct argv as [|prog [|csv_file rest]]; simpl; try contradiction.
  destruct (fs csv_file) as [rows|]; simpl; [|contradiction].
  destruct (read_rows [] rows) as [data|e]; simpl; [|contradiction].
  destruct data as [|kv data']; [simpl; contradiction|].
  cbv beta iota.
  destruct (sorted str_lt (keys (kv :: data'))) as [btypes|e];
    [|simpl; contradiction].
  intros Hin. apply saved_plot_types_written in Hin.
  destruct Hin as [[]|Hw]. exact Hw.
Qed.

(** *** Which operation types are stored *)

Lemma keys_record_metric (app : samples -> samples) (b : string) (t : datetime)
    (d : by_type) (b' : string) :
  In b' (keys (record_metric app b t d)) <-> b' = b \/ In b' (keys d).
Proof.
  unfold record_metric. rewrite (keys_dd_update String.eqb String.eqb_spec).
  destruct (lookup String.eqb b d) eqn:E.
  - split; [auto|]. intros [->|Hin]; [|exact Hin].
    apply (lookup_in_keys String.eqb String.eqb_spec). congruence.
  - rewrite in_app_iff. simpl. intuition congruence.
Qed.

Lemma NoDup_keys_record_metric (app : samples -> samples) (b : string)
    (t : datetime) (d : by_type) :
  NoDup (keys d) -> NoDup (keys (record_metric app b t d)).
Proof. apply (NoDup_keys_dd_update String.eqb String.eqb_spec). Qed.

Lemma keys_add_sample (s : sample) (d : by_type) (b : string) :
  In b (keys (add_sample s d)) <-> b = sm_type s \/ In b (keys d).
Proof.
  unfold add_sample. cbv zeta. rewrite !keys_record_metric. tauto.
Qed.

Lemma keys_fold (ss : list sample) (d : by_type) (b : string) :
  In b (keys (fold_left (fun d s => add_sample s d) ss d)) <->
  In b (keys d) \/ exists s, In s ss /\ sm_type s = b.
Proof.
  revert d. induction ss as [|s ss IH]; intros d; simpl.
  - split; [auto|]. intros [Hin|(s & [] & _)]. exact Hin.
  - rewrite IH, keys_add_sample. split.
    + intros [[->|Hin]|(s' & Hs' & E)]; eauto.
    + intros [Hin|(s' & [<-|Hs'] & E)]; eauto.
Qed.

Lemma NoDup_keys_fold (ss : list sample) (d : by_type) :
  NoDup (keys d) -> NoDup (keys (fold_left (fun d s => add_sample s d) ss d)).
Proof.
  revert d. induction ss as [|s ss IH]; intros d Hd; simpl; [exact Hd|].
  apply IH. unfold add_sample. cbv zeta.
  now repeat apply NoDup_keys_record_metric.
Qed.

Lemma sample_of_inv `{Runtime} (r : row) (s : sample) :
  sample_of r = Ok (Some s) ->
  lookup String.eqb "bench_type" r = Some (sm_type s) /\
  accepted (sm_type s) = true.
Proof.
  unfold sample_of, getitem.
  destruct (lookup String.eqb "bench_type" r) as [btype|]; simpl; [|discriminate].
  destruct (accepted btype) eqn:Ea; simpl; [|discriminate].
  destruct (of_option KeyError _); simpl; [|discriminate].
  destruct (parse_timestamp _); simpl; [|discriminate].
  destruct (float_cell r "average_latency"); simpl; [|discriminate].
  destruct (float_cell r "max_latency"); simpl; [|discriminate].
  destruct (float_cell r "99th_latency"); simpl; [|discriminate].
  destruct (float_cell r "throughput"); simpl; [|discriminate].
  intros E. injection E as <-. simpl. auto.
Qed.

Lemma sample_of_none_inv `{Runtime} (r : row) :
  sample_of r = Ok None ->
  exists btype, lookup String.eqb "bench_type" r = Some btype /\
                accepted btype = false.
Proof.
  unfold sample_of, getitem.
  destruct (lookup String.eqb "bench_type" r) as [btype|]; simpl; [|discriminate].
  destruct (accepted btype) eqn:Ea; simpl; [|eauto].
  destruct (of_option KeyError _); simpl; [|discriminate].
  destruct (parse_timestamp _); simpl; [|discriminate].
  destruct (float_cell r "average_latency"); simpl; [|discriminate].
  destruct (float_cell r "max_latency"); simpl; [|discriminate].
  destruct (float_cell r "99th_latency"); simpl; [|discriminate].
  destruct (float_cell r "throughput"); simpl; discriminate.
Qed.

Lemma samples_of_accepted `{Runtime} (rows : list row) (ss : list sample) :
  samples_of rows = Ok ss ->
  Forall (fun s => accepted (sm_type s) = true) ss.
Proof.
  revert ss. induction rows as [|r rows IH]; simpl; intros ss E.
  - injection E as <-. constructor.
  - destruct (sample_of r) as [o|e] eqn:Er; simpl in E; [|discriminate].
    destruct (samples_of rows) as [ss'|e]; simpl in E; [|discriminate].
    injection E as <-. specialize (IH ss' eq_refl).
    destruct o as [s|]; [|exact IH].
    constructor; [now apply sample_of_inv in Er | exact IH].
Qed.

Lemma keys_read_accepted `{Runtime} (rows : list row) (data : by_type)
    (btype : string) :
  read_rows [] rows = Ok data -> In btype (keys data) -> accepted btype = true.
Proof.
  intros Hr Hin.
  destruct (read_rows_inv rows data Hr) as (ss & Hs & ->).
  apply keys_fold in Hin. destruct Hin as [[]|(s & Hin & <-)].
  apply samples_of_accepted in Hs. rewrite Forall_forall in Hs. now apply Hs.
Qed.

(** C3 (amended): every image a run writes belongs to an accepted
    operation type; its path is the input path with every occurrence of
    [.dat] replaced by [_<TYPE>_metrics.png], and [Saved: <path>] is
    printed.  When the input path is [<stem>.dat] with no other [.dat]
    in it, the image path is [<stem>_<TYPE>_metrics.png]. *)
Theorem image_path_replaces_dat `{Runtime} (argv : list string)
    (fs : filesystem) (path : string) (fig : figure) :
  In (path, fig) (saved (main argv fs)) ->
  exists csv_file btype,
    nth_error argv 1 = Some csv_file /\
    accepted btype = true /\
    suptitle fig = "ZKBench Metrics - " ++ btype ++ " Operations" /\
    path = replace ".dat" ("_" ++ btype ++ "_metrics.png") csv_file /\
    In ("Saved: " ++ path) (stdout (main argv fs)) /\
    forall stem,
      csv_file = stem ++ ".dat" -> free_of ".dat" stem = true ->
      path = stem ++ "_" ++ btype ++ "_metrics.png".
Proof.
  intros Hin.
  destruct (saved_main_inv argv fs _ Hin)
    as (prog & csv_file & rest & rows & data & btype
        & -> & Hfs & Hr & Hk & Hp & Hline).
  destruct (plot_type_inv _ _ _ _ _ Hp) as (Hpath & Htitle & _).
  exists csv_file, btype.
  split; [reflexivity|].
  split; [exact (keys_read_accepted rows data btype Hr Hk)|].
  split; [exact Htitle|].
  split; [exact Hpath|].
  split; [exact Hline|].
  intros stem -> Hfree. rewrite Hpath. now apply output_path_dat.
Qed.

Lemma image_path_three_rows :
  let out := main (H := Reference.bench_runtime)
               ["plot_bench_metrics.py"; "results/summary.dat"]
               (Examples.one_file "results/summary.dat" Examples.three_rows) in
  exists fig,
    In ("results/summary_WRITE_metrics.png", fig) (saved out) /\
    In "Saved: results/summary_WRITE_metrics.png" (stdout out).
Proof.
  intros out.
  assert (Hin : exists fig, In ("results/summary_WRITE_metrics.png", fig) (saved out)).
  { eexists. vm_compute. right. left. reflexivity. }
  destruct Hin as [fig Hin]. exists fig. split; [exact Hin|].
  destruct (@image_path_replaces_dat Reference.bench_runtime _ _ _ _ Hin)
    as (csv_file & btype & _ & _ & _ & _ & Hline & _).
  exact Hline.
Defined.

(** A file named [summary.png]: both images go to the input path itself,
    not to the input name with its extension replaced. *)
Lemma image_path_without_dat :
  let out := main (H := Reference.bench_runtime)
               ["plot_bench_metrics.py"; "summary.png"]
               (Examples.one_file "summary.png" Examples.three_rows) in
  map fst (saved out) = ["summary.png"; "summary.png"] /\
  stdout out = ["Saved: summary.png"; "Saved: summary.png"] /\
  strip_extension "summary.png" ++ "_READ_metrics.png" = "summary_READ_metrics.png" /\
  ~ In (strip_extension "summary.png" ++ "_READ_metrics.png") (map fst (saved out)).
Proof.
  intros out.
  assert (E : map fst (saved out) = ["summary.png"; "summary.png"])
    by (vm_compute; reflexivity).
  split; [exact E|]. split; [vm_compute; reflexivity|].
  split; [reflexivity|]. rewrite E. simpl. intros [D|[D|[]]]; discriminate D.
Qed.

(** C5: the time axis of every figure lists, for the timestamps of the
    type in ascending order, the seconds elapsed since the first and
    earliest of them; it starts at 0 and never decreases. *)
Theorem time_axis_sorted_from_zero `{Runtime} (argv : list string)
    (fs : filesystem) (path : string) (fig : figure) :
  In (path, fig) (saved (main argv fs)) ->
  StronglySorted Qle (time_seconds fig) /\
  (exists t rest, time_seconds fig = t :: rest /\ (t == 0)%Q) /\
  exists start_ts later,
    StronglySorted dt_le (start_ts :: later) /\
    time_seconds fig = map (elapsed start_ts) (start_ts :: later).
Proof.
  intros Hin.
  destruct (saved_main_inv argv fs _ Hin)
    as (prog & csv_file & rest & rows & data & btype
        & _ & _ & _ & _ & Hp & _).
  destruct (plot_type_inv _ _ _ _ _ Hp) as (_ & _ & x & l & Hs & ->).
  apply sorted_dt_le in Hs. split; [|split].
  - clear - Hs. induction Hs as [|a l' Hl IH Ha]; simpl; constructor.
    + exact IH.
    + rewrite Forall_map. eapply Forall_impl; [|exact Ha].
      intros b [_ Hab]. apply total_seconds_mono. lia.
  - simpl. eexists. eexists. split; [reflexivity|].
    unfold elapsed. rewrite Z.sub_diag. apply total_seconds_zero.
  - exists x, l. split; [exact Hs | reflexivity].
Qed.

Lemma time_axis_three_rows :
  let out := main (H := Reference.bench_runtime)
               ["plot_bench_metrics.py"; "summary.dat"]
               (Examples.one_file "summary.dat" Examples.three_rows) in
  exists fig,
    In ("summary_READ_metrics.png", fig) (saved out) /\
    Forall2 Qeq (time_seconds fig) [0; 3 # 2]%Q /\
    StronglySorted Qle (time_seconds fig).
Proof.
  intros out.
  assert (Hin : exists fig,
             In ("summary_READ_metrics.png", fig) (saved out) /\
             Forall2 Qeq (time_seconds fig) [0; 3 # 2]%Q).
  { eexists. split.
    - vm_compute. left. reflexivity.
    - repeat (constructor; [vm_compute; reflexivity|]). constructor. }
  destruct Hin as (fig & Hin & Heq). exists fig.
  split; [exact Hin|]. split; [exact Heq|].
  exact (proj1 (@time_axis_sorted_from_zero Reference.bench_runtime _ _ _ _ Hin)).
Defined.

(** C2 (amended): for a timestamp [base.fracZ] or [base.frac+off], where
    [frac] is a run of digits of any width and [base] and [off] contain no
    dot, plus sign or [Z], the text handed to the date-time constructor is
    [base.frac6+off] ([off] being [00:00] for [Z]), with [frac6] exactly six
    digits: [frac] cut after six digits or padded with zeros on the right.
    Parsing succeeds exactly when the constructor accepts that text. *)
Theorem fraction_normalized_to_six_digits `{Runtime} (base frac off : string) :
  plain base = true -> all_digits frac = true -> plain off = true ->
  let frac6 := ljust 6 "0" (slice_to 6 frac) in
  String.length frac6 = 6%nat /\
  all_digits frac6 = true /\
  ((String.length frac <= 6)%nat ->
   frac6 = frac ++ repeat_char "0" (6 - String.length frac)) /\
  ((6 <= String.length frac)%nat -> String.prefix frac6 frac = true) /\
  normalize_timestamp (base ++ "." ++ frac ++ "Z")
    = Ok (base ++ "." ++ frac6 ++ "+00:00") /\
  normalize_timestamp (base ++ "." ++ frac ++ "+" ++ off)
    = Ok (base ++ "." ++ frac6 ++ "+" ++ off) /\
  parse_timestamp (base ++ "." ++ frac ++ "Z")
    = of_option ValueError (fromisoformat (base ++ "." ++ frac6 ++ "+00:00")) /\
  parse_timestamp (base ++ "." ++ frac ++ "+" ++ off)
    = of_option ValueError (fromisoformat (base ++ "." ++ frac6 ++ "+" ++ off)).
Proof.
  intros Hb Hf Ho frac6.
  destruct (plain_inv base Hb) as (Hb1 & Hb2 & Hb3).
  destruct (plain_inv off Ho) as (Ho1 & Ho2 & Ho3).
  assert (Hf1 : contains "." frac = false) by now apply all_digits_free.
  assert (Hf2 : contains "+" frac = false) by now apply all_digits_free.
  assert (Hf3 : contains "Z" frac = false) by now apply all_digits_free.
  assert (HZ : normalize_timestamp (base ++ "." ++ frac ++ "Z")
               = Ok (base ++ "." ++ frac6 ++ "+00:00")).
  { apply normalize_after_replace; try assumption; try reflexivity.
    rewrite replace_char_app, (replace_char_absent _ _ _ Hb3).
    change ("." ++ frac ++ "Z") with (String "." (frac ++ "Z")).
    rewrite replace_char_cons. simpl Ascii.eqb. cbv iota.
    rewrite replace_char_app, (replace_char_absent _ _ _ Hf3).
    reflexivity. }
  assert (HP : normalize_timestamp (base ++ "." ++ frac ++ "+" ++ off)
               = Ok (base ++ "." ++ frac6 ++ "+" ++ off)).
  { apply normalize_after_replace; try assumption.
    apply replace_char_absent.
    rewrite contains_app, Hb3. simpl. rewrite contains_app, Hf3. simpl.
    exact Ho3. }
  assert (Hlen : (String.length (slice_to 6 frac) <= 6)%nat).
  { rewrite length_slice_to. apply Nat.le_min_l. }
  split; [now apply length_ljust|].
  split.
  { unfold frac6, ljust.
    now rewrite all_digits_app, all_digits_slice_to, all_digits_repeat_zero. }
  split.
  { intros Hshort. unfold frac6. now rewrite (slice_to_short 6 frac Hshort). }
  split.
  { intros Hlong. unfold frac6. rewrite ljust_full.
    - apply slice_to_prefix.
    - rewrite length_slice_to. lia. }
  split; [exact HZ|]. split; [exact HP|].
  unfold parse_timestamp. now rewrite HZ, HP.
Qed.

Lemma fraction_of_eight_digits :
  normalize_timestamp "2025-01-01T00:00:00.12345678Z"
    = Ok "2025-01-01T00:00:00.123456+00:00" /\
  parse_timestamp (H := Reference.bench_runtime) "2025-01-01T00:00:00.12345678Z"
    = Ok {| aware := true; micros := 1735689600123456 |}.
Proof.
  destruct (@fraction_normalized_to_six_digits Reference.bench_runtime
              "2025-01-01T00:00:00" "12345678" "00:00"
              eq_refl eq_refl eq_refl)
    as (_ & _ & _ & _ & HZ & _ & HP & _).
  split; [exact HZ|].
  etransitivity; [exact HP | vm_compute; reflexivity].
Defined.

(** A timestamp with a valid date, time and negative offset keeps its
    one-digit fraction: what reaches the constructor is the input itself,
    not the text with a six-digit fraction. *)
Lemma negative_offset_not_normalized :
  plain "2025-01-01T00:00:00" = true /\
  all_digits "1" = true /\
  normalize_timestamp ("2025-01-01T00:00:00" ++ "." ++ "1" ++ "-05:00")
    = Ok "2025-01-01T00:00:00.1-05:00" /\
  normalize_timestamp ("2025-01-01T00:00:00" ++ "." ++ "1" ++ "-05:00")
    <> Ok ("2025-01-01T00:00:00" ++ "." ++ ljust 6 "0" (slice_to 6 "1")
             ++ "-05:00").
Proof.
  repeat split; try reflexivity; vm_compute; discriminate.
Qed.

(** With the reference constructor the run then stops on that timestamp,
    although the six-digit form would have been accepted. *)
Lemma negative_offset_rejected_by_reference :
  Reference.fromisoformat "2025-01-01T00:00:00.100000-05:00" <> None /\
  parse_timestamp (H := Reference.bench_runtime) "2025-01-01T00:00:00.1-05:00"
    = Raise ValueError.
Proof.
  split; [vm_compute; discriminate | vm_compute; reflexivity].
Qed.

(** *** Files without READ or WRITE rows *)

Lemma read_rows_discards `{Runtime} (rows : list row) (d : by_type) :
  Forall (fun r => exists btype,
            lookup String.eqb "bench_type" r = Some btype /\
            accepted btype = false) rows ->
  read_rows d rows = Ok d.
Proof.
  induction 1 as [|r rows (btype & Hl & Ha) _ IH]; simpl; [reflexivity|].
  unfold read_row, getitem. rewrite Hl. simpl. rewrite Ha. simpl. exact IH.
Qed.

(** C6: a file with no READ or WRITE row makes the run print
    [No READ/WRITE test data found], write no image and exit with
    status 0. *)
Theorem no_accepted_rows_exit_zero `{Runtime} (prog csv_file : string)
    (rest : list string) (fs : filesystem) (rows : list row) :
  fs csv_file = Some rows ->
  Forall (fun r => exists btype,
            lookup String.eqb "bench_type" r = Some btype /\
            accepted btype = false) rows ->
  main (prog :: csv_file :: rest) fs =
  {| stdout := ["No READ/WRITE test data found"];
     saved := [];
     status := Exited 0 |}.
Proof.
  intros Hfs Hrows. unfold main.
  now rewrite Hfs, (read_rows_discards rows [] Hrows).
Qed.

Lemma only_create_exit_zero :
  main (H := Reference.bench_runtime)
    ["plot_bench_metrics.py"; "summary.dat"]
    (Examples.one_file "summary.dat" Examples.only_create) =
  {| stdout := ["No READ/WRITE test data found"];
     saved := [];
     status := Exited 0 |}.
Proof.
  apply (@no_accepted_rows_exit_zero Reference.bench_runtime) with
    (rows := Examples.only_create).
  - reflexivity.
  - repeat constructor. exists "CREATE". split; reflexivity.
Defined.

(** *** Well-formed files *)

Lemma lookup_dd_get_stored (d : by_type) (b : string) (ts : datetime) :
  lookup dt_eqb ts (dd_get String.eqb [] b d) = stored d b ts.
Proof.
  unfold stored, dd_get, by_type, by_timestamp in *.
  now destruct (lookup String.eqb b d).
Qed.

Lemma group_nonempty_inv (b : string) (ts : datetime) (ss : list sample) :
  group b ts ss <> [] ->
  exists s, In s ss /\ sm_type s = b /\ sm_time s = ts.
Proof.
  unfold group. destruct (filter (in_group b ts) ss) as [|s g] eqn:E;
    [contradiction|]. intros _.
  assert (Hin : In s (filter (in_group b ts) ss)) by (rewrite E; now left).
  apply filter_In in Hin. destruct Hin as [Hin Hg].
  apply in_group_eq in Hg. destruct Hg as [-> ->]. eauto.
Qed.

Lemma group_of_member (s : sample) (ss : list sample) :
  In s ss -> group (sm_type s) (sm_time s) ss <> [].
Proof.
  intros Hin E.
  assert (Hg : In s (group (sm_type s) (sm_time s) ss)).
  { apply filter_In. split; [exact Hin | apply in_group_self]. }
  rewrite E in Hg. contradiction.
Qed.

(** The timestamps stored for a type are those of its samples. *)
Lemma timestamps_of_type (ss : list sample) (b : string) (ts : datetime) :
  In ts (keys (dd_get String.eqb []
                 b (fold_left (fun d s => add_sample s d) ss []))) <->
  exists s, In s ss /\ sm_type s = b /\ sm_time s = ts.
Proof.
  rewrite (lookup_in_keys dt_eqb dt_eqb_spec), lookup_dd_get_stored, stored_fold.
  simpl. split.
  - intros Hne. apply group_nonempty_inv.
    destruct (group b ts ss); [exfalso; now apply Hne | discriminate].
  - intros (s & Hin & <- & <-).
    pose proof (group_of_member s ss Hin) as Hg.
    destruct (group (sm_type s) (sm_time s) ss); [contradiction | discriminate].
Qed.

Lemma aggregate_ok (d : by_type) (b : string) (l : list datetime) (acc : series) :
  (forall ts, In ts l ->
     exists g, g <> [] /\ stored d b ts = Some (pushes g no_samples)) ->
  exists s, aggregate (dd_get String.eqb [] b d) acc l = Ok s.
Proof.
  revert acc. induction l as [|ts l IH]; simpl; intros acc Hg; [eauto|].
  destruct (Hg ts (or_introl eq_refl)) as (g & Hne & Hst).
  destruct (aggregate_step_group d b ts g acc Hne Hst) as (a & m & p & -> & _).
  simpl. apply IH. auto.
Qed.

Lemma relative_seconds_ok (x : datetime) (l : list datetime) :
  (forall y, In y (x :: l) -> aware y = aware x) ->
  exists secs, relative_seconds (x :: l) = Ok (Some secs).
Proof.
  intros Ha. unfold relative_seconds.
  assert (Hm : forall l', (forall y, In y l' -> aware y = aware x) ->
             exists r, mapM (fun ts => d <- dt_sub ts x ;; Ok (total_seconds d)) l'
                       = Ok r).
  { induction l' as [|y l' IH]; simpl; intros Hl; [eauto|].
    unfold dt_sub at 1. rewrite (Hl y (or_introl eq_refl)), Bool.eqb_reflx.
    simpl. destruct IH as [r ->]; [auto|]. simpl. eauto. }
  destruct (Hm (x :: l) Ha) as [r ->]. simpl. eauto.
Qed.

(** With coherent timestamps every stored type gets its figure. *)
Lemma plot_type_ok (csv_file : string) (ss : list sample) (b : string) :
  coherent ss ->
  In b (keys (fold_left (fun d s => add_sample s d) ss [])) ->
  exists fig,
    plot_type csv_file (fold_left (fun d s => add_sample s d) ss []) b
    = Ok (Some (output_path csv_file b, fig)).
Proof.
  intros Hco Hb. set (data := fold_left (fun d s => add_sample s d) ss []) in *.
  unfold plot_type.
  assert (Hks : forall ts, In ts (keys (dd_get String.eqb [] b data)) ->
                exists s, In s ss /\ sm_type s = b /\ sm_time s = ts).
  { intros ts. apply timestamps_of_type. }
  destruct (sorted_ok dt_lt (keys (dd_get String.eqb [] b data))) as [l Hl].
  { intros t1 t2 H1 H2. apply dt_lt_ok.
    destruct (Hks t1 H1) as (s1 & I1 & T1 & <-).
    destruct (Hks t2 H2) as (s2 & I2 & T2 & <-).
    apply Hco; congruence. }
  rewrite Hl. simpl.
  pose proof (sorted_perm _ _ _ Hl) as Hperm.
  destruct (aggregate_ok data b l no_series) as [s Hs].
  { intros ts Hts. apply (Permutation_in _ (Permutation_sym Hperm)) in Hts.
    destruct (Hks ts Hts) as (s & Hin & <- & <-).
    exists (group (sm_type s) (sm_time s) ss).
    split; [now apply group_of_member|].
    unfold data. rewrite stored_fold. simpl.
    pose proof (group_of_member s ss Hin) as Hg.
    destruct (group (sm_type s) (sm_time s) ss); [contradiction | reflexivity]. }
  rewrite Hs. simpl.
  rewrite (aggregate_ts _ _ _ _ Hs). simpl.
  destruct l as [|x l].
  - exfalso. apply keys_fold in Hb. destruct Hb as [[]|(s0 & Hin & E)].
    assert (Hts : In (sm_time s0) (keys (dd_get String.eqb [] b data))).
    { apply timestamps_of_type. eauto. }
    apply (Permutation_in _ Hperm) in Hts. contradiction.
  - destruct (relative_seconds_ok x l) as [secs ->].
    { intros y Hy.
      assert (Hx : In x (x :: l)) by now left.
      apply (Permutation_in _ (Permutation_sym Hperm)) in Hy, Hx.
      destruct (Hks y Hy) as (s1 & I1 & T1 & <-).
      destruct (Hks x Hx) as (s2 & I2 & T2 & <-).
      apply Hco; congruence. }
    simpl. eauto.
Qed.

Lemma plot_types_ok (csv_file : string) (data : by_type) (btypes : list string)
    (out : outcome) :
  (forall b, In b btypes ->
     exists fig, plot_type csv_file data b = Ok (Some (output_path csv_file b, fig))) ->
  (forall b, In b btypes ->
     exists written, savefig (output_path csv_file b) = Ok written) ->
  status (plot_types csv_file data btypes out) = status out /\
  map fst (saved (plot_types csv_file data btypes out)) =
    (map fst (saved out) ++ map (output_path csv_file) btypes)%list.
Proof.
  revert out. induction btypes as [|b btypes IH]; simpl; intros out Hok Hsave.
  - now rewrite app_nil_r.
  - destruct (Hok b (or_introl eq_refl)) as [fig ->].
    destruct (Hsave b (or_introl eq_refl)) as [written ->].
    match goal with
    | |- context [plot_types _ _ _ ?o] =>
        destruct (IH o) as [Hst Hsv]; [auto | auto |]
    end.
    split; [exact Hst|]. rewrite Hsv. simpl.
    now rewrite map_app, <- app_assoc.
Qed.

Lemma savefig_output_dat (stem btype : string) :
  free_of ".dat" stem = true ->
  savefig (output_path (stem ++ ".dat") btype)
  = Ok (output_path (stem ++ ".dat") btype).
Proof.
  intros Hfree. rewrite (output_path_dat stem btype Hfree).
  apply savefig_metrics_png.
Qed.

Lemma accepts_images_inv (csv_file btype : string) :
  accepts_images csv_file = true -> In btype ["READ"; "WRITE"] ->
  exists written, savefig (output_path csv_file btype) = Ok written.
Proof.
  unfold accepts_images. cbn [forallb]. rewrite !andb_true_iff.
  intros (Hr & Hw & _) [<-|[<-|[]]].
  - destruct (savefig (output_path csv_file "READ")); [eauto | discriminate].
  - destruct (savefig (output_path csv_file "WRITE")); [eauto | discriminate].
Qed.

Lemma accepts_images_dat (stem : string) :
  free_of ".dat" stem = true -> accepts_images (stem ++ ".dat") = true.
Proof.
  intros Hfree. unfold accepts_images. cbn [forallb].
  now rewrite !(savefig_output_dat stem _ Hfree).
Qed.

Lemma types_of_samples `{Runtime} (rows : list row) (ss : list sample) :
  samples_of rows = Ok ss -> map sm_type ss = flat_map accepted_type rows.
Proof.
  revert ss. induction rows as [|r rows IH]; simpl; intros ss E.
  - now injection E as <-.
  - destruct (sample_of r) as [o|e] eqn:Er; simpl in E; [|discriminate].
    destruct (samples_of rows) as [ss'|e]; simpl in E; [|discriminate].
    injection E as <-. specialize (IH ss' eq_refl). unfold accepted_type.
    destruct o as [s|].
    + apply sample_of_inv in Er. destruct Er as [-> ->]. simpl. now f_equal.
    + apply sample_of_none_inv in Er. destruct Er as (b & -> & ->). exact IH.
Qed.

Lemma samples_of_kept `{Runtime} (rows : list row) (ss : list sample) :
  samples_of rows = Ok ss -> samples_of (filter kept rows) = Ok ss.
Proof.
  revert ss. induction rows as [|r rows IH]; simpl; intros ss E; [exact E|].
  destruct (sample_of r) as [o|e] eqn:Er; simpl in E; [|discriminate].
  destruct (samples_of rows) as [ss'|e]; simpl in E; [|discriminate].
  injection E as <-. specialize (IH ss' eq_refl).
  destruct o as [s|].
  - assert (Hk : kept r = true).
    { unfold kept. now destruct (sample_of_inv r s Er) as [-> ->]. }
    rewrite Hk. simpl. now rewrite Er, IH.
  - assert (Hk : kept r = false).
    { unfold kept. now destruct (sample_of_none_inv r Er) as (b & -> & ->). }
    now rewrite Hk.
Qed.

(** The stored types are the accepted types of the file. *)
Lemma stored_types_present `{Runtime} (rows : list row) (ss : list sample) :
  samples_of rows = Ok ss ->
  Permutation (keys (fold_left (fun d s => add_sample s d) ss []))
    (types_present rows).
Proof.
  intros Hs. apply NoDup_Permutation.
  - apply NoDup_keys_fold. constructor.
  - apply NoDup_nodup.
  - intros b. unfold types_present.
    rewrite nodup_In, <- (types_of_samples rows ss Hs), keys_fold, in_map_iff.
    simpl. split.
    + intros [[]|(s & Hin & E)]. eauto.
    + intros (s & E & Hin). eauto.
Qed.

Lemma types_present_accepted (rows : list row) (b : string) :
  In b (types_present rows) -> In b ["READ"; "WRITE"].
Proof.
  unfold types_present. rewrite nodup_In, in_flat_map.
  intros (r & _ & Hb). unfold accepted_type in Hb.
  destruct (lookup String.eqb "bench_type" r) as [b'|]; [|contradiction].
  destruct (accepted b') eqn:Ea; [|contradiction].
  destruct Hb as [<-|[]]. unfold accepted in Ea. simpl in Ea.
  rewrite orb_false_r in Ea. apply orb_true_iff in Ea.
  destruct Ea as [Ea|Ea]; apply String.eqb_eq in Ea; subst; simpl; auto.
Qed.

Lemma sorted_str_ok (l : list string) : exists r, sorted str_lt l = Ok r.
Proof. apply sorted_ok. intros a b _ _. unfold str_lt. eauto. Qed.

(** C4 (amended): for a file named [<stem>.dat] whose READ and WRITE
    rows are all well formed and whose timestamps are, per operation type,
    all naive or all aware, the run ends with status 0 and saves exactly
    one image per distinct accepted operation type among the rows, at most
    two, each to a file of its own, [<stem>_<TYPE>_metrics.png]; rows of
    other types change nothing: the same file without them gives the same
    run. *)
Theorem one_image_per_accepted_type `{Runtime} (prog stem : string)
    (rest : list string) (fs fs' : filesystem) (rows : list row)
    (ss : list sample) :
  free_of ".dat" stem = true ->
  fs (stem ++ ".dat") = Some rows ->
  fs' (stem ++ ".dat") = Some (filter kept rows) ->
  samples_of rows = Ok ss ->
  coherent ss ->
  let out := main (prog :: (stem ++ ".dat") :: rest) fs in
  status out = Exited 0 /\
  List.length (saved out) = List.length (types_present rows) /\
  (List.length (types_present rows) <= 2)%nat /\
  main (prog :: (stem ++ ".dat") :: rest) fs' = out /\
  NoDup (map fst (saved out)) /\
  (forall btype,
     In btype (types_present rows) <->
     In (stem ++ "_" ++ btype ++ "_metrics.png") (map fst (saved out))) /\
  Forall (fun name => savefig name = Ok name) (map fst (saved out)).
Proof.
  intros Hfree Hfs Hfs' Hs Hco out.
  set (csv_file := stem ++ ".dat") in *.
  assert (Hsame : main (prog :: csv_file :: rest) fs' = out).
  { unfold out, main. rewrite Hfs, Hfs', !read_rows_samples.
    now rewrite (samples_of_kept rows ss Hs), Hs. }
  assert (Htwo : (List.length (types_present rows) <= 2)%nat).
  { apply (NoDup_incl_length (l' := ["READ"; "WRITE"])).
    - apply NoDup_nodup.
    - intros b. apply types_present_accepted. }
  pose proof (stored_types_present rows ss Hs) as Hperm.
  assert (Hout : exists btypes,
             Permutation (types_present rows) btypes /\
             status out = Exited 0 /\
             map fst (saved out) = map (output_path csv_file) btypes).
  { unfold out, main. rewrite Hfs, read_rows_samples, Hs. simpl bind.
    remember (fold_left (fun d s => add_sample s d) ss []) as data eqn:Ed.
    destruct data as [|kv data'].
    - exists []. split; [|split; reflexivity].
      simpl in Hperm. now apply Permutation_nil in Hperm as ->.
    - cbv beta iota. rewrite Ed in *.
      destruct (sorted_str_ok (keys (fold_left (fun d s => add_sample s d) ss [])))
        as [btypes Hb].
      rewrite Hb. pose proof (sorted_perm _ _ _ Hb) as Hp.
      destruct (plot_types_ok csv_file
                  (fold_left (fun d s => add_sample s d) ss []) btypes
                  (silent (Exited 0))) as [Hst Hsv].
      { intros b Hin. apply plot_type_ok; [exact Hco|].
        now apply (Permutation_in _ (Permutation_sym Hp)). }
      { intros b _. eexists. now apply savefig_output_dat. }
      exists btypes. split; [|split].
      + now rewrite <- Hperm.
      + exact Hst.
      + exact Hsv. }
  destruct Hout as (btypes & Hp & Hst & Hsv).
  split; [exact Hst|].
  split.
  { rewrite <- (length_map fst), Hsv, length_map. symmetry.
    now apply Permutation_length. }
  split; [exact Htwo|].
  split; [exact Hsame|].
  set (image := fun b : string => stem ++ "_" ++ b ++ "_metrics.png").
  assert (Hinj : forall a b, image a = image b -> a = b).
  { unfold image. intros a b E. apply append_inj_l in E. simpl in E.
    injection E as E. now apply append_inj_r in E. }
  assert (Hsv' : map fst (saved out) = map image btypes).
  { rewrite Hsv. apply map_ext. intros b. now apply output_path_dat. }
  split.
  { rewrite Hsv'. apply NoDup_map_injective; [exact Hinj|].
    apply (Permutation_NoDup Hp). apply NoDup_nodup. }
  split.
  { intros b. rewrite Hsv'.
    change (stem ++ "_" ++ b ++ "_metrics.png") with (image b).
    split.
    - intros Hin. apply in_map. now apply (Permutation_in _ Hp).
    - intros Hin. apply in_map_iff in Hin. destruct Hin as (b' & E & Hin).
      apply Hinj in E. subst b'.
      now apply (Permutation_in _ (Permutation_sym Hp)). }
  rewrite Hsv'. apply Forall_map. apply Forall_forall. intros b _.
  apply savefig_metrics_png.
Qed.

Lemma one_image_per_type_three_rows :
  let out := main (H := Reference.bench_runtime)
               ["plot_bench_metrics.py"; "summary.dat"]
               (Examples.one_file "summary.dat" Examples.three_rows) in
  status out = Exited 0 /\
  map fst (saved out) = ["summary_READ_metrics.png"; "summary_WRITE_metrics.png"] /\
  List.length (saved out) = List.length (types_present Examples.three_rows) /\
  NoDup (map fst (saved out)).
Proof.
  intros out.
  edestruct (fun ss => @one_image_per_accepted_type Reference.bench_runtime
               "plot_bench_metrics.py" "summary" []
               (Examples.one_file "summary.dat" Examples.three_rows)
               (Examples.one_file "summary.dat" (filter kept Examples.three_rows))
               Examples.three_rows ss)
    as (Hst & Hlen & _ & _ & Hnames & _).
  - reflexivity.
  - reflexivity.
  - reflexivity.
  - vm_compute. reflexivity.
  - intros s1 s2 H1 H2 _. simpl in H1, H2.
    destruct H1 as [<-|[<-|[<-|[]]]]; destruct H2 as [<-|[<-|[<-|[]]]];
      reflexivity.
  - split; [exact Hst|]. split; [vm_compute; reflexivity|].
    split; [exact Hlen|]. exact Hnames.
Defined.

(** C4 as first stated fails for input files that are not named
    [<stem>.dat]: the same three rows, two operation types, leave no image
    at all when the file is called [summary.csv], since [savefig] knows no
    format [csv], and a single file when it is called [summary.png], since
    both images are written to the input path. *)
Lemma images_lost_without_dat :
  List.length (types_present Examples.three_rows) = 2%nat /\
  (let out := main (H := Reference.bench_runtime)
                ["plot_bench_metrics.py"; "summary.csv"]
                (Examples.one_file "summary.csv" Examples.three_rows) in
   saved out = [] /\ stdout out = [] /\ status out = Uncaught ValueError) /\
  (let out := main (H := Reference.bench_runtime)
                ["plot_bench_metrics.py"; "summary.png"]
                (Examples.one_file "summary.png" Examples.three_rows) in
   map fst (saved out) = ["summary.png"; "summary.png"] /\
   savefig "summary.png" = Ok "summary.png" /\
   status out = Exited 0).
Proof.
  split; [reflexivity|]. split; vm_compute; repeat split; reflexivity.
Qed.

Lemma relative_seconds_raise (l : list datetime) (e : exn) :
  relative_seconds l = Raise e -> e = TypeError.
Proof.
  destruct l as [|x l]; [discriminate|]. unfold relative_seconds.
  assert (Hm : forall l', mapM (fun ts => d <- dt_sub ts x ;; Ok (total_seconds d)) l'
                          = Raise e -> e = TypeError).
  { induction l' as [|y l' IH]; simpl; [discriminate|].
    unfold dt_sub at 1.
    destruct (Bool.eqb (aware y) (aware x)); simpl; [|congruence].
    destruct (mapM _ l'); simpl; [discriminate|].
    intros E. injection E as <-. now apply IH. }
  destruct (mapM _ (x :: l)) eqn:E; simpl; [discriminate|].
  intros E'. injection E' as <-. now apply Hm in E.
Qed.

(** C8: every group the reading loop creates holds at least one sample and
    its four lists have the same length, so none of the three means
    divides by zero; the plotting loop never raises [ZeroDivisionError]. *)
Theorem groups_nonempty_and_aligned `{Runtime} (rows : list row)
    (data : by_type) :
  read_rows [] rows = Ok data ->
  (forall btype ts g,
     stored data btype ts = Some g ->
     (0 < List.length (avg_lat g))%nat /\
     List.length (max_lat g) = List.length (avg_lat g) /\
     List.length (p99_lat g) = List.length (avg_lat g) /\
     List.length (throughput g) = List.length (avg_lat g) /\
     (exists a, mean (avg_lat g) = Ok a) /\
     (exists m, mean (max_lat g) = Ok m) /\
     (exists p, mean (p99_lat g) = Ok p)) /\
  (forall csv_file btype,
     plot_type csv_file data btype <> Raise ZeroDivisionError).
Proof.
  intros Hr.
  destruct (read_rows_inv rows data Hr) as (ss & _ & ->). split.
  - intros btype ts g Hst.
    destruct (stored_data_inv ss btype ts g Hst) as (Hne & ->).
    destruct (pushes_fresh_nonempty _ Hne) as (Ha & Hm & Hp).
    simpl. rewrite !length_map.
    split; [destruct (group btype ts ss); [contradiction | simpl; lia]|].
    repeat (split; [reflexivity|]).
    simpl in Ha, Hm, Hp.
    rewrite (mean_nonempty _ Ha), (mean_nonempty _ Hm), (mean_nonempty _ Hp).
    repeat split; eexists; reflexivity.
  - intros csv_file btype. unfold plot_type.
    destruct (sorted dt_lt _) as [l|e] eqn:Es; simpl.
    2:{ apply sorted_dt_raise in Es. congruence. }
    destruct (aggregate_ok (fold_left (fun d s => add_sample s d) ss [])
                btype l no_series) as [s Hs].
    { intros ts Hts.
      apply (Permutation_in _ (Permutation_sym (sorted_perm _ _ _ Es))) in Hts.
      apply timestamps_of_type in Hts. destruct Hts as (s & Hin & <- & <-).
      exists (group (sm_type s) (sm_time s) ss).
      split; [now apply group_of_member|].
      rewrite stored_fold.
      pose proof (group_of_member s ss Hin) as Hg.
      destruct (group (sm_type s) (sm_time s) ss); [contradiction | reflexivity]. }
    rewrite Hs. simpl.
    destruct (relative_seconds (s_ts s)) as [[secs|]|e] eqn:Er; simpl;
      try discriminate.
    apply relative_seconds_raise in Er. congruence.
Qed.

Lemma groups_two_clients :
  exists data g,
    read_rows (H := Reference.bench_runtime) [] Examples.two_clients = Ok data /\
    stored data "READ" Examples.two_clients_time = Some g /\
    List.length (avg_lat g) = 2%nat /\
    List.length (throughput g) = List.length (avg_lat g) /\
    (exists a, mean (avg_lat g) = Ok a) /\
    plot_type "summary.dat" data "READ" <> Raise ZeroDivisionError.
Proof.
  eexists. eexists.
  split; [vm_compute; reflexivity|].
  split; [vm_compute; reflexivity|].
  split; [reflexivity|].
  edestruct (@groups_nonempty_and_aligned Reference.bench_runtime
               Examples.two_clients) as (Hgroups & Hplot).
  - vm_compute. reflexivity.
  - edestruct (Hgroups "READ" Examples.two_clients_time)
      as (_ & _ & _ & Hl & Ha & _).
    + vm_compute. reflexivity.
    + split; [exact Hl|]. split; [exact Ha | apply Hplot].
Defined.

(** *** Row order *)

Lemma samples_of_perm `{Runtime} (rows rows' : list row) :
  Permutation rows rows' ->
  forall ss, samples_of rows = Ok ss ->
  exists ss', samples_of rows' = Ok ss' /\ Permutation ss ss'.
Proof.
  induction 1 as [|x l l' _ IH|x y l|l l' l'' _ IH1 _ IH2]; intros ss E.
  - eauto.
  - simpl in *.
    destruct (sample_of x) as [o|e]; simpl in *; [|discriminate].
    destruct (samples_of l) as [ss0|e]; simpl in *; [|discriminate].
    injection E as <-. destruct (IH ss0 eq_refl) as (ss0' & -> & Hp).
    simpl. eexists. split; [reflexivity|].
    destruct o; [now constructor | exact Hp].
  - simpl in *.
    destruct (sample_of y) as [oy|e]; simpl in *; [|discriminate].
    destruct (sample_of x) as [ox|e]; simpl in *; [|discriminate].
    destruct (samples_of l) as [ss0|e]; simpl in *; [|discriminate].
    injection E as <-. eexists. split; [reflexivity|].
    destruct ox, oy; try reflexivity. apply perm_swap.
  - destruct (IH1 ss E) as (ss1 & E1 & P1).
    destruct (IH2 ss1 E1) as (ss2 & E2 & P2).
    exists ss2. split; [exact E2 | now transitivity ss1].
Qed.

Lemma average_perm (l l' : list Q) :
  Permutation l l' -> (average l == average l')%Q.
Proof.
  intros Hp. unfold average.
  now rewrite (fold_right_Qplus_perm l l' Hp), (Permutation_length Hp).
Qed.

Lemma mean_perm (l l' : list Q) (a a' : Q) :
  Permutation l l' -> mean l = Ok a -> mean l' = Ok a' -> (a == a')%Q.
Proof.
  intros Hp Ha Ha'.
  rewrite (mean_average l a Ha), (mean_average l' a' Ha').
  now apply average_perm.
Qed.

Lemma sum_perm (l l' : list Q) : Permutation l l' -> (sum l == sum l')%Q.
Proof.
  intros Hp. rewrite !sum_fold_right. now apply fold_right_Qplus_perm.
Qed.

Lemma Forall2_Qeq_refl (l : list Q) : Forall2 Qeq l l.
Proof. induction l; constructor; [reflexivity | assumption]. Qed.

Lemma inner_keys_record_metric (app : samples -> samples) (b : string)
    (t : datetime) (d : by_type) :
  Forall (fun kv => NoDup (keys (snd kv))) d ->
  Forall (fun kv => NoDup (keys (snd kv))) (record_metric app b t d).
Proof.
  unfold record_metric.
  apply (Forall_dd_update String.eqb (fun v : by_timestamp => NoDup (keys v))).
  - apply (NoDup_keys_dd_update dt_eqb dt_eqb_spec). constructor.
  - intros v. apply (NoDup_keys_dd_update dt_eqb dt_eqb_spec).
Qed.

(** No timestamp is stored twice for one operation type. *)
Lemma inner_keys_NoDup (ss : list sample) (b : string) :
  NoDup (keys (dd_get String.eqb []
                 b (fold_left (fun d s => add_sample s d) ss []))).
Proof.
  assert (Hall : forall d,
             Forall (fun kv : string * by_timestamp => NoDup (keys (snd kv))) d ->
             Forall (fun kv : string * by_timestamp => NoDup (keys (snd kv)))
               (fold_left (fun d s => add_sample s d) ss d)).
  { induction ss as [|s ss IH]; intros d Hd; simpl; [exact Hd|].
    apply IH. unfold add_sample. cbv zeta.
    now repeat apply inner_keys_record_metric. }
  specialize (Hall [] (Forall_nil _)).
  unfold dd_get.
  destruct (lookup String.eqb b _) as [v|] eqn:E; [|constructor].
  apply lookup_In in E. destruct E as [k' Hin].
  rewrite Forall_forall in Hall. exact (Hall _ Hin).
Qed.

Lemma inner_keys_perm (ss ss' : list sample) (b : string) :
  Permutation ss ss' ->
  Permutation
    (keys (dd_get String.eqb [] b (fold_left (fun d s => add_sample s d) ss [])))
    (keys (dd_get String.eqb [] b (fold_left (fun d s => add_sample s d) ss' []))).
Proof.
  intros Hp. apply NoDup_Permutation; try apply inner_keys_NoDup.
  intros ts. rewrite !timestamps_of_type. split.
  - intros (s & Hin & E). exists s. split; [|exact E].
    now apply (Permutation_in _ Hp).
  - intros (s & Hin & E). exists s. split; [|exact E].
    now apply (Permutation_in _ (Permutation_sym Hp)).
Qed.

Lemma outer_keys_perm (ss ss' : list sample) :
  Permutation ss ss' ->
  Permutation (keys (fold_left (fun d s => add_sample s d) ss []))
    (keys (fold_left (fun d s => add_sample s d) ss' [])).
Proof.
  intros Hp. apply NoDup_Permutation;
    try (apply NoDup_keys_fold; constructor).
  intros b. rewrite !keys_fold. split.
  - intros [[]|(s & Hin & E)]. right. exists s. split; [|exact E].
    now apply (Permutation_in _ Hp).
  - intros [[]|(s & Hin & E)]. right. exists s. split; [|exact E].
    now apply (Permutation_in _ (Permutation_sym Hp)).
Qed.

Lemma stored_of_key (ss : list sample) (b : string) (ts : datetime) :
  In ts (keys (dd_get String.eqb []
                 b (fold_left (fun d s => add_sample s d) ss []))) ->
  group b ts ss <> [] /\
  stored (fold_left (fun d s => add_sample s d) ss []) b ts
    = Some (pushes (group b ts ss) no_samples).
Proof.
  intros Hin. apply timestamps_of_type in Hin.
  destruct Hin as (s & Hin & <- & <-).
  pose proof (group_of_member s ss Hin) as Hg. split; [exact Hg|].
  rewrite stored_fold.
  destruct (group (sm_type s) (sm_time s) ss); [contradiction | reflexivity].
Qed.

(** The aggregation loop computes equivalent series from the same
    samples read in two orders. *)
Lemma aggregate_perm (ss ss' : list sample) (b : string) (l : list datetime) :
  Permutation ss ss' ->
  (forall ts, In ts l ->
     In ts (keys (dd_get String.eqb []
                    b (fold_left (fun d s => add_sample s d) ss [])))) ->
  forall acc acc', series_equiv acc acc' ->
  exists s s',
    aggregate (dd_get String.eqb [] b (fold_left (fun d s => add_sample s d) ss []))
      acc l = Ok s /\
    aggregate (dd_get String.eqb [] b (fold_left (fun d s => add_sample s d) ss' []))
      acc' l = Ok s' /\
    series_equiv s s'.
Proof.
  intros Hp. induction l as [|ts l IH]; intros Hl acc acc' Hacc; simpl.
  - eauto.
  - assert (Hts : In ts (ts :: l)) by now left.
    apply Hl in Hts.
    pose proof (Permutation_in _ (inner_keys_perm ss ss' b Hp) Hts) as Hts'.
    destruct (stored_of_key ss b ts Hts) as [Hg Hst].
    destruct (stored_of_key ss' b ts Hts') as [Hg' Hst'].
    destruct (aggregate_step_group _ b ts _ acc Hg Hst)
      as (a & m & p & -> & Ha & Hm & Hq).
    destruct (aggregate_step_group _ b ts _ acc' Hg' Hst')
      as (a' & m' & p' & -> & Ha' & Hm' & Hq').
    simpl. apply IH; [intros; apply Hl; now right|].
    pose proof (Permutation_filter_compat (in_group b ts) ss ss' Hp) as Hgp.
    destruct Hacc as (H1 & H2 & H3 & H4 & H5).
    unfold series_equiv. simpl.
    repeat split; try (apply Forall2_app; [assumption|]); repeat constructor.
    + exact (mean_perm _ _ _ _ (Permutation_map sm_avg Hgp) Ha Ha').
    + exact (mean_perm _ _ _ _ (Permutation_map sm_max Hgp) Hm Hm').
    + exact (mean_perm _ _ _ _ (Permutation_map sm_p99 Hgp) Hq Hq').
    + exact (sum_perm _ _ (Permutation_map sm_thr Hgp)).
    + now rewrite H5.
Qed.

Lemma plot_type_perm (csv_file : string) (ss ss' : list sample) (b : string) :
  Permutation ss ss' ->
  plot_equiv
    (plot_type csv_file (fold_left (fun d s => add_sample s d) ss []) b)
    (plot_type csv_file (fold_left (fun d s => add_sample s d) ss' []) b).
Proof.
  intros Hp. unfold plot_type.
  rewrite <- (sorted_dt_perm _ _ (inner_keys_perm ss ss' b Hp)).
  destruct (sorted dt_lt _) as [l|e] eqn:Es; simpl; [|reflexivity].
  destruct (aggregate_perm ss ss' b l Hp) with (acc := no_series) (acc' := no_series)
    as (s & s' & -> & -> & H1 & H2 & H3 & H4 & H5).
  { intros ts Hts.
    now apply (Permutation_in _ (Permutation_sym (sorted_perm _ _ _ Es))). }
  { unfold series_equiv. simpl. repeat split; constructor. }
  simpl. rewrite <- H5.
  destruct (relative_seconds (s_ts s)) as [[secs|]|e]; simpl; try reflexivity.
  unfold image_equiv, figure_equiv. simpl.
  repeat split; try assumption. apply Forall2_Qeq_refl.
Qed.

Lemma existsb_eqb_In (b : string) (l : list string) :
  existsb (String.eqb b) l = true <-> In b l.
Proof.
  rewrite existsb_exists. split.
  - intros (x & Hin & E). apply String.eqb_eq in E. now subst.
  - intros Hin. exists b. split; [exact Hin | apply String.eqb_refl].
Qed.

(** On distinct accepted types, [sorted] yields READ before WRITE. *)
Lemma sorted_accepted_types (l : list string) :
  NoDup l -> incl l ["READ"; "WRITE"] ->
  sorted str_lt l =
  Ok (filter (fun b => existsb (String.eqb b) l) ["READ"; "WRITE"]).
Proof.
  intros Hnd Hincl.
  pose proof (NoDup_incl_length Hnd Hincl) as Hlen.
  destruct l as [|a [|b [|c l]]]; simpl in Hlen; [reflexivity| | |lia].
  - destruct (Hincl a (or_introl eq_refl)) as [<-|[<-|[]]]; reflexivity.
  - destruct (Hincl a (or_introl eq_refl)) as [<-|[<-|[]]];
      destruct (Hincl b (or_intror (or_introl eq_refl))) as [<-|[<-|[]]];
      try reflexivity;
      exfalso; inversion Hnd as [|? ? Hn _]; apply Hn; now left.
Qed.

Lemma sorted_types_perm (l l' : list string) :
  NoDup l -> incl l ["READ"; "WRITE"] -> Permutation l l' ->
  sorted str_lt l = sorted str_lt l'.
Proof.
  intros Hnd Hincl Hp.
  rewrite (sorted_accepted_types l Hnd Hincl), (sorted_accepted_types l').
  - f_equal. apply filter_ext. intros b.
    apply eq_true_iff_eq. rewrite !existsb_eqb_In. split.
    + apply (Permutation_in _ Hp).
    + apply (Permutation_in _ (Permutation_sym Hp)).
  - apply (Permutation_NoDup Hp Hnd).
  - intros b Hb. apply Hincl. now apply (Permutation_in _ (Permutation_sym Hp)).
Qed.

Lemma accepted_inv (b : string) :
  accepted b = true -> In b ["READ"; "WRITE"].
Proof.
  unfold accepted. simpl. rewrite orb_false_r. intros E.
  apply orb_true_iff in E.
  destruct E as [E|E]; apply String.eqb_eq in E; subst; simpl; auto.
Qed.

Lemma plot_types_perm (csv_file : string) (data data' : by_type)
    (btypes : list string) (out out' : outcome) :
  (forall b, plot_equiv (plot_type csv_file data b) (plot_type csv_file data' b)) ->
  outcome_equiv out out' ->
  outcome_equiv (plot_types csv_file data btypes out)
    (plot_types csv_file data' btypes out').
Proof.
  intros Hb. revert out out'.
  induction btypes as [|b btypes IH]; intros out out' Ho; simpl; [exact Ho|].
  specialize (Hb b). unfold plot_equiv in Hb.
  destruct Ho as (Ho1 & Ho2 & Ho3).
  destruct (plot_type csv_file data b) as [[[p f]|]|e],
           (plot_type csv_file data' b) as [[[p' f']|]|e'];
    try contradiction.
  - destruct Hb as [Hpath Hfig]. simpl in Hpath. subst p'.
    destruct (savefig p) as [written|e];
      [|unfold outcome_equiv; simpl; auto].
    apply IH.
    unfold outcome_equiv. simpl. rewrite Ho1.
    repeat split; try assumption.
    apply Forall2_app; [exact Ho3|].
    constructor; [split; [reflexivity | exact Hfig] | constructor].
  - apply IH. unfold outcome_equiv. auto.
  - subst e'. unfold outcome_equiv. simpl. auto.
Qed.

(** Reading the rows of a file in another order gives the same run. *)
Lemma main_perm `{Runtime} (prog csv_file : string) (rest : list string)
    (fs fs' : filesystem) (rows rows' : list row) (data : by_type) :
  Permutation rows rows' ->
  read_rows [] rows = Ok data ->
  fs csv_file = Some rows -> fs' csv_file = Some rows' ->
  outcome_equiv (main (prog :: csv_file :: rest) fs)
    (main (prog :: csv_file :: rest) fs').
Proof.
  intros Hperm Hr Hfs Hfs'.
  destruct (read_rows_inv rows data Hr) as (ss & Hs & ->).
  destruct (samples_of_perm rows rows' Hperm ss Hs) as (ss' & Hs' & Hp).
  unfold main. rewrite Hfs, Hfs', !read_rows_samples, Hs, Hs'. simpl bind.
  pose proof (outer_keys_perm ss ss' Hp) as Hk.
  assert (Hincl : incl (keys (fold_left (fun d s => add_sample s d) ss []))
                    ["READ"; "WRITE"]).
  { intros b Hb. apply accepted_inv. apply keys_fold in Hb.
    destruct Hb as [[]|(s & Hin & <-)].
    pose proof (samples_of_accepted rows ss Hs) as Ha.
    rewrite Forall_forall in Ha. now apply Ha. }
  pose proof (sorted_types_perm _ _ (NoDup_keys_fold ss [] (NoDup_nil _)) Hincl Hk)
    as Hsort.
  remember (fold_left (fun d s => add_sample s d) ss []) as data eqn:Ed.
  remember (fold_left (fun d s => add_sample s d) ss' []) as data' eqn:Ed'.
  destruct data as [|kv d]; destruct data' as [|kv' d'].
  - unfold outcome_equiv. simpl. repeat split; constructor.
  - apply Permutation_nil in Hk. discriminate.
  - apply Permutation_sym, Permutation_nil in Hk. discriminate.
  - cbv beta iota. rewrite <- Hsort.
    destruct (sorted str_lt (keys (kv :: d))) as [btypes|e].
    + apply plot_types_perm.
      * intros b. rewrite Ed, Ed'. now apply plot_type_perm.
      * unfold outcome_equiv. simpl. repeat split; constructor.
    + unfold outcome_equiv. simpl. repeat split; constructor.
Qed.

(** The series the aggregation loop builds hold, timestamp by timestamp,
    the means and the sum of the corresponding group. *)
Lemma aggregate_points (ss : list sample) (b : string) (l : list datetime) :
  (forall ts, In ts l ->
     In ts (keys (dd_get String.eqb []
                    b (fold_left (fun d s => add_sample s d) ss [])))) ->
  forall acc s,
    aggregate (dd_get String.eqb [] b (fold_left (fun d s => add_sample s d) ss []))
      acc l = Ok s ->
    exists la lm lp lt,
      s_avg s = (s_avg acc ++ la)%list /\
      s_max s = (s_max acc ++ lm)%list /\
      s_p99 s = (s_p99 acc ++ lp)%list /\
      s_thr s = (s_thr acc ++ lt)%list /\
      Forall2 (fun ts a => a == average (map sm_avg (group b ts ss)))%Q l la /\
      Forall2 (fun ts m => m == average (map sm_max (group b ts ss)))%Q l lm /\
      Forall2 (fun ts p => p == average (map sm_p99 (group b ts ss)))%Q l lp /\
      Forall2 (fun ts t => t == total (map sm_thr (group b ts ss)))%Q l lt.
Proof.
  induction l as [|ts l IH]; intros Hl acc s; simpl.
  - intros E. injection E as <-. exists [], [], [], [].
    rewrite !app_nil_r. repeat split; constructor.
  - assert (Hts : In ts (ts :: l)) by now left.
    destruct (stored_of_key ss b ts (Hl ts Hts)) as [Hg Hst].
    destruct (aggregate_step_group _ b ts _ acc Hg Hst)
      as (a & m & p & -> & Ha & Hm & Hp).
    simpl. intros E.
    destruct (IH (fun t H => Hl t (or_intror H)) _ _ E)
      as (la & lm & lp & lt & E1 & E2 & E3 & E4 & F1 & F2 & F3 & F4).
    simpl in E1, E2, E3, E4.
    exists (a :: la), (m :: lm), (p :: lp),
      (sum (map sm_thr (group b ts ss)) :: lt).
    rewrite E1, E2, E3, E4, <- !app_assoc. simpl.
    repeat split; constructor; try assumption.
    + now apply mean_average.
    + now apply mean_average.
    + now apply mean_average.
    + apply sum_fold_right.
Qed.

(** C10: reading the rows of a file in another order leaves every
    (operation type, timestamp) group in place, and the point the
    aggregation loop computes for it (three means and a sum, as rational
    numbers) is the same; so is the whole run: same status, same printed
    lines, same image paths, and figures equal point by point. *)
Theorem aggregation_ignores_row_order `{Runtime} (rows rows' : list row)
    (data : by_type) :
  Permutation rows rows' ->
  read_rows [] rows = Ok data ->
  exists data',
    read_rows [] rows' = Ok data' /\
    (forall btype ts,
       (stored data btype ts = None <-> stored data' btype ts = None) /\
       (stored data btype ts <> None ->
        point_equiv
          (aggregate_step (dd_get String.eqb [] btype data) no_series ts)
          (aggregate_step (dd_get String.eqb [] btype data') no_series ts))) /\
    (forall prog csv_file rest fs fs',
       fs csv_file = Some rows -> fs' csv_file = Some rows' ->
       outcome_equiv (main (prog :: csv_file :: rest) fs)
         (main (prog :: csv_file :: rest) fs')).
Proof.
  intros Hperm Hr.
  assert (Hrun : forall prog csv_file rest fs fs',
             fs csv_file = Some rows -> fs' csv_file = Some rows' ->
             outcome_equiv (main (prog :: csv_file :: rest) fs)
               (main (prog :: csv_file :: rest) fs')).
  { intros prog csv_file rest fs fs'. now apply (main_perm _ _ _ _ _ rows rows' data). }
  destruct (read_rows_inv rows data Hr) as (ss & Hs & ->).
  destruct (samples_of_perm rows rows' Hperm ss Hs) as (ss' & Hs' & Hp).
  destruct (stored_read rows' ss' Hs') as (data' & Hr' & -> & _).
  eexists. split; [exact Hr'|]. split; [|exact Hrun]. intros btype ts.
  pose proof (Permutation_filter_compat (in_group btype ts) ss ss' Hp) as Hg.
  fold (group btype ts ss) in Hg. fold (group btype ts ss') in Hg.
  rewrite !stored_fold. change (stored [] btype ts) with (@None samples).
  destruct (group btype ts ss) as [|s g] eqn:E;
    destruct (group btype ts ss') as [|s' g'] eqn:E'.
  - split; [tauto | congruence].
  - apply Permutation_nil in Hg. discriminate.
  - apply Permutation_sym, Permutation_nil in Hg. discriminate.
  - split; [split; discriminate|]. intros _.
    destruct (aggregate_step_group
                (fold_left (fun d s => add_sample s d) ss []) btype ts
                (s :: g) no_series) as (a & m & p & -> & Ha & Hm & Hp3).
    { discriminate. }
    { rewrite stored_fold, E. reflexivity. }
    destruct (aggregate_step_group
                (fold_left (fun d s => add_sample s d) ss' []) btype ts
                (s' :: g') no_series) as (a' & m' & p' & -> & Ha' & Hm' & Hp3').
    { discriminate. }
    { rewrite stored_fold, E'. reflexivity. }
    unfold point_equiv. cbn [s_avg s_max s_p99 s_thr s_ts no_series app].
    repeat split; repeat constructor.
    + exact (mean_perm _ _ _ _ (Permutation_map sm_avg Hg) Ha Ha').
    + exact (mean_perm _ _ _ _ (Permutation_map sm_max Hg) Hm Hm').
    + exact (mean_perm _ _ _ _ (Permutation_map sm_p99 Hg) Hp3 Hp3').
    + exact (sum_perm _ _ (Permutation_map sm_thr Hg)).
Qed.

Lemma swapped_clients_same_point :
  exists data data',
    read_rows (H := Reference.bench_runtime) [] Examples.two_clients = Ok data /\
    read_rows (H := Reference.bench_runtime) [] Examples.two_clients_swapped
      = Ok data' /\
    avg_lat (dd_get dt_eqb no_samples Examples.two_clients_time
               (dd_get String.eqb [] "READ" data)) <>
    avg_lat (dd_get dt_eqb no_samples Examples.two_clients_time
               (dd_get String.eqb [] "READ" data')) /\
    point_equiv
      (aggregate_step (dd_get String.eqb [] "READ" data) no_series
         Examples.two_clients_time)
      (aggregate_step (dd_get String.eqb [] "READ" data') no_series
         Examples.two_clients_time).
Proof.
  destruct (@aggregation_ignores_row_order Reference.bench_runtime
              Examples.two_clients Examples.two_clients_swapped
              (fold_left (fun d s => add_sample s d)
                 [ {| sm_type := "READ"; sm_time := Examples.two_clients_time;
                      sm_avg := 10000000 # 1000000; sm_max := 20000000 # 1000000;
                      sm_p99 := 15000000 # 1000000; sm_thr := 100 |};
                   {| sm_type := "READ"; sm_time := Examples.two_clients_time;
                      sm_avg := 20000000 # 1000000; sm_max := 20000000 # 1000000;
                      sm_p99 := 15000000 # 1000000; sm_thr := 50 |} ] []))
    as (data' & Hr' & Hpoint & _).
  - apply perm_swap.
  - vm_compute. reflexivity.
  - eexists. exists data'.
    split; [vm_compute; reflexivity|].
    split; [exact Hr'|].
    destruct (Hpoint "READ" Examples.two_clients_time) as [_ Heq].
    split.
    + vm_compute in Hr'. injection Hr' as <-. vm_compute. discriminate.
    + apply Heq. vm_compute. discriminate.
Defined.

(** *** The points of a figure *)

Lemma keys_types_incl `{Runtime} (rows : list row) (ss : list sample) :
  samples_of rows = Ok ss ->
  incl (keys (fold_left (fun d s => add_sample s d) ss [])) ["READ"; "WRITE"].
Proof.
  intros Hs b Hb. apply accepted_inv. apply keys_fold in Hb.
  destruct Hb as [[]|(s & Hin & <-)].
  pose proof (samples_of_accepted rows ss Hs) as Ha.
  rewrite Forall_forall in Ha. now apply Ha.
Qed.

(** The plotting loop visits READ before WRITE. *)
Lemma sorted_stored_types `{Runtime} (rows : list row) (ss : list sample) :
  samples_of rows = Ok ss ->
  sorted str_lt (keys (fold_left (fun d s => add_sample s d) ss []))
  = Ok (plotted_types (types_present rows)).
Proof.
  intros Hs.
  rewrite (sorted_accepted_types _ (NoDup_keys_fold ss [] (NoDup_nil _))
             (keys_types_incl rows ss Hs)).
  f_equal. unfold plotted_types. apply filter_ext. intros b.
  apply eq_true_iff_eq. rewrite !existsb_eqb_In.
  pose proof (stored_types_present rows ss Hs) as Hp. split.
  - apply (Permutation_in _ Hp).
  - apply (Permutation_in _ (Permutation_sym Hp)).
Qed.

Lemma main_after_reading `{Runtime} (prog csv_file : string)
    (rest : list string) (fs : filesystem) (rows : list row)
    (ss : list sample) :
  fs csv_file = Some rows -> samples_of rows = Ok ss ->
  main (prog :: csv_file :: rest) fs =
  match types_present rows with
  | [] => {| stdout := ["No READ/WRITE test data found"]; saved := [];
             status := Exited 0 |}
  | _ => plot_types csv_file (fold_left (fun d s => add_sample s d) ss [])
           (plotted_types (types_present rows)) (silent (Exited 0))
  end.
Proof.
  intros Hfs Hs. unfold main. rewrite Hfs, read_rows_samples, Hs. simpl bind.
  pose proof (stored_types_present rows ss Hs) as Hp.
  pose proof (sorted_stored_types rows ss Hs) as Hsort.
  remember (fold_left (fun d s => add_sample s d) ss []) as data eqn:Ed.
  destruct data as [|kv data'].
  - simpl in Hp. now apply Permutation_nil in Hp as ->.
  - cbv beta iota. rewrite Hsort.
    destruct (types_present rows) as [|t ts] eqn:Et; [|reflexivity].
    apply Permutation_sym, Permutation_nil in Hp. discriminate.
Qed.

(** When every turn of the plotting loop succeeds, the loop saves and
    announces one figure per operation type, in order. *)
Lemma plot_types_closed (csv_file : string) (data : by_type)
    (btypes : list string) (out : outcome) :
  (forall b, In b btypes ->
     exists fig, plot_type csv_file data b = Ok (Some (output_path csv_file b, fig))) ->
  (forall b, In b btypes ->
     exists written, savefig (output_path csv_file b) = Ok written) ->
  exists figs,
    Forall2 (fun b fig =>
               plot_type csv_file data b = Ok (Some (output_path csv_file b, fig)))
      btypes figs /\
    plot_types csv_file data btypes out =
    {| stdout := (stdout out
                  ++ map (fun b => ("Saved: " ++ output_path csv_file b)%string)
                       btypes)%list;
       saved := (saved out ++ combine (map (output_path csv_file) btypes) figs)%list;
       status := status out |}.
Proof.
  revert out. induction btypes as [|b btypes IH]; intros out Hok Hsave.
  - exists []. split; [constructor|]. destruct out. simpl.
    now rewrite !app_nil_r.
  - destruct (Hok b (or_introl eq_refl)) as [fig Hfig].
    destruct (Hsave b (or_introl eq_refl)) as [written Hw].
    cbn [plot_types]. rewrite Hfig, Hw.
    match goal with
    | |- context [plot_types _ _ _ ?o] =>
        destruct (IH o) as (figs & Hall & ->);
          [intros b0 Hb0; apply Hok; now right
          |intros b0 Hb0; apply Hsave; now right|]
    end.
    exists (fig :: figs). split; [now constructor|].
    cbn [stdout saved status map combine]. now rewrite <- !app_assoc.
Qed.

Lemma Forall2_one {A B : Type} (R : A -> B -> Prop) (x : A) (l : list B) :
  Forall2 R [x] l -> exists y, l = [y] /\ R x y.
Proof.
  intros Hall. inversion Hall as [|? y ? l' Hxy Hnil]; subst.
  inversion Hnil; subst. eauto.
Defined.

Lemma Forall2_In_combine {A B C : Type} (R : A -> B -> Prop) (f : A -> C)
    (l1 : list A) (l2 : list B) (x : A) :
  Forall2 R l1 l2 -> In x l1 ->
  exists y, R x y /\ In (f x, y) (combine (map f l1) l2).
Proof.
  induction 1 as [|a b l1 l2 Hab _ IH]; intros Hin; [destruct Hin|].
  destruct Hin as [->|Hin].
  - exists b. split; [exact Hab | now left].
  - destruct (IH Hin) as (y & Hy & Hc). exists y. split; [exact Hy | now right].
Qed.

(** The curves of the figure of one operation type: one point per stored
    timestamp of the type, in sorted order, each carrying the three means
    and the sum of its group. *)
Lemma plot_type_points (csv_file : string) (ss : list sample) (b path : string)
    (fig : figure) :
  plot_type csv_file (fold_left (fun d s => add_sample s d) ss []) b
    = Ok (Some (path, fig)) ->
  exists timestamps,
    sorted dt_lt
      (keys (dd_get String.eqb [] b (fold_left (fun d s => add_sample s d) ss [])))
      = Ok timestamps /\
    suptitle fig = "ZKBench Metrics - " ++ b ++ " Operations" /\
    Forall2 (fun ts a => a == average (map sm_avg (group b ts ss)))%Q
      timestamps (avg_lats fig) /\
    Forall2 (fun ts m => m == average (map sm_max (group b ts ss)))%Q
      timestamps (max_lats fig) /\
    Forall2 (fun ts p => p == average (map sm_p99 (group b ts ss)))%Q
      timestamps (p99_lats fig) /\
    Forall2 (fun ts t => t == total (map sm_thr (group b ts ss)))%Q
      timestamps (throughputs fig).
Proof.
  unfold plot_type.
  destruct (sorted dt_lt _) as [l|e] eqn:Es; simpl; [|discriminate].
  destruct (aggregate _ no_series l) as [s|e] eqn:Ea; simpl; [|discriminate].
  destruct (relative_seconds (s_ts s)) as [[secs|]|e]; simpl; try discriminate.
  intros E. injection E as _ <-. simpl.
  destruct (aggregate_points ss b l) with (acc := no_series) (s := s)
    as (la & lm & lp & lt & -> & -> & -> & -> & F1 & F2 & F3 & F4).
  { intros t' Ht'.
    now apply (Permutation_in _ (Permutation_sym (sorted_perm _ _ _ Es))). }
  { exact Ea. }
  exists l. simpl. auto 10.
Qed.

(** C1: in a run on a file whose READ and WRITE rows are well formed,
    with the timestamps of each operation type all naive or all aware and
    image names [savefig] accepts, the figure saved for an operation type
    has exactly one point per timestamp of the type, and the point of a
    timestamp carries, for the rows of that type and timestamp, the
    arithmetic mean of their average, maximum and 99th-percentile
    latencies (each already divided by 1,000,000) and the sum of their
    throughputs. *)
Theorem group_point_means_and_sum `{Runtime} (prog csv_file : string)
    (rest : list string) (fs : filesystem) (rows : list row)
    (ss : list sample) (btype : string) :
  fs csv_file = Some rows ->
  samples_of rows = Ok ss ->
  coherent ss ->
  accepts_images csv_file = true ->
  (exists s, In s ss /\ sm_type s = btype) ->
  exists fig timestamps,
    In (output_path csv_file btype, fig)
       (saved (main (prog :: csv_file :: rest) fs)) /\
    suptitle fig = "ZKBench Metrics - " ++ btype ++ " Operations" /\
    NoDup timestamps /\
    (forall ts, In ts timestamps <-> group btype ts ss <> []) /\
    Forall2 (fun ts a => a == average (map sm_avg (group btype ts ss)))%Q
      timestamps (avg_lats fig) /\
    Forall2 (fun ts m => m == average (map sm_max (group btype ts ss)))%Q
      timestamps (max_lats fig) /\
    Forall2 (fun ts p => p == average (map sm_p99 (group btype ts ss)))%Q
      timestamps (p99_lats fig) /\
    Forall2 (fun ts t => t == total (map sm_thr (group btype ts ss)))%Q
      timestamps (throughputs fig).
Proof.
  intros Hfs Hs Hco Hacc (s0 & Hin0 & Hty0).
  set (data := fold_left (fun d s => add_sample s d) ss []).
  pose proof (stored_types_present rows ss Hs) as Hperm. fold data in Hperm.
  assert (Hkey : In btype (keys data)).
  { apply keys_fold. right. eauto. }
  assert (Hpres : In btype (types_present rows)).
  { now apply (Permutation_in _ Hperm). }
  rewrite (main_after_reading prog csv_file rest fs rows ss Hfs Hs).
  destruct (types_present rows) as [|t0 present] eqn:Et; [destruct Hpres|].
  rewrite <- Et in *. fold data.
  set (btypes := plotted_types (types_present rows)).
  assert (Hb : forall b, In b btypes ->
                 In b ["READ"; "WRITE"] /\ In b (keys data)).
  { intros b Hin. unfold btypes, plotted_types in Hin.
    apply filter_In in Hin. destruct Hin as [Hrw Hex].
    split; [exact Hrw|]. apply existsb_eqb_In in Hex.
    now apply (Permutation_in _ (Permutation_sym Hperm)). }
  assert (Hmine : In btype btypes).
  { unfold btypes, plotted_types. apply filter_In. split.
    - now apply (types_present_accepted rows).
    - now apply existsb_eqb_In. }
  destruct (plot_types_closed csv_file data btypes (silent (Exited 0)))
    as (figs & Hall & ->).
  { intros b Hin. apply plot_type_ok; [exact Hco | apply (Hb b Hin)]. }
  { intros b Hin. apply accepts_images_inv; [exact Hacc | apply (Hb b Hin)]. }
  destruct (Forall2_In_combine _ (output_path csv_file) _ _ btype Hall Hmine)
    as (fig & Hfig & Hsaved).
  destruct (plot_type_points csv_file ss btype _ fig Hfig)
    as (timestamps & Hsort & Htitle & F1 & F2 & F3 & F4).
  pose proof (sorted_perm _ _ _ Hsort) as Hp.
  exists fig, timestamps.
  split; [exact Hsaved|]. split; [exact Htitle|].
  split; [apply (Permutation_NoDup Hp); apply inner_keys_NoDup|].
  split; [|auto].
  intros ts. split.
  - intros Hts. apply (Permutation_in _ (Permutation_sym Hp)) in Hts.
    apply timestamps_of_type in Hts. destruct Hts as (s & Hin & <- & <-).
    now apply group_of_member.
  - intros Hg. apply (Permutation_in _ Hp). apply timestamps_of_type.
    now apply group_nonempty_inv.
Qed.

Lemma group_point_two_clients :
  exists fig a t,
    In ("summary_READ_metrics.png", fig)
       (saved (main (H := Reference.bench_runtime)
                 ["plot_bench_metrics.py"; "summary.dat"]
                 (Examples.one_file "summary.dat" Examples.two_clients))) /\
    avg_lats fig = [a] /\ throughputs fig = [t] /\
    (a == 15)%Q /\ (t == 150)%Q.
Proof.
  edestruct (fun ss => @group_point_means_and_sum Reference.bench_runtime
               "plot_bench_metrics.py" "summary.dat" []
               (Examples.one_file "summary.dat" Examples.two_clients)
               Examples.two_clients ss "READ")
    as (fig & timestamps & Hin & _ & Hnd & Hiff & Havg & _ & _ & Hthr).
  - reflexivity.
  - vm_compute. reflexivity.
  - intros s1 s2 H1 H2 _. simpl in H1, H2.
    destruct H1 as [<-|[<-|[]]]; destruct H2 as [<-|[<-|[]]]; reflexivity.
  - vm_compute. reflexivity.
  - eexists. split; [left; reflexivity | reflexivity].
  - assert (Hall : forall ts, In ts timestamps -> ts = Examples.two_clients_time).
    { intros ts Hts. apply Hiff in Hts. apply group_nonempty_inv in Hts.
      destruct Hts as (s & [<-|[<-|[]]] & _ & <-); reflexivity. }
    assert (Hone : In Examples.two_clients_time timestamps).
    { apply Hiff. vm_compute. discriminate. }
    destruct timestamps as [|t1 [|t2 later]].
    + destruct Hone.
    + pose proof (Hall t1 (or_introl eq_refl)) as ->.
      destruct (Forall2_one _ _ _ Havg) as (a & Ea & Ha).
      destruct (Forall2_one _ _ _ Hthr) as (t & Et & Ht).
      exists fig, a, t.
      split; [exact Hin|]. split; [exact Ea|]. split; [exact Et|].
      split; [rewrite Ha | rewrite Ht]; vm_compute; reflexivity.
    + exfalso. inversion Hnd as [|? ? Hnot _]. apply Hnot.
      rewrite (Hall t1 (or_introl eq_refl)).
      rewrite (Hall t2 (or_intror (or_introl eq_refl))). now left.
Defined.

End BenchProps.

(** ** Properties of visualize_gradual_overload.py *)

Module OverloadProps.
Import Py PyFacts VisualizeGradualOverload OverloadSpec.
Local Open Scope py_scope.

Lemma fold_min_spec (l : list Z) (a : Z) :
  let m := fold_left Z.min l a in
  m <= a /\ Forall (fun t => m <= t) l /\ (m = a \/ In m l).
Proof.
  revert a. induction l as [|x l IH]; intros a; simpl.
  - split; [lia|]. split; [constructor | now left].
  - destruct (IH (Z.min a x)) as (Hle & Hall & Hin).
    split; [lia|]. split; [constructor; [lia | exact Hall]|].
    destruct Hin as [E|Hin]; [|auto].
    destruct (Z.min_spec a x) as [[_ E']|[_ E']]; [left | right; left];
      congruence.
Qed.

Lemma ts_min_spec (l : list Z) :
  l <> [] ->
  exists s, ts_min l = Some s /\ In s l /\ Forall (fun t => s <= t) l.
Proof.
  destruct l as [|t l]; [contradiction|]. intros _. simpl.
  destruct (fold_min_spec l t) as (Hle & Hall & Hin).
  eexists. split; [reflexivity|]. split.
  - destruct Hin as [->|Hin]; auto.
  - constructor; assumption.
Qed.

Lemma Qmax_cases (x y : Q) : Qmax x y = x \/ Qmax x y = y.
Proof.
  unfold Qmax, GenericMinMax.gmax. destruct (x ?= y)%Q; auto.
Qed.

Lemma fold_max_spec (l : list Q) (a : Q) :
  let m := fold_left Qmax l a in
  (a <= m)%Q /\ Forall (fun x => x <= m)%Q l /\ (m = a \/ In m l).
Proof.
  revert a. induction l as [|x l IH]; intros a; simpl.
  - split; [apply Qle_refl|]. split; [constructor | now left].
  - destruct (IH (Qmax a x)) as (Hle & Hall & Hin).
    split; [eapply Qle_trans; [apply Q.le_max_l | exact Hle]|].
    split; [constructor; [eapply Qle_trans; [apply Q.le_max_r | exact Hle]
                         | exact Hall]|].
    destruct Hin as [E|Hin]; [|auto].
    destruct (Qmax_cases a x) as [E'|E']; [left | right; left]; congruence.
Qed.

Lemma series_max_spec (l : list Q) :
  l <> [] ->
  exists m, series_max l = Some m /\ In m l /\ Forall (fun x => x <= m)%Q l.
Proof.
  destruct l as [|x l]; [contradiction|]. intros _. simpl.
  destruct (fold_max_spec l x) as (Hle & Hall & Hin).
  eexists. split; [reflexivity|]. split.
  - destruct Hin as [->|Hin]; auto.
  - constructor; assumption.
Qed.

Lemma map_snd_combine {A B : Type} (l1 : list A) (l2 : list B) :
  List.length l1 = List.length l2 -> map snd (combine l1 l2) = l2.
Proof.
  revert l2. induction l1 as [|x l1 IH]; intros [|y l2]; simpl; intros Hl;
    try discriminate; [reflexivity|].
  f_equal. apply IH. now injection Hl.
Qed.

(** *** Parsing the timestamp columns *)

Lemma mapM_raise_ValueError {A B : Type} (f : A -> option B) (l : list A)
    (e : exn) :
  mapM (fun x => of_option ValueError (f x)) l = Raise e -> e = ValueError.
Proof.
  induction l as [|x l IH]; simpl; [discriminate|].
  destruct (f x); simpl; [|congruence].
  destruct (mapM _ l); simpl; [discriminate|].
  intros E. injection E as <-. now apply IH.
Qed.

Lemma mapM_cells `{Runtime} (cells : list string) (col : list Timestamp) :
  mapM (fun c => of_option ValueError (to_datetime c)) cells = Ok col ->
  Forall2 (fun c t => to_datetime c = Some t) cells col.
Proof.
  revert col. induction cells as [|c cells IH]; simpl; intros col E.
  - injection E as <-. constructor.
  - destruct (to_datetime c) as [t|] eqn:Et; simpl in E; [|discriminate].
    destruct (mapM _ cells) as [col'|e]; simpl in E; [|discriminate].
    injection E as <-. constructor; [exact Et | now apply IH].
Qed.

(** A parsed column holds the timestamp of every cell, and its cells are
    all naive or all aware. *)
Lemma to_datetime_column_inv `{Runtime} (cells : list string)
    (col : list Timestamp) :
  to_datetime_column cells = Ok col ->
  Forall2 (fun c t => to_datetime c = Some t) cells col /\
  Forall (fun t => tz_aware t = column_aware col) col.
Proof.
  unfold to_datetime_column.
  destruct (mapM _ cells) as [col'|e] eqn:E; simpl; [|discriminate].
  destruct (forallb _ col') eqn:Ea; [|discriminate].
  intros [= <-]. split; [now apply mapM_cells|].
  rewrite forallb_forall in Ea. apply Forall_forall. intros t Ht.
  apply Ea in Ht. now apply eqb_prop in Ht.
Qed.

Lemma to_datetime_column_raise `{Runtime} (cells : list string) (e : exn) :
  to_datetime_column cells = Raise e -> e = ValueError.
Proof.
  unfold to_datetime_column.
  destruct (mapM _ cells) as [col|e'] eqn:E; simpl.
  - destruct (forallb _ col); [discriminate | now intros [= <-]].
  - intros [= <-]. exact (mapM_raise_ValueError _ _ _ E).
Qed.

Lemma parse_column_inv `{Runtime} {A : Type} (cell : A -> string) (l : list A)
    (ts : list Z) :
  parse_column cell l = Ok ts ->
  exists col, to_datetime_column (map cell l) = Ok col /\ ts = map value col.
Proof.
  unfold parse_column.
  destruct (to_datetime_column (map cell l)) as [col|e]; simpl; [|discriminate].
  intros [= <-]. eauto.
Qed.

Lemma parse_column_raise `{Runtime} {A : Type} (cell : A -> string) (l : list A)
    (e : exn) :
  parse_column cell l = Raise e ->
  to_datetime_column (map cell l) = Raise ValueError.
Proof.
  unfold parse_column.
  destruct (to_datetime_column (map cell l)) as [col|e'] eqn:E; simpl;
    [discriminate|].
  intros _. now rewrite (to_datetime_column_raise _ _ E).
Qed.

Lemma parse_column_length `{Runtime} {A : Type} (cell : A -> string)
    (l : list A) (ts : list Z) :
  parse_column cell l = Ok ts -> List.length ts = List.length l.
Proof.
  intros E. destruct (parse_column_inv cell l ts E) as (col & Hc & ->).
  destruct (to_datetime_column_inv _ _ Hc) as [Hall _].
  rewrite length_map, <- (Forall2_length Hall). apply length_map.
Qed.

Lemma Forall2_In_r {A B : Type} (R : A -> B -> Prop) (l1 : list A)
    (l2 : list B) (y : B) :
  Forall2 R l1 l2 -> In y l2 -> exists x, In x l1 /\ R x y.
Proof.
  induction 1 as [|a b l1 l2 Hab _ IH]; intros Hin; [destruct Hin|].
  destruct Hin as [<-|Hin]; [exists a; split; [now left | exact Hab]|].
  destruct (IH Hin) as (x & Hx & Hr). exists x. split; [now right | exact Hr].
Qed.

Lemma Forall2_In_l {A B : Type} (R : A -> B -> Prop) (l1 : list A)
    (l2 : list B) (x : A) :
  Forall2 R l1 l2 -> In x l1 -> exists y, In y l2 /\ R x y.
Proof.
  induction 1 as [|a b l1 l2 Hab _ IH]; intros Hin; [destruct Hin|].
  destruct Hin as [<-|Hin]; [exists b; split; [now left | exact Hab]|].
  destruct (IH Hin) as (y & Hy & Hr). exists y. split; [now right | exact Hr].
Qed.

Lemma forallb_false_exists {A : Type} (f : A -> bool) (l : list A) :
  forallb f l = false -> exists x, In x l /\ f x = false.
Proof.
  induction l as [|x l IH]; [discriminate|].
  cbn [forallb]. intros E. apply andb_false_iff in E. destruct E as [E|E].
  - exists x. split; [now left | exact E].
  - destruct (IH E) as (y & Hy & Ey). exists y. split; [now right | exact Ey].
Qed.

(** With one convention in both files, every phase timestamp can be
    subtracted from [start_time]. *)
Lemma same_convention_agree `{Runtime} (metrics_df : metrics_frame)
    (phases_df : list phase_row) (mcol pcol : list Timestamp) :
  to_datetime_column (map timestamp (metrics_rows metrics_df)) = Ok mcol ->
  to_datetime_column (map transition_timestamp phases_df) = Ok pcol ->
  same_convention metrics_df phases_df = true ->
  ts_min (map value mcol) = None \/
  Forall (fun t => tz_aware t = column_aware mcol) pcol.
Proof.
  intros Hm Hp Hsame.
  destruct (to_datetime_column_inv _ _ Hm) as [Fm _].
  destruct (to_datetime_column_inv _ _ Hp) as [Fp _].
  destruct mcol as [|t0 mcol]; [now left|]. right.
  destruct (metrics_rows metrics_df) as [|r0 rows] eqn:Er;
    [inversion Fm|].
  unfold same_convention in Hsame. rewrite Er in Hsame.
  cbn [forallb] in Hsame. apply andb_true_iff in Hsame.
  destruct Hsame as [H0 _]. rewrite forallb_forall in H0.
  inversion Fm as [|? ? ? ? E0 _]; subst.
  apply Forall_forall. intros t Ht.
  destruct (Forall2_In_r _ _ _ t Fp Ht) as (c & Hc & Ec).
  apply in_map_iff in Hc. destruct Hc as (p & <- & Hin).
  specialize (H0 p Hin). rewrite E0, Ec in H0. now apply eqb_prop in H0.
Qed.

(** With two conventions, no phase timestamp can. *)
Lemma other_convention_disagree `{Runtime} (metrics_df : metrics_frame)
    (phases_df : list phase_row) (mcol pcol : list Timestamp) :
  to_datetime_column (map timestamp (metrics_rows metrics_df)) = Ok mcol ->
  to_datetime_column (map transition_timestamp phases_df) = Ok pcol ->
  same_convention metrics_df phases_df = false ->
  exists s t pcol',
    ts_min (map value mcol) = Some s /\ pcol = t :: pcol' /\
    tz_aware t <> column_aware mcol.
Proof.
  intros Hm Hp Hsame.
  destruct (to_datetime_column_inv _ _ Hm) as [Fm Um].
  destruct (to_datetime_column_inv _ _ Hp) as [Fp Up].
  unfold same_convention in Hsame.
  assert (Hex : exists r p a b,
             In r (metrics_rows metrics_df) /\ In p phases_df /\
             to_datetime (timestamp r) = Some a /\
             to_datetime (transition_timestamp p) = Some b /\
             tz_aware b <> tz_aware a).
  { apply forallb_false_exists in Hsame. destruct Hsame as (r & Hr & Hsame).
    apply forallb_false_exists in Hsame. destruct Hsame as (p & Hpin & Hsame).
    destruct (to_datetime (timestamp r)) as [a|] eqn:Ea; [|discriminate].
    destruct (to_datetime (transition_timestamp p)) as [b|] eqn:Eb;
      [|discriminate].
    exists r, p, a, b. repeat split; try assumption.
    intros E. rewrite E, eqb_reflx in Hsame. discriminate. }
  destruct Hex as (r & p & a & b & Hr & Hpin & Ea & Eb & Hne).
  destruct (Forall2_In_l _ _ _ (timestamp r) Fm (in_map _ _ _ Hr))
    as (a' & Ha' & Ea').
  destruct (Forall2_In_l _ _ _ (transition_timestamp p) Fp (in_map _ _ _ Hpin))
    as (b' & Hb' & Eb').
  assert (a' = a) by congruence. assert (b' = b) by congruence. subst a' b'.
  rewrite Forall_forall in Um, Up.
  destruct mcol as [|t0 mcol]; [destruct Ha'|].
  destruct pcol as [|t pcol']; [destruct Hb'|].
  exists (fold_left Z.min (map value mcol) (value t0)), t, pcol'.
  split; [reflexivity|]. split; [reflexivity|].
  rewrite <- (Um a Ha'). rewrite (Up t (or_introl eq_refl)).
  now rewrite <- (Up b Hb').
Qed.

(** *** The loops over the phase table *)

Lemma for_each_ok {A : Type} (body : A -> result (list call))
    (g : A -> list call) (l : list A) :
  (forall x, In x l -> body x = Ok (g x)) ->
  for_each body l = (flat_map g l, None).
Proof.
  induction l as [|x l IH]; intros Hb; [reflexivity|].
  cbn [for_each flat_map]. rewrite (Hb x (or_introl eq_refl)).
  rewrite IH; [reflexivity|]. intros y Hy. apply Hb. now right.
Qed.

Lemma for_each_map {A B : Type} (body : B -> result (list call)) (g : A -> B)
    (l : list A) :
  for_each body (map g l) = for_each (fun x => body (g x)) l.
Proof.
  induction l as [|x l IH]; [reflexivity|].
  cbn [map for_each]. now rewrite IH.
Qed.

Lemma for_each_ext {A : Type} (body body' : A -> result (list call))
    (l : list A) :
  (forall x, body x = body' x) -> for_each body l = for_each body' l.
Proof.
  intros E. induction l as [|x l IH]; [reflexivity|].
  cbn [for_each]. now rewrite E, IH.
Qed.

Lemma seconds_since_agree (aware0 : bool) (start_time : option Z)
    (t : Timestamp) :
  start_time = None \/ tz_aware t = aware0 ->
  seconds_since aware0 start_time t = Ok (since start_time (value t)).
Proof.
  intros [->|E]; [reflexivity|].
  unfold seconds_since, since. destruct start_time as [s|]; [|reflexivity].
  now rewrite E, eqb_reflx.
Qed.

Lemma agree_cons (aware0 : bool) (start_time : option Z)
    (p : Timestamp * string) (phases : list (Timestamp * string)) :
  start_time = None \/
  Forall (fun ph => tz_aware (fst ph) = aware0) (p :: phases) ->
  (start_time = None \/ tz_aware (fst p) = aware0) /\
  (start_time = None \/
   Forall (fun ph => tz_aware (fst ph) = aware0) phases).
Proof.
  intros [E|Hall]; [auto|]. inversion Hall; subst. auto.
Qed.

(** The marker loop draws a line and a label per transition. *)
Lemma annotate_closed (aware0 : bool) (start_time : option Z)
    (phases : list (Timestamp * string)) :
  start_time = None \/
  Forall (fun ph => tz_aware (fst ph) = aware0) phases ->
  for_each (annotate_phase aware0 start_time) phases
  = (markers start_time (instants phases), None).
Proof.
  intros Hagree. unfold markers, instants. rewrite flat_map_concat_map, map_map.
  rewrite <- flat_map_concat_map.
  apply for_each_ok. intros ph Hin. unfold annotate_phase.
  rewrite seconds_since_agree; [reflexivity|].
  destruct Hagree as [E|Hall]; [now left | right].
  rewrite Forall_forall in Hall. now apply Hall.
Qed.

Lemma background_shift (aware0 : bool) (st : option Z) (p : Timestamp * string)
    (phases : list (Timestamp * string)) (i : nat) :
  background aware0 st (p :: phases) (S i) = background aware0 st phases i.
Proof. reflexivity. Qed.

(** The background loop shades every phase up to the next transition. *)
Lemma backgrounds_closed (aware0 : bool) (st : option Z)
    (phases : list (Timestamp * string)) :
  st = None \/ Forall (fun ph => tz_aware (fst ph) = aware0) phases ->
  for_each (background aware0 st phases) (List.seq 0 (List.length phases - 1)) =
  (flat_map (fun pq => shade (since st (fst (fst pq)), since st (fst (snd pq)),
                              color_of (snd (fst pq))))
     (combine (instants phases) (tl (instants phases))), None).
Proof.
  induction phases as [|p [|q l] IH]; intros Hagree; try reflexivity.
  destruct (agree_cons _ _ _ _ Hagree) as [Hp Hrest].
  destruct (agree_cons _ _ _ _ Hrest) as [Hq _].
  change (List.length (p :: q :: l) - 1)%nat with (S (List.length l)).
  cbn [List.seq for_each]. rewrite <- seq_shift, for_each_map.
  rewrite (for_each_ext _ (background aware0 st (q :: l)))
    by (intros i; apply background_shift).
  cbn [List.length Nat.sub] in IH. rewrite Nat.sub_0_r in IH.
  rewrite (IH Hrest).
  unfold background at 1. cbn [iloc nth_error of_option bind Nat.add].
  rewrite (seconds_since_agree _ _ _ Hp), (seconds_since_agree _ _ _ Hq).
  reflexivity.
Qed.

Lemma last_default {A : Type} (x d d' : A) (l : list A) :
  last (x :: l) d = last (x :: l) d'.
Proof.
  revert x. induction l as [|y l IH]; intros x; [reflexivity|].
  change (last (y :: l) d = last (y :: l) d'). apply IH.
Qed.

Lemma last_in {A : Type} (x d : A) (l : list A) : In (last (x :: l) d) (x :: l).
Proof.
  revert x. induction l as [|y l IH]; intros x; [now left|].
  right. change (last (x :: y :: l) d) with (last (y :: l) d). apply IH.
Qed.

Lemma nth_error_last {A : Type} (x : A) (l : list A) :
  nth_error (x :: l) (List.length l) = Some (last (x :: l) x).
Proof.
  revert x. induction l as [|y l IH]; intros x; [reflexivity|].
  cbn [List.length nth_error]. rewrite IH. f_equal.
  change (last (y :: l) y = last (y :: l) x). apply last_default.
Qed.

Lemma last_instants (p : Timestamp * string) (l : list (Timestamp * string)) :
  last (instants (p :: l)) (value (fst p), snd p)
  = (value (fst (last (p :: l) p)), snd (last (p :: l) p)).
Proof.
  revert p. induction l as [|q l IH]; intros p; [reflexivity|].
  change (last (p :: q :: l) p) with (last (q :: l) p).
  change (last (instants (p :: q :: l)) (value (fst p), snd p))
    with (last ((value (fst q), snd q) :: instants l) (value (fst p), snd p)).
  rewrite (last_default q p q l).
  rewrite (last_default _ (value (fst p), snd p) (value (fst q), snd q)).
  apply IH.
Qed.

Lemma last_background_closed (aware0 : bool) (st : option Z)
    (phases : list (Timestamp * string)) (time_seconds : list Q) :
  st = None \/ Forall (fun ph => tz_aware (fst ph) = aware0) phases ->
  last_background aware0 st phases time_seconds =
  Ok (match instants phases with
      | [] => []
      | p :: _ => shade (since st (fst (last (instants phases) p)),
                         series_max time_seconds,
                         color_of (snd (last (instants phases) p)))
      end).
Proof.
  intros Hagree. destruct phases as [|p l]; [reflexivity|].
  unfold last_background, len, iloc.
  replace (Z.to_nat (Z.of_nat (List.length (p :: l)) - 1)) with (List.length l)
    by (simpl List.length; lia).
  rewrite nth_error_last.
  destruct (Z.gtb_spec (Z.of_nat (List.length (p :: l))) 0) as [_|Hle];
    [|simpl List.length in Hle; lia].
  cbn [of_option bind].
  rewrite seconds_since_agree.
  - change (instants (p :: l))
      with ((value (fst p), snd p) :: instants l) at 1.
    cbv beta iota. rewrite last_instants. reflexivity.
  - destruct Hagree as [E|Hall]; [now left | right].
    rewrite Forall_forall in Hall. apply Hall. apply last_in.
Qed.

Lemma shading_intervals (st : option Z) (tmax : coord)
    (phases : list (Z * string)) :
  (flat_map (fun pq => shade (since st (fst (fst pq)), since st (fst (snd pq)),
                              color_of (snd (fst pq))))
     (combine phases (tl phases))
   ++ match phases with
      | [] => []
      | p :: _ => shade (since st (fst (last phases p)), tmax,
                         color_of (snd (last phases p)))
      end)%list
  = flat_map shade (intervals st tmax phases).
Proof.
  induction phases as [|p [|q l] IH]; try reflexivity.
  change (intervals st tmax (p :: q :: l))
    with ((since st (fst p), since st (fst q), color_of (snd p))
            :: intervals st tmax (q :: l)).
  change (combine (p :: q :: l) (tl (p :: q :: l)))
    with ((p, q) :: combine (q :: l) (tl (q :: l))).
  cbn [flat_map fst snd].
  rewrite <- app_assoc. f_equal.
  change (last (p :: q :: l) p) with (last (q :: l) p).
  rewrite (last_default q p q l). exact IH.
Qed.

Lemma instants_combine (col : list Timestamp) (names : list string) :
  instants (combine col names) = combine (map value col) names.
Proof.
  unfold instants. revert names.
  induction col as [|t col IH]; intros [|n names]; simpl; try reflexivity.
  now rewrite IH.
Qed.

Lemma Forall_combine_fst {A B : Type} (P : A -> Prop) (l1 : list A) (l2 : list B) :
  Forall P l1 -> Forall (fun x => P (fst x)) (combine l1 l2).
Proof.
  intros Hall. revert l2.
  induction Hall as [|x l1 Hx _ IH]; intros [|y l2]; simpl; constructor; auto.
Qed.

(** *** A run, call by call *)

(** A run on two files of one time-zone convention. *)
Lemma main_closed `{Runtime} (prefix : string) (metrics_df : metrics_frame)
    (phases_df : list phase_row) (metrics_ts phases_ts : list Z) :
  parse_column timestamp (metrics_rows metrics_df) = Ok metrics_ts ->
  parse_column transition_timestamp phases_df = Ok phases_ts ->
  same_convention metrics_df phases_df = true ->
  let start_time := ts_min metrics_ts in
  let time_seconds := time_seconds_column start_time metrics_ts in
  let rows := combine (metrics_rows metrics_df) time_seconds in
  let phases := combine phases_ts (map transition_phase phases_df) in
  let failures := failure_point (has_phase metrics_df) rows in
  main prefix metrics_df phases_df =
  {| calls := (curves metrics_df time_seconds
               ++ markers start_time phases
               ++ flat_map shade
                    (intervals start_time (series_max time_seconds) phases)
               ++ failure_note failures
               ++ [Savefig (prefix ++ "visualization.png")])%list;
     stdout := ("Visualization written to " ++ prefix ++ "visualization.png")
                 :: summary rows failures;
     status := Exited 0 |}.
Proof.
  intros Hm Hp Hsame start_time time_seconds rows phases failures.
  destruct (parse_column_inv _ _ _ Hm) as (mcol & Em & Emts).
  destruct (parse_column_inv _ _ _ Hp) as (pcol & Ep & Epts).
  pose proof (same_convention_agree _ _ _ _ Em Ep Hsame) as Hagree.
  unfold main. rewrite Em, Ep. cbv zeta.
  rewrite <- Emts. fold start_time. fold time_seconds. fold rows.
  fold failures.
  set (phases' := combine pcol (map transition_phase phases_df)).
  assert (Hinst : instants phases' = phases).
  { unfold phases', phases. now rewrite instants_combine, Epts. }
  assert (Hag : start_time = None \/
                Forall (fun ph => tz_aware (fst ph) = column_aware mcol) phases').
  { unfold start_time. rewrite Emts.
    destruct Hagree as [E|Hall]; [now left | right].
    exact (Forall_combine_fst (fun t => tz_aware t = column_aware mcol)
             _ _ Hall). }
  assert (Hlen : List.length phases_df = List.length phases').
  { unfold phases'. rewrite length_combine, length_map.
    destruct (to_datetime_column_inv _ _ Ep) as [Fp _].
    rewrite <- (Forall2_length Fp), length_map. now rewrite Nat.min_id. }
  rewrite (annotate_closed _ _ _ Hag).
  unfold range, len.
  replace (Z.to_nat (Z.of_nat (List.length phases_df) - 1))
    with (List.length phases' - 1)%nat by lia.
  rewrite (backgrounds_closed _ _ _ Hag).
  rewrite (last_background_closed _ _ _ time_seconds Hag).
  rewrite Hinst.
  fold (failure_note failures). fold (curves metrics_df time_seconds).
  f_equal. f_equal. f_equal.
  rewrite <- shading_intervals, <- !app_assoc. reflexivity.
Qed.

(** A run on two files of different conventions stops at the first
    marker, after the curves. *)
Lemma main_mismatch `{Runtime} (prefix : string) (metrics_df : metrics_frame)
    (phases_df : list phase_row) (metrics_ts phases_ts : list Z) :
  parse_column timestamp (metrics_rows metrics_df) = Ok metrics_ts ->
  parse_column transition_timestamp phases_df = Ok phases_ts ->
  same_convention metrics_df phases_df = false ->
  main prefix metrics_df phases_df =
  {| calls := curves metrics_df
                (time_seconds_column (ts_min metrics_ts) metrics_ts);
     stdout := [];
     status := Uncaught TypeError |}.
Proof.
  intros Hm Hp Hsame.
  destruct (parse_column_inv _ _ _ Hm) as (mcol & Em & Emts).
  destruct (parse_column_inv _ _ _ Hp) as (pcol & Ep & Epts).
  destruct (other_convention_disagree _ _ _ _ Em Ep Hsame)
    as (s & t & pcol' & Hmin & -> & Hne).
  destruct (to_datetime_column_inv _ _ Ep) as [Fp _].
  destruct phases_df as [|p ps]; [inversion Fp|].
  unfold main. rewrite Em, Ep. cbv zeta. rewrite <- Emts in *.
  cbn [map combine for_each]. unfold annotate_phase at 1.
  unfold seconds_since. rewrite Hmin. cbn [fst].
  destruct (Bool.eqb (tz_aware t) (column_aware mcol)) eqn:E.
  - apply eqb_prop in E. contradiction.
  - cbn [bind]. fold (curves metrics_df
                        (time_seconds_column (Some s) (map value mcol))).
    now rewrite app_nil_r.
Qed.

Lemma main_unparsed `{Runtime} (prefix : string) (metrics_df : metrics_frame)
    (phases_df : list phase_row) :
  (forall metrics_ts phases_ts,
     parse_column timestamp (metrics_rows metrics_df) = Ok metrics_ts ->
     parse_column transition_timestamp phases_df = Ok phases_ts -> False) ->
  main prefix metrics_df phases_df =
  {| calls := []; stdout := []; status := Uncaught ValueError |}.
Proof.
  intros Hno. unfold main.
  destruct (parse_column timestamp (metrics_rows metrics_df)) as [mts|e] eqn:Em.
  - destruct (parse_column transition_timestamp phases_df) as [pts|e] eqn:Ep.
    + destruct (Hno mts pts eq_refl eq_refl).
    + destruct (parse_column_inv _ _ _ Em) as (mcol & -> & _).
      now rewrite (parse_column_raise _ _ _ Ep).
  - now rewrite (parse_column_raise _ _ _ Em).
Qed.

(** C7: for a non-empty metrics file and a phase table of the same
    time-zone convention, [start_time] is the earliest timestamp of the
    metrics, the time axis holds each row's timestamp minus [start_time]
    in seconds, and the run ends with status 0 after printing the largest
    of these values formatted with one decimal. *)
Theorem duration_since_earliest `{Runtime} (prefix : string)
    (metrics_df : metrics_frame) (phases_df : list phase_row)
    (metrics_ts phases_ts : list Z) :
  parse_column timestamp (metrics_rows metrics_df) = Ok metrics_ts ->
  parse_column transition_timestamp phases_df = Ok phases_ts ->
  same_convention metrics_df phases_df = true ->
  metrics_ts <> [] ->
  exists start_time longest,
    ts_min metrics_ts = Some start_time /\
    In start_time metrics_ts /\
    Forall (fun t => start_time <= t) metrics_ts /\
    let time_seconds := map (seconds_between start_time) metrics_ts in
    In (Plot 0 "Throughput" time_seconds
          (map throughput (metrics_rows metrics_df)))
       (calls (main prefix metrics_df phases_df)) /\
    In longest time_seconds /\
    Forall (fun x => x <= longest)%Q time_seconds /\
    In ("Total test duration: " ++ format_float 1 longest ++ " seconds")
       (stdout (main prefix metrics_df phases_df)) /\
    status (main prefix metrics_df phases_df) = Exited 0.
Proof.
  intros Hm Hp Hsame Hne.
  destruct (ts_min_spec metrics_ts Hne) as (start_time & Hmin & Hin & Hall).
  rewrite (main_closed prefix metrics_df phases_df _ _ Hm Hp Hsame).
  rewrite Hmin. cbn [time_seconds_column].
  fold (seconds_between start_time).
  set (time_seconds := map (seconds_between start_time) metrics_ts).
  assert (Hts : time_seconds <> []).
  { unfold time_seconds. destruct metrics_ts; [contradiction | discriminate]. }
  destruct (series_max_spec time_seconds Hts) as (longest & Hmax & Hlin & Hlall).
  exists start_time, longest.
  split; [reflexivity|]. split; [exact Hin|]. split; [exact Hall|].
  cbv zeta. split; [now left|]. split; [exact Hlin|]. split; [exact Hlall|].
  split; [|reflexivity].
  cbn [stdout summary]. right. right. left.
  rewrite map_snd_combine, Hmax.
  - reflexivity.
  - unfold time_seconds. rewrite length_map.
    symmetry. exact (parse_column_length _ _ _ Hm).
Qed.

Lemma one_minute_duration :
  let out := main (H := Reference.overload_runtime) "run-"
               OverloadExamples.one_minute OverloadExamples.two_phases in
  In "Total test duration: 60.0 seconds" (stdout out) /\
  status out = Exited 0 /\
  exists start_time longest,
    start_time = 1735689600000000000 /\ (longest == 60)%Q /\
    In ("Total test duration: " ++ Reference.format_float 1 longest ++ " seconds")
       (stdout out).
Proof.
  intros out.
  destruct (@duration_since_earliest Reference.overload_runtime "run-"
              OverloadExamples.one_minute OverloadExamples.two_phases
              [1735689600000000000; 1735689630000000000; 1735689660000000000]
              [1735689600000000000; 1735689630000000000])
    as (start_time & longest & Hmin & _ & _ & _ & Hlin & Hlall & Hline & Hst).
  - vm_compute. reflexivity.
  - vm_compute. reflexivity.
  - vm_compute. reflexivity.
  - discriminate.
  - split; [vm_compute; auto 10|]. split; [exact Hst|].
    exists start_time, longest.
    injection Hmin as <-.
    split; [reflexivity|]. split; [|exact Hline].
    apply Qle_antisym.
    + destruct Hlin as [<-|[<-|[<-|[]]]]; vm_compute; discriminate.
    + rewrite Forall_forall in Hlall.
      eapply Qle_trans; [|apply Hlall; right; right; left; reflexivity].
      vm_compute. discriminate.
Defined.

(** C9: with an empty phase table the run still ends with status 0: no
    marker line, phase label or shaded interval is drawn, the image is
    saved and the summary is printed. *)
Theorem empty_phase_table_renders `{Runtime} (prefix : string)
    (metrics_df : metrics_frame) (metrics_ts : list Z) :
  parse_column timestamp (metrics_rows metrics_df) = Ok metrics_ts ->
  let out := main prefix metrics_df [] in
  let time_seconds := time_seconds_column (ts_min metrics_ts) metrics_ts in
  let rows := combine (metrics_rows metrics_df) time_seconds in
  status out = Exited 0 /\
  Forall (fun c => phase_overlay c = false) (calls out) /\
  In (Savefig (prefix ++ "visualization.png")) (calls out) /\
  stdout out =
    ("Visualization written to " ++ prefix ++ "visualization.png")
      :: summary rows (failure_point (has_phase metrics_df) rows).
Proof.
  intros Hm out time_seconds rows. unfold out, main.
  destruct (parse_column_inv _ _ _ Hm) as (mcol & -> & Emts).
  cbn [map to_datetime_column mapM bind forallb]. cbv zeta.
  rewrite <- Emts. fold time_seconds. fold rows.
  cbn [map combine for_each len List.length Z.of_nat Z.sub
       Z.opp Z.add Z.pos_sub range Z.to_nat List.seq last_background
       Z.gtb Z.compare app calls stdout status].
  split; [reflexivity|]. split; [|split; [|reflexivity]].
  - destruct (has_p99_latency_ms metrics_df),
      (failure_point (has_phase metrics_df) rows); repeat constructor.
  - right. right. rewrite !in_app_iff. right. right. now left.
Qed.

Lemma one_minute_without_phases :
  let out := main (H := Reference.overload_runtime) "run-"
               OverloadExamples.one_minute [] in
  status out = Exited 0 /\
  Forall (fun c => phase_overlay c = false) (calls out) /\
  In (Savefig "run-visualization.png") (calls out) /\
  In "Total test duration: 60.0 seconds" (stdout out).
Proof.
  intros out.
  destruct (@empty_phase_table_renders Reference.overload_runtime "run-"
              OverloadExamples.one_minute
              [1735689600000000000; 1735689630000000000; 1735689660000000000])
    as (Hst & Hcalls & Hsave & Hout).
  - vm_compute. reflexivity.
  - split; [exact Hst|]. split; [exact Hcalls|]. split; [exact Hsave|].
    fold out in Hout. rewrite Hout. vm_compute. auto 10.
Defined.

End OverloadProps.

(** ** Further properties of plot_bench_metrics.py *)

Module BenchExtras.
Import Py PyFacts PlotBenchMetrics BenchSpec BenchProps.
Local Open Scope py_scope.

(** *** More on strings *)

Lemma split_nonempty (c : ascii) (s : string) : split c s <> [].
Proof.
  destruct s as [|a s]; simpl; [discriminate|].
  destruct (Ascii.eqb a c); [discriminate|].
  destruct (split c s); discriminate.
Qed.

Lemma length_split (c : ascii) (s : string) :
  List.length (split c s) = S (occurrences c s).
Proof.
  induction s as [|a s IH]; simpl; [reflexivity|].
  destruct (Ascii.eqb a c); simpl; [now rewrite IH|].
  destruct (split c s) as [|w ws] eqn:E; [now apply split_nonempty in E|].
  exact IH.
Qed.

Lemma contains_occurrences (c : ascii) (s : string) :
  contains c s = false <-> occurrences c s = 0%nat.
Proof.
  induction s as [|a s IH]; simpl; [tauto|].
  destruct (Ascii.eqb a c); simpl; [split; discriminate | exact IH].
Qed.

Lemma split_one_inv (c : ascii) (s b : string) :
  split c s = [b] -> s = b /\ contains c s = false.
Proof.
  revert b. induction s as [|a s IH]; simpl; intros b E.
  - injection E as <-. auto.
  - destruct (Ascii.eqb a c).
    + injection E as _ E. now apply split_nonempty in E.
    + destruct (split c s) as [|w ws] eqn:Es; [now apply split_nonempty in Es|].
      injection E as <- ->. destruct (IH w eq_refl) as [-> Hc]. auto.
Qed.

Lemma split_two_inv (c : ascii) (s a b : string) :
  split c s = [a; b] ->
  s = a ++ String c b /\ contains c a = false /\ contains c b = false.
Proof.
  revert a. induction s as [|x s IH]; simpl; intros a E; [discriminate|].
  destruct (Ascii.eqb_spec x c) as [->|Hne].
  - injection E as <- E. apply split_one_inv in E. destruct E as [-> Hc]. auto.
  - destruct (split c s) as [|w ws] eqn:Es; [now apply split_nonempty in Es|].
    injection E as <- ->. destruct (IH w eq_refl) as (-> & Ha & Hb).
    simpl. split; [reflexivity|]. split; [|exact Hb].
    rewrite Ha. destruct (Ascii.eqb_spec x c); [contradiction | reflexivity].
Qed.

Lemma after_app (c : ascii) (a b : string) :
  contains c a = false -> after c (a ++ String c b) = b.
Proof.
  induction a as [|x a IH]; simpl; intros Hc.
  - now rewrite Ascii.eqb_refl.
  - apply orb_false_iff in Hc. destruct Hc as [Hx Ha]. rewrite Hx. now apply IH.
Qed.

Lemma contains_repeat_char (c z : ascii) (n : nat) :
  Ascii.eqb z c = false -> contains c (repeat_char z n) = false.
Proof. intros Hz. induction n; simpl; [reflexivity | now rewrite Hz]. Qed.

Lemma contains_slice_to (c : ascii) (n : nat) (s : string) :
  contains c s = false -> contains c (slice_to n s) = false.
Proof.
  unfold slice_to. revert s.
  induction n as [|n IH]; intros [|a s]; simpl; intros Hc; try reflexivity.
  apply orb_false_iff in Hc. destruct Hc as [Ha Hs]. now rewrite Ha, IH.
Qed.

Lemma contains_padded (c : ascii) (s : string) :
  Ascii.eqb "0" c = false -> contains c s = false ->
  contains c (ljust 6 "0" (slice_to 6 s)) = false.
Proof.
  intros Hz Hc. unfold ljust.
  now rewrite contains_app, contains_slice_to, contains_repeat_char.
Qed.

Lemma padded_fixed (s : string) :
  ljust 6 "0" (slice_to 6 (ljust 6 "0" (slice_to 6 s))) = ljust 6 "0" (slice_to 6 s).
Proof.
  assert (Hl : String.length (ljust 6 "0" (slice_to 6 s)) = 6%nat).
  { apply length_ljust. rewrite length_slice_to. apply Nat.le_min_l. }
  rewrite (slice_to_short 6 (ljust 6 "0" (slice_to 6 s))) by lia.
  apply ljust_full. lia.
Qed.

Lemma contains_replaced (z : ascii) (new s : string) :
  contains z new = false -> contains z (replace (String z "") new s) = false.
Proof.
  intros Hn. induction s as [|a s IH]; [reflexivity|].
  rewrite replace_char_cons.
  destruct (Ascii.eqb a z) eqn:E.
  - now rewrite contains_app, Hn, IH.
  - simpl. now rewrite E, IH.
Qed.

Lemma slice_to_app (a b : string) : slice_to (String.length a) (a ++ b) = a.
Proof.
  unfold slice_to. induction a as [|x a IH]; simpl.
  - now destruct b.
  - now rewrite IH.
Qed.

Lemma repeat_char_add (c : ascii) (n m : nat) :
  repeat_char c n ++ repeat_char c m = repeat_char c (n + m).
Proof. induction n; simpl; [reflexivity | now rewrite IHn]. Qed.

Lemma replace_absent (old new s : string) :
  free_of old s = true -> replace old new s = s.
Proof.
  unfold replace. induction s as [|a s IH]; intros Hf; [reflexivity|].
  cbn [free_of] in Hf. apply andb_true_iff in Hf. destruct Hf as [Hp Hs].
  apply negb_true_iff in Hp. cbn [replace_from]. rewrite Hp. now rewrite IH.
Qed.

(** *** The timestamp text handed to the constructor *)

(** The text of a timestamp with a fraction, for both spellings of the
    time zone. *)
Lemma normalize_fraction (base frac off : string) :
  plain base = true -> all_digits frac = true -> plain off = true ->
  normalize_timestamp (base ++ "." ++ frac ++ "Z")
    = Ok (base ++ "." ++ ljust 6 "0" (slice_to 6 frac) ++ "+00:00") /\
  normalize_timestamp (base ++ "." ++ frac ++ "+" ++ off)
    = Ok (base ++ "." ++ ljust 6 "0" (slice_to 6 frac) ++ "+" ++ off).
Proof.
  intros Hb Hf Ho.
  destruct (plain_inv base Hb) as (Hb1 & Hb2 & Hb3).
  destruct (plain_inv off Ho) as (Ho1 & Ho2 & Ho3).
  assert (Hf1 : contains "." frac = false) by now apply all_digits_free.
  assert (Hf2 : contains "+" frac = false) by now apply all_digits_free.
  assert (Hf3 : contains "Z" frac = false) by now apply all_digits_free.
  split.
  - apply normalize_after_replace; try assumption; try reflexivity.
    rewrite replace_char_app, (replace_char_absent _ _ _ Hb3).
    change ("." ++ frac ++ "Z") with (String "." (frac ++ "Z")).
    rewrite replace_char_cons. simpl Ascii.eqb. cbv iota.
    rewrite replace_char_app, (replace_char_absent _ _ _ Hf3).
    reflexivity.
  - apply normalize_after_replace; try assumption.
    apply replace_char_absent.
    rewrite contains_app, Hb3. simpl. rewrite contains_app, Hf3. simpl.
    exact Ho3.
Qed.

(** X1: normalizing twice is normalizing once: whatever text the
    normalization returns is left unchanged by a second pass. *)
Theorem normalize_timestamp_idempotent (raw out : string) :
  normalize_timestamp raw = Ok out -> normalize_timestamp out = Ok out.
Proof.
  unfold normalize_timestamp at 1.
  set (t := replace "Z" "+00:00" raw).
  assert (HZ : contains "Z" t = false) by (apply contains_replaced; reflexivity).
  destruct (contains "." t && contains "+" t) eqn:Hc.
  - destruct (split "." t) as [|base [|rest [|x l]]] eqn:Es; try discriminate.
    destruct (split "+" rest) as [|ms [|tz [|x l]]] eqn:Ep; try discriminate.
    intros E. injection E as <-.
    destruct (split_two_inv _ _ _ _ Es) as (Et & Hb & Hr).
    destruct (split_two_inv _ _ _ _ Ep) as (Er & Hm & Hz).
    rewrite Et, contains_app in HZ. simpl in HZ.
    apply orb_false_iff in HZ. destruct HZ as [HZb HZr].
    rewrite Er, contains_app in HZr, Hr. simpl in HZr, Hr.
    apply orb_false_iff in HZr, Hr.
    destruct HZr as [HZm HZt], Hr as [Hrm Hrt].
    rewrite <- (padded_fixed ms) at 2.
    apply normalize_after_replace.
    + apply replace_char_absent.
      rewrite contains_app, HZb. simpl.
      rewrite contains_app, (contains_padded "Z" ms eq_refl HZm). simpl.
      exact HZt.
    + exact Hb.
    + now apply contains_padded.
    + now apply contains_padded.
    + exact Hrt.
    + exact Hz.
  - intros E. injection E as <-. unfold normalize_timestamp.
    rewrite (replace_char_absent _ _ _ HZ), Hc. reflexivity.
Qed.

Lemma normalize_twice_eight_digits :
  normalize_timestamp "2025-01-01T00:00:00.12345678Z"
    = Ok "2025-01-01T00:00:00.123456+00:00" /\
  normalize_timestamp "2025-01-01T00:00:00.123456+00:00"
    = Ok "2025-01-01T00:00:00.123456+00:00".
Proof.
  assert (E : normalize_timestamp "2025-01-01T00:00:00.12345678Z"
              = Ok "2025-01-01T00:00:00.123456+00:00") by reflexivity.
  split; [exact E|].
  exact (normalize_timestamp_idempotent _ _ E).
Defined.

(** X2: the normalization raises nothing but [ValueError], and raises
    exactly when the text, once [Z] is spelled [+00:00], has a dot and a
    plus sign but not exactly one dot followed by exactly one plus sign;
    without a dot or without a plus sign the text goes through as it is. *)
Theorem normalize_timestamp_outcomes (raw : string) :
  let t := replace "Z" "+00:00" raw in
  (forall e, normalize_timestamp raw = Raise e -> e = ValueError) /\
  ((exists e, normalize_timestamp raw = Raise e) <->
   contains "." t = true /\ contains "+" t = true /\
   (occurrences "." t <> 1%nat \/ occurrences "+" (after "." t) <> 1%nat)) /\
  (contains "." t = false \/ contains "+" t = false ->
   normalize_timestamp raw = Ok t).
Proof.
  intros t. unfold normalize_timestamp. fold t.
  destruct (contains "." t) eqn:Hd; [destruct (contains "+" t) eqn:Hp|]; simpl.
  - pose proof (length_split "." t) as Hl.
    destruct (split "." t) as [|base [|rest [|x l]]] eqn:Es; simpl in Hl.
    + discriminate.
    + split; [congruence|]. split; [|intros [|]; discriminate].
      split; [intros _; repeat split; left; lia | eauto].
    + destruct (split_two_inv _ _ _ _ Es) as (Et & Hb & _).
      assert (Ea : after "." t = rest) by (rewrite Et; now apply after_app).
      rewrite Ea.
      pose proof (length_split "+" rest) as Hl'.
      destruct (split "+" rest) as [|ms [|tz [|x l]]] eqn:Ep; simpl in Hl'.
      * discriminate.
      * split; [congruence|]. split; [|intros [|]; discriminate].
        split; [intros _; repeat split; right; lia | eauto].
      * split; [discriminate|]. split; [|intros [|]; discriminate].
        split; [intros [e E]; discriminate|].
        intros (_ & _ & [Hn|Hn]); exfalso; apply Hn; lia.
      * split; [congruence|]. split; [|intros [|]; discriminate].
        split; [intros _; repeat split; right; lia | eauto].
    + split; [congruence|]. split; [|intros [|]; discriminate].
      split; [intros _; repeat split; left; lia | eauto].
  - split; [discriminate|]. split; [|reflexivity].
    split; [intros [e E]; discriminate | intros (_ & E & _); discriminate].
  - split; [discriminate|]. split; [|reflexivity].
    split; [intros [e E]; discriminate | intros (E & _); discriminate].
Qed.

Lemma two_dots_value_error :
  normalize_timestamp "2025-01-01T00:00:00.5.25Z" = Raise ValueError.
Proof.
  pose proof (normalize_timestamp_outcomes "2025-01-01T00:00:00.5.25Z") as Hall.
  cbv zeta in Hall. destruct Hall as (Honly & Hiff & _).
  destruct (proj2 Hiff) as [e He].
  - split; [reflexivity|]. split; [reflexivity|].
    left. vm_compute. discriminate.
  - rewrite He. f_equal. exact (Honly e He).
Defined.

(** X3: for a timestamp written [<base>.<digits>Z] or
    [<base>.<digits>+<offset>], with no other [.], [+] or [Z] in it, the
    digits of the fraction beyond the sixth, zeros appended to a fraction
    shorter than six digits, and the spelling [Z] for [+00:00] make no
    difference to the timestamp a row is given: the constructor receives
    the same text. *)
Theorem sub_microsecond_digits_ignored `{Runtime}
    (base frac extra off : string) (n : nat) :
  plain base = true -> all_digits frac = true -> all_digits extra = true ->
  plain off = true ->
  (String.length frac = 6%nat ->
   parse_timestamp (base ++ "." ++ (frac ++ extra) ++ "Z")
     = parse_timestamp (base ++ "." ++ frac ++ "Z") /\
   parse_timestamp (base ++ "." ++ (frac ++ extra) ++ "+" ++ off)
     = parse_timestamp (base ++ "." ++ frac ++ "+" ++ off)) /\
  ((String.length frac + n <= 6)%nat ->
   parse_timestamp (base ++ "." ++ (frac ++ repeat_char "0" n) ++ "Z")
     = parse_timestamp (base ++ "." ++ frac ++ "Z") /\
   parse_timestamp (base ++ "." ++ (frac ++ repeat_char "0" n) ++ "+" ++ off)
     = parse_timestamp (base ++ "." ++ frac ++ "+" ++ off)) /\
  parse_timestamp (base ++ "." ++ frac ++ "Z")
    = parse_timestamp (base ++ "." ++ frac ++ "+" ++ "00:00").
Proof.
  intros Hb Hf He Ho.
  destruct (normalize_fraction base frac off Hb Hf Ho) as [HZ HP].
  destruct (normalize_fraction base frac "00:00" Hb Hf eq_refl) as [_ HP0].
  unfold parse_timestamp. split; [|split].
  - intros Hlen.
    assert (Hd : all_digits (frac ++ extra) = true)
      by now rewrite all_digits_app, Hf, He.
    destruct (normalize_fraction base (frac ++ extra) off Hb Hd Ho) as [HZ' HP'].
    assert (Epad : ljust 6 "0" (slice_to 6 (frac ++ extra))
                   = ljust 6 "0" (slice_to 6 frac)).
    { assert (Ecut : slice_to 6 (frac ++ extra) = frac)
        by (rewrite <- Hlen; apply slice_to_app).
      rewrite Ecut. now rewrite (slice_to_short 6 frac) by lia. }
    rewrite HZ', HP', HZ, HP, Epad. auto.
  - intros Hlen.
    assert (Hd : all_digits (frac ++ repeat_char "0" n) = true)
      by now rewrite all_digits_app, Hf, all_digits_repeat_zero.
    destruct (normalize_fraction base (frac ++ repeat_char "0" n) off Hb Hd Ho)
      as [HZ' HP'].
    assert (Epad : ljust 6 "0" (slice_to 6 (frac ++ repeat_char "0" n))
                   = ljust 6 "0" (slice_to 6 frac)).
    { rewrite !slice_to_short
        by (rewrite ?length_append, ?length_repeat_char; lia).
      unfold ljust.
      rewrite length_append, length_repeat_char, append_assoc, repeat_char_add.
      f_equal. f_equal. lia. }
    rewrite HZ', HP', HZ, HP, Epad. auto.
  - now rewrite HZ, HP0.
Qed.

Lemma eight_digits_parse_as_six :
  parse_timestamp (H := Reference.bench_runtime) "2025-01-01T00:00:00.12345678Z"
    = parse_timestamp (H := Reference.bench_runtime) "2025-01-01T00:00:00.123456Z" /\
  parse_timestamp (H := Reference.bench_runtime) "2025-01-01T00:00:00.123456Z"
    = parse_timestamp (H := Reference.bench_runtime)
        "2025-01-01T00:00:00.123456+00:00".
Proof.
  destruct (@sub_microsecond_digits_ignored Reference.bench_runtime
              "2025-01-01T00:00:00" "123456" "78" "00:00" 0
              eq_refl eq_refl eq_refl eq_refl) as (Hcut & _ & Hz).
  split; [exact (proj1 (Hcut eq_refl)) | exact Hz].
Defined.

(** *** Image paths *)

(** X4: when the input path contains no [.dat], [savefig] is handed the
    input path itself for every image, so all images of the run go to one
    file: the input file when its extension is an image format matplotlib
    knows, the file [<input>.png] when the input has no extension; with
    any other extension [savefig] raises and the run saves nothing. *)
Theorem path_without_dat_is_reused `{Runtime} (prog csv_file : string)
    (rest : list string) (fs : filesystem) :
  free_of ".dat" csv_file = true ->
  let out := main (prog :: csv_file :: rest) fs in
  (forall path fig,
     In (path, fig) (saved out) ->
     path = csv_file /\
     (format_of csv_file <> "" /\ savefig csv_file = Ok csv_file \/
      format_of csv_file = "" /\
      savefig csv_file = Ok (rstrip "." csv_file ++ ".png"))) /\
  (forall e, savefig csv_file = Raise e -> saved out = []).
Proof.
  intros Hfree out.
  assert (Hpath : forall pf, In pf (saved out) -> fst pf = csv_file).
  { intros [path fig] Hin.
    destruct (saved_main_inv _ fs _ Hin)
      as (prog' & csv' & rest' & rows & data & btype & E & _ & _ & _ & Hp & _).
    injection E as _ <- _.
    destruct (plot_type_inv _ _ _ _ _ Hp) as (-> & _).
    unfold output_path. now apply replace_absent. }
  split.
  - intros path fig Hin. pose proof (Hpath _ Hin) as E. simpl in E. subst path.
    split; [reflexivity|].
    destruct (saved_main_written _ fs _ Hin) as [written Hw]. simpl in Hw.
    destruct (savefig_ok _ _ Hw) as [[Hf ->]|[Hf ->]]; [right | left]; auto.
  - intros e He. destruct (saved out) as [|pf l] eqn:Es; [reflexivity|].
    assert (Hin : In pf (pf :: l)) by now left.
    pose proof (Hpath _ Hin) as Epf. rewrite <- Es in Hin.
    destruct (saved_main_written _ fs _ Hin) as [written Hw].
    rewrite Epf in Hw. congruence.
Qed.

Lemma png_input_is_overwritten :
  exists fig,
    In ("summary.png", fig)
       (saved (main (H := Reference.bench_runtime)
                 ["plot_bench_metrics.py"; "summary.png"]
                 (Examples.one_file "summary.png" Examples.three_rows))) /\
    savefig "summary.png" = Ok "summary.png".
Proof.
  assert (Hin : exists path fig,
             In (path, fig)
                (saved (main (H := Reference.bench_runtime)
                          ["plot_bench_metrics.py"; "summary.png"]
                          (Examples.one_file "summary.png" Examples.three_rows)))).
  { eexists. eexists. vm_compute. left. reflexivity. }
  destruct Hin as (path & fig & Hin). exists fig.
  destruct (@path_without_dat_is_reused Reference.bench_runtime
              "plot_bench_metrics.py" "summary.png" []
              (Examples.one_file "summary.png" Examples.three_rows)
              eq_refl) as [Hall _].
  destruct (Hall path fig Hin) as [-> [[_ Hw]|[Hf _]]].
  - split; [exact Hin | exact Hw].
  - vm_compute in Hf. discriminate Hf.
Defined.

(** X20: an input path without [.dat] whose extension [savefig] does not
    know, such as [summary.csv], makes a run on well-formed rows of an
    accepted type end with an uncaught [ValueError] at the first image:
    nothing is saved and nothing is printed. *)
Theorem rejected_name_saves_nothing `{Runtime} (prog csv_file : string)
    (rest : list string) (fs : filesystem) (rows : list row)
    (ss : list sample) (e : exn) :
  fs csv_file = Some rows ->
  samples_of rows = Ok ss ->
  coherent ss ->
  ss <> [] ->
  free_of ".dat" csv_file = true ->
  savefig csv_file = Raise e ->
  main (prog :: csv_file :: rest) fs =
  {| stdout := []; saved := []; status := Uncaught ValueError |}.
Proof.
  intros Hfs Hs Hco Hne Hfree Hraise.
  rewrite (main_after_reading _ _ _ _ rows ss Hfs Hs).
  pose proof (stored_types_present rows ss Hs) as Hp.
  destruct ss as [|s0 ss']; [contradiction|].
  set (ss := s0 :: ss') in *.
  assert (Hk0 : In (sm_type s0) (keys (fold_left (fun d s => add_sample s d) ss [])))
    by (apply keys_fold; right; exists s0; split; [now left | reflexivity]).
  pose proof (Permutation_in _ Hp Hk0) as Hpres.
  destruct (types_present rows) as [|t present] eqn:Et; [destruct Hpres|].
  rewrite <- Et in *.
  destruct (plotted_types (types_present rows)) as [|b btypes] eqn:Eb.
  - exfalso.
    assert (Hin : In (sm_type s0) (plotted_types (types_present rows))).
    { unfold plotted_types. apply filter_In. split.
      - now apply (types_present_accepted rows).
      - now apply existsb_eqb_In. }
    rewrite Eb in Hin. destruct Hin.
  - assert (Hb : In b (plotted_types (types_present rows)))
      by (rewrite Eb; now left).
    unfold plotted_types in Hb. apply filter_In in Hb. destruct Hb as [_ Hb].
    apply existsb_eqb_In in Hb.
    apply (Permutation_in _ (Permutation_sym Hp)) in Hb.
    destruct (plot_type_ok csv_file ss b Hco Hb) as [fig Hfig].
    cbn [plot_types]. rewrite Hfig.
    unfold output_path. rewrite (replace_absent _ _ _ Hfree), Hraise.
    cbn [silent stdout saved]. now rewrite (savefig_raise _ _ Hraise).
Qed.

Lemma csv_input_saves_nothing :
  main (H := Reference.bench_runtime) ["plot_bench_metrics.py"; "summary.csv"]
    (Examples.one_file "summary.csv" Examples.three_rows)
  = {| stdout := []; saved := []; status := Uncaught ValueError |}.
Proof.
  eapply (fun ss => @rejected_name_saves_nothing Reference.bench_runtime
            "plot_bench_metrics.py" "summary.csv" []
            (Examples.one_file "summary.csv" Examples.three_rows)
            Examples.three_rows ss ValueError).
  - reflexivity.
  - vm_compute. reflexivity.
  - intros s1 s2 H1 H2 _. simpl in H1, H2.
    destruct H1 as [<-|[<-|[<-|[]]]]; destruct H2 as [<-|[<-|[<-|[]]]];
      reflexivity.
  - discriminate.
  - reflexivity.
  - reflexivity.
Defined.

(** X5: the READ image and the WRITE image get the same path exactly when
    the input path contains no [.dat]. *)
Theorem type_paths_collide_iff (csv_file : string) :
  output_path csv_file "READ" = output_path csv_file "WRITE" <->
  free_of ".dat" csv_file = true.
Proof.
  split.
  - unfold output_path, replace.
    induction csv_file as [|a s IH]; [reflexivity|].
    cbn [replace_from free_of].
    destruct (String.prefix ".dat" (String a s)) eqn:Ep.
    + simpl. intros E. discriminate E.
    + intros E. injection E as E. simpl. now apply IH.
  - intros Hf. unfold output_path. now rewrite !replace_absent.
Qed.

(** *** How a run ends *)

Lemma plot_types_status (csv_file : string) (data : by_type)
    (btypes : list string) (out : outcome) :
  status (plot_types csv_file data btypes out) = status out \/
  (exists b e, In b btypes /\ plot_type csv_file data b = Raise e /\
               status (plot_types csv_file data btypes out) = Uncaught e) \/
  (exists b p f e, In b btypes /\ plot_type csv_file data b = Ok (Some (p, f)) /\
                   savefig p = Raise e /\
                   status (plot_types csv_file data btypes out) = Uncaught e).
Proof.
  revert out. induction btypes as [|b btypes IH]; intros out; simpl; [now left|].
  destruct (plot_type csv_file data b) as [[[p f]|]|e] eqn:E.
  - destruct (savefig p) as [written|e] eqn:Ew.
    + destruct (IH {| stdout := (stdout out ++ [printed_line (p, f)])%list;
                      saved := (saved out ++ [(p, f)])%list;
                      status := status out |})
        as [Hs|[(b' & e & Hb & Hr & Hs)|(b' & p' & f' & e & Hb & Hr & Hw & Hs)]].
      * left. exact Hs.
      * right. left. exists b', e. auto.
      * right. right. exists b', p', f', e. auto.
    + right. right. exists b, p, f, e. auto.
  - destruct (IH out)
      as [Hs|[(b' & e & Hb & Hr & Hs)|(b' & p' & f' & e & Hb & Hr & Hw & Hs)]].
    + now left.
    + right. left. exists b', e. auto.
    + right. right. exists b', p', f', e. auto.
  - right. left. exists b, e. auto.
Qed.

(** X6: [sys.exit(1)] is the usage error and nothing else: a run leaves
    through [sys.exit(1)] exactly when the file argument is missing, and
    then it prints the usage line and saves nothing.  Every other run that
    the interpreter reports with status 1 ends on an uncaught exception. *)
Theorem status_one_iff_no_argument `{Runtime} (argv : list string)
    (fs : filesystem) :
  (status (main argv fs) = Exited 1 <-> (List.length argv < 2)%nat) /\
  ((List.length argv < 2)%nat ->
   main argv fs =
   {| stdout := ["Usage: python plot_bench_metrics.py <summary.dat>"];
      saved := [];
      status := Exited 1 |}).
Proof.
  split.
  - destruct argv as [|prog [|csv_file rest]]; simpl;
      try (split; [lia | reflexivity]).
    split; [|lia]. intros Hst. exfalso.
    destruct (fs csv_file) as [rows|]; [|discriminate].
    destruct (read_rows [] rows) as [[|kv data]|e]; try discriminate.
    remember (kv :: data) as d.
    destruct (sorted str_lt (keys d)) as [btypes|e]; [|discriminate].
    destruct (plot_types_status csv_file d btypes (silent (Exited 0)))
      as [E|[(b & e & _ & _ & E)|(b & p & f & e & _ & _ & _ & E)]];
      rewrite E in Hst; discriminate.
  - destruct argv as [|prog [|csv_file rest]]; simpl; intros Hl;
      try reflexivity; lia.
Qed.

Lemma program_name_alone_is_usage :
  main (H := Reference.bench_runtime) ["plot_bench_metrics.py"]
    (Examples.one_file "summary.dat" Examples.three_rows)
  = {| stdout := ["Usage: python plot_bench_metrics.py <summary.dat>"];
       saved := [];
       status := Exited 1 |}.
Proof.
  apply (proj2 (@status_one_iff_no_argument Reference.bench_runtime
                  ["plot_bench_metrics.py"]
                  (Examples.one_file "summary.dat" Examples.three_rows))).
  simpl. lia.
Defined.

(** *** Malformed rows *)

Lemma samples_of_first_failure `{Runtime} (before : list row) (r : row)
    (later : list row) (ss : list sample) (e : exn) :
  samples_of before = Ok ss -> sample_of r = Raise e ->
  samples_of (before ++ r :: later) = Raise e.
Proof.
  revert ss. induction before as [|r0 before IH]; simpl; intros ss Hs Hr.
  - now rewrite Hr.
  - destruct (sample_of r0) as [o|e0]; simpl in *; [|discriminate].
    destruct (samples_of before) as [ss0|e0]; simpl in *; [|discriminate].
    now rewrite (IH ss0 eq_refl Hr).
Qed.

(** X7: the first READ or WRITE row that cannot be parsed ends the run with
    its exception: nothing is printed and no image is written, whatever
    was read before it and whatever comes after. *)
Theorem first_bad_row_aborts `{Runtime} (prog csv_file : string)
    (rest : list string) (fs : filesystem) (before : list row) (r : row)
    (later : list row) (ss : list sample) (e : exn) :
  fs csv_file = Some (before ++ r :: later)%list ->
  samples_of before = Ok ss ->
  sample_of r = Raise e ->
  main (prog :: csv_file :: rest) fs =
  {| stdout := []; saved := []; status := Uncaught e |}.
Proof.
  intros Hfs Hs Hr. unfold main.
  rewrite Hfs, read_rows_samples.
  now rewrite (samples_of_first_failure before r later ss e Hs Hr).
Qed.

Lemma bad_second_row_aborts :
  main (H := Reference.bench_runtime) ["plot_bench_metrics.py"; "summary.dat"]
    (Examples.one_file "summary.dat" Examples.bad_second_row) =
  {| stdout := []; saved := []; status := Uncaught ValueError |}.
Proof.
  eapply (@first_bad_row_aborts Reference.bench_runtime
            "plot_bench_metrics.py" "summary.dat" []
            (Examples.one_file "summary.dat" Examples.bad_second_row)
            [Examples.client_row "READ" "2025-01-01T00:00:00.123Z"
               "20e6" "20e6" "15e6" "50"]
            (Examples.client_row "WRITE" "yesterday" "30e6" "40e6" "35e6" "10")
            [[]]).
  - reflexivity.
  - vm_compute. reflexivity.
  - vm_compute. reflexivity.
Defined.

(** *** One operation type at a time *)

Lemma dd_get_record_metric (app : samples -> samples) (b b' : string)
    (t : datetime) (d : by_type) :
  dd_get String.eqb [] b (record_metric app b' t d) =
  if String.eqb b b'
  then dd_update dt_eqb no_samples app t (dd_get String.eqb [] b' d)
  else dd_get String.eqb [] b d.
Proof.
  unfold record_metric, dd_get, by_type, by_timestamp in *.
  rewrite (lookup_dd_update String.eqb String.eqb_spec).
  now destruct (String.eqb b b').
Qed.

Lemma dd_get_add_sample (s : sample) (b : string) (d : by_type) :
  dd_get String.eqb [] b (add_sample s d) =
  if String.eqb b (sm_type s)
  then add_to_type s (dd_get String.eqb [] b d)
  else dd_get String.eqb [] b d.
Proof.
  unfold add_sample, add_to_type. cbv zeta.
  destruct (String.eqb_spec b (sm_type s)) as [->|Hne].
  - rewrite !dd_get_record_metric, !String.eqb_refl. reflexivity.
  - rewrite !dd_get_record_metric.
    destruct (String.eqb_spec b (sm_type s)); [contradiction | reflexivity].
Qed.

Lemma dd_get_fold_type (b : string) (ss : list sample) (d d' : by_type) :
  dd_get String.eqb [] b d = dd_get String.eqb [] b d' ->
  dd_get String.eqb [] b (fold_left (fun d s => add_sample s d) ss d) =
  dd_get String.eqb [] b
    (fold_left (fun d s => add_sample s d)
       (filter (fun s => String.eqb b (sm_type s)) ss) d').
Proof.
  revert d d'. induction ss as [|s ss IH]; intros d d' E; simpl; [exact E|].
  destruct (String.eqb b (sm_type s)) eqn:Eb; simpl; apply IH;
    rewrite !dd_get_add_sample, ?Eb; congruence.
Qed.

Lemma plot_type_dd_get (csv_file b : string) (d d' : by_type) :
  dd_get String.eqb [] b d = dd_get String.eqb [] b d' ->
  plot_type csv_file d b = plot_type csv_file d' b.
Proof. intros E. unfold plot_type. now rewrite E. Qed.

Lemma samples_of_type `{Runtime} (b : string) (rows : list row)
    (ss : list sample) :
  samples_of rows = Ok ss ->
  samples_of (filter (type_is b) rows)
  = Ok (filter (fun s => String.eqb b (sm_type s)) ss).
Proof.
  revert ss. induction rows as [|r rows IH]; simpl; intros ss E.
  - now injection E as <-.
  - destruct (sample_of r) as [o|e] eqn:Er; simpl in E; [|discriminate].
    destruct (samples_of rows) as [ss'|e]; simpl in E; [|discriminate].
    injection E as <-. specialize (IH ss' eq_refl).
    destruct o as [s|].
    + assert (Ht : type_is b r = String.eqb b (sm_type s)).
      { unfold type_is. now destruct (sample_of_inv r s Er) as [-> _]. }
      simpl. rewrite Ht. destruct (String.eqb b (sm_type s)); [|exact IH].
      simpl. now rewrite Er, IH.
    + destruct (type_is b r); [|exact IH]. simpl. now rewrite Er, IH.
Qed.

(** X8: what is plotted for an operation type depends on the rows of that
    type alone: reading only those rows of the file stores the same
    timestamps and lists for the type and gives the same figure, or the
    same exception. *)
Theorem type_plotted_from_its_rows `{Runtime} (rows : list row)
    (data : by_type) (btype : string) :
  read_rows [] rows = Ok data ->
  exists data_b,
    read_rows [] (filter (type_is btype) rows) = Ok data_b /\
    dd_get String.eqb [] btype data_b = dd_get String.eqb [] btype data /\
    forall csv_file,
      plot_type csv_file data_b btype = plot_type csv_file data btype.
Proof.
  intros Hr. destruct (read_rows_inv rows data Hr) as (ss & Hs & ->).
  eexists. rewrite read_rows_samples, (samples_of_type btype rows ss Hs). simpl.
  split; [reflexivity|].
  assert (E : dd_get String.eqb [] btype
                (fold_left (fun d s => add_sample s d)
                   (filter (fun s => String.eqb btype (sm_type s)) ss) [])
              = dd_get String.eqb [] btype
                  (fold_left (fun d s => add_sample s d) ss [])).
  { symmetry. now apply dd_get_fold_type. }
  split; [exact E|]. intros csv_file. now apply plot_type_dd_get.
Qed.

Lemma read_figure_from_read_rows :
  exists data data_b,
    read_rows (H := Reference.bench_runtime) [] Examples.three_rows = Ok data /\
    read_rows (H := Reference.bench_runtime) []
      (filter (type_is "READ") Examples.three_rows) = Ok data_b /\
    List.length (filter (type_is "READ") Examples.three_rows) = 2%nat /\
    plot_type "summary.dat" data_b "READ" = plot_type "summary.dat" data "READ".
Proof.
  eexists.
  edestruct (fun data => @type_plotted_from_its_rows Reference.bench_runtime
                           Examples.three_rows data "READ")
    as (data_b & Hb & _ & Hp).
  - vm_compute. reflexivity.
  - exists data_b. split; [vm_compute; reflexivity|].
    split; [exact Hb|]. split; [reflexivity | apply Hp].
Defined.

(** *** Order of the images, and runs that stop half way *)










(** *** Shape of a figure *)

Lemma aggregate_lengths (dbt : by_timestamp) (l : list datetime) (acc s : series) :
  aggregate dbt acc l = Ok s ->
  List.length (s_avg s) = (List.length (s_avg acc) + List.length l)%nat /\
  List.length (s_max s) = (List.length (s_max acc) + List.length l)%nat /\
  List.length (s_p99 s) = (List.length (s_p99 acc) + List.length l)%nat /\
  List.length (s_thr s) = (List.length (s_thr acc) + List.length l)%nat.
Proof.
  revert acc. induction l as [|ts l IH]; simpl; intros acc E.
  - injection E as <-. repeat split; lia.
  - destruct (aggregate_step dbt acc ts) as [acc'|e] eqn:S; simpl in E;
      [|discriminate].
    destruct (IH _ E) as (H1 & H2 & H3 & H4).
    unfold aggregate_step in S.
    destruct (mean (avg_lat _)); simpl in S; [|discriminate].
    destruct (mean (max_lat _)); simpl in S; [|discriminate].
    destruct (mean (p99_lat _)); simpl in S; [|discriminate].
    injection S as <-. simpl in *. rewrite length_app in *. simpl in *.
    repeat split; lia.
Qed.

(** X12: in every figure the four curves have as many points as the time
    axis, and at least one: no curve is ever plotted against an axis of
    another length. *)
Theorem figure_curves_aligned `{Runtime} (argv : list string)
    (fs : filesystem) (path : string) (fig : figure) :
  In (path, fig) (saved (main argv fs)) ->
  (0 < List.length (time_seconds fig))%nat /\
  List.length (avg_lats fig) = List.length (time_seconds fig) /\
  List.length (max_lats fig) = List.length (time_seconds fig) /\
  List.length (p99_lats fig) = List.length (time_seconds fig) /\
  List.length (throughputs fig) = List.length (time_seconds fig).
Proof.
  intros Hin.
  destruct (saved_main_inv argv fs _ Hin)
    as (prog & csv_file & rest & rows & data & btype
        & _ & _ & _ & _ & Hp & _).
  revert Hp. unfold plot_type.
  destruct (sorted dt_lt _) as [l|e]; simpl; [|discriminate].
  destruct (aggregate _ no_series l) as [s|e] eqn:Ea; simpl; [|discriminate].
  destruct (aggregate_lengths _ _ _ _ Ea) as (H1 & H2 & H3 & H4).
  rewrite (aggregate_ts _ _ _ _ Ea). simpl in *.
  destruct (relative_seconds l) as [[secs|]|e] eqn:Er; simpl; try discriminate.
  intros E. injection E as _ <-. simpl.
  destruct (relative_seconds_inv l secs Er) as (x & rest' & -> & ->).
  rewrite length_map. simpl in *. repeat split; lia.
Qed.

Lemma figure_curves_three_rows :
  exists fig,
    In ("summary_READ_metrics.png", fig)
       (saved (main (H := Reference.bench_runtime)
                 ["plot_bench_metrics.py"; "summary.dat"]
                 (Examples.one_file "summary.dat" Examples.three_rows))) /\
    List.length (time_seconds fig) = 2%nat /\
    List.length (throughputs fig) = List.length (time_seconds fig).
Proof.
  eexists. split; [vm_compute; left; reflexivity|].
  split; [reflexivity|].
  refine (proj2 (proj2 (proj2 (proj2
    (@figure_curves_aligned Reference.bench_runtime
       ["plot_bench_metrics.py"; "summary.dat"]
       (Examples.one_file "summary.dat" Examples.three_rows)
       "summary_READ_metrics.png" _ _))))).
  vm_compute. left. reflexivity.
Defined.




End BenchExtras.

(** ** Further properties of visualize_gradual_overload.py *)

Module OverloadExtras.
Import Py PyFacts VisualizeGradualOverload OverloadSpec OverloadProps.
Local Open Scope py_scope.

(** *** How a run ends *)

(** X14: given the two frames, a run ends with status 0 exactly when the
    timestamp columns of both parse and no timestamp of the metrics
    differs from one of the phase table in having a time zone.  When a
    column does not parse the run ends with an uncaught [ValueError]
    before anything is drawn or printed; when the two files differ in
    convention it ends with an uncaught [TypeError] after the curves have
    been drawn, with no marker, no image and nothing printed.  The loops
    over the phase table never index out of range. *)
Theorem overload_status `{Runtime} (prefix : string)
    (metrics_df : metrics_frame) (phases_df : list phase_row) :
  let out := main prefix metrics_df phases_df in
  (status out = Exited 0 <->
   (exists metrics_ts phases_ts,
      parse_column timestamp (metrics_rows metrics_df) = Ok metrics_ts /\
      parse_column transition_timestamp phases_df = Ok phases_ts) /\
   same_convention metrics_df phases_df = true) /\
  (~ (exists metrics_ts phases_ts,
        parse_column timestamp (metrics_rows metrics_df) = Ok metrics_ts /\
        parse_column transition_timestamp phases_df = Ok phases_ts) ->
   out = {| calls := []; stdout := []; status := Uncaught ValueError |}) /\
  (forall metrics_ts phases_ts,
     parse_column timestamp (metrics_rows metrics_df) = Ok metrics_ts ->
     parse_column transition_timestamp phases_df = Ok phases_ts ->
     same_convention metrics_df phases_df = false ->
     status out = Uncaught TypeError /\
     stdout out = [] /\
     Forall (fun c => is_plot c = true) (calls out) /\
     In (Plot 0 "Throughput"
           (time_seconds_column (ts_min metrics_ts) metrics_ts)
           (map throughput (metrics_rows metrics_df)))
        (calls out)).
Proof.
  intros out.
  destruct (parse_column timestamp (metrics_rows metrics_df)) as [mts|e] eqn:Em.
  - destruct (parse_column transition_timestamp phases_df) as [pts|e] eqn:Ep.
    + destruct (same_convention metrics_df phases_df) eqn:Es.
      * unfold out. rewrite (main_closed prefix _ _ _ _ Em Ep Es). cbn [status].
        split; [split; [eauto | reflexivity]|].
        split; [intros Hno; exfalso; apply Hno; eauto | discriminate].
      * unfold out. rewrite (main_mismatch prefix _ _ _ _ Em Ep Es). cbn [status].
        split; [split; [discriminate | intros [_ D]; discriminate]|].
        split; [intros Hno; exfalso; apply Hno; eauto|].
        intros mts' pts' [= <-] _ _. cbn [stdout calls].
        split; [reflexivity|]. split; [reflexivity|]. split; [|now left].
        unfold curves. destruct (has_p99_latency_ms metrics_df);
          repeat constructor.
    + assert (E : out = {| calls := []; stdout := [];
                           status := Uncaught ValueError |}).
      { apply main_unparsed. intros m p' _ D. rewrite Ep in D. discriminate. }
      rewrite E. cbn [status].
      split; [split; [discriminate | intros [(m & p' & _ & D) _]; discriminate]|].
      split; [reflexivity | intros ? ? _ D; discriminate D].
  - assert (E : out = {| calls := []; stdout := [];
                         status := Uncaught ValueError |}).
    { apply main_unparsed. intros m p' D _. rewrite Em in D. discriminate. }
    rewrite E. cbn [status].
    split; [split; [discriminate | intros [(m & p' & D & _) _]; discriminate]|].
    split; [reflexivity | intros ? ? D; discriminate D].
Qed.

Lemma aware_phases_type_error :
  main (H := Reference.overload_runtime) "run-"
    OverloadExamples.one_minute OverloadExamples.bad_phases
  = {| calls := []; stdout := []; status := Uncaught ValueError |} /\
  let out := main (H := Reference.overload_runtime) "run-"
               OverloadExamples.one_minute OverloadExamples.aware_phases in
  status out = Uncaught TypeError /\ stdout out = [] /\
  Forall (fun c => is_plot c = true) (calls out).
Proof.
  split.
  - apply (proj1 (proj2 (@overload_status Reference.overload_runtime "run-"
                    OverloadExamples.one_minute OverloadExamples.bad_phases))).
    intros (m & p' & _ & D). vm_compute in D. discriminate D.
  - intros out.
    destruct (proj2 (proj2 (@overload_status Reference.overload_runtime "run-"
                     OverloadExamples.one_minute OverloadExamples.aware_phases))
               [1735689600000000000; 1735689630000000000; 1735689660000000000]
               [1735689600000000000; 1735689630000000000])
      as (Hst & Hout & Hcalls & _).
    + vm_compute. reflexivity.
    + vm_compute. reflexivity.
    + vm_compute. reflexivity.
    + split; [exact Hst|]. split; [exact Hout | exact Hcalls].
Defined.

(** *** The phase overlay *)

Lemma filter_none {A : Type} (f : A -> bool) (l : list A) :
  Forall (fun x => f x = false) l -> filter f l = [].
Proof.
  induction 1 as [|x l Hx _ IH]; simpl; [reflexivity | now rewrite Hx].
Qed.

Lemma filter_all {A : Type} (f : A -> bool) (l : list A) :
  Forall (fun x => f x = true) l -> filter f l = l.
Proof.
  induction 1 as [|x l Hx _ IH]; simpl; [reflexivity | now rewrite Hx, IH].
Qed.

Lemma curves_no_overlay (metrics_df : metrics_frame) (time_seconds : list Q) :
  Forall (fun c => phase_overlay c = false) (curves metrics_df time_seconds).
Proof.
  unfold curves. destruct (has_p99_latency_ms metrics_df); repeat constructor.
Qed.

Lemma failure_note_no_overlay (failures : list (metrics_row * Q)) :
  Forall (fun c => phase_overlay c = false) (failure_note failures).
Proof. destruct failures; repeat constructor. Qed.

Lemma markers_overlay (st : option Z) (phases : list (Z * string)) :
  Forall (fun c => phase_overlay c = true) (markers st phases) /\
  List.length (markers st phases) = (6 * List.length phases)%nat.
Proof.
  unfold markers. induction phases as [|p l [IH1 IH2]].
  - split; [constructor | reflexivity].
  - cbn [flat_map]. split.
    + apply Forall_app. split; [repeat constructor | exact IH1].
    + rewrite length_app, IH2. simpl. lia.
Qed.

Lemma shading_overlay (st : option Z) (tmax : coord) (phases : list (Z * string)) :
  Forall (fun c => phase_overlay c = true)
    (flat_map shade (intervals st tmax phases)) /\
  List.length (flat_map shade (intervals st tmax phases))
    = (3 * List.length phases)%nat.
Proof.
  induction phases as [|p [|q l] [IH1 IH2]].
  - split; [constructor | reflexivity].
  - split; [repeat constructor | reflexivity].
  - change (intervals st tmax (p :: q :: l))
      with ((since st (fst p), since st (fst q), color_of (snd p))
              :: intervals st tmax (q :: l)).
    cbn [flat_map]. split.
    + apply Forall_app. split; [repeat constructor | exact IH1].
    + rewrite length_app, IH2. simpl. lia.
Qed.

Lemma nth_error_flat_map_const {A B : Type} (g : A -> list B) (n : nat)
    (l : list A) (k j : nat) (x : A) :
  (forall y, List.length (g y) = n) ->
  nth_error l k = Some x -> (j < n)%nat ->
  nth_error (flat_map g l) (n * k + j) = nth_error (g x) j.
Proof.
  intros Hlen. revert k. induction l as [|y l IH]; intros k Hk Hj.
  - destruct k; discriminate.
  - cbn [flat_map]. destruct k as [|k].
    + injection Hk as ->. rewrite Nat.mul_0_r, Nat.add_0_l.
      apply nth_error_app1. rewrite Hlen. exact Hj.
    + rewrite nth_error_app2 by (rewrite Hlen; lia). rewrite Hlen.
      replace (n * S k + j - n)%nat with (n * k + j)%nat by lia.
      now apply IH.
Qed.

Lemma nth_error_intervals (st : option Z) (tmax : coord)
    (phases : list (Z * string)) (k : nat) (t : Z) (name : string) :
  nth_error phases k = Some (t, name) ->
  nth_error (intervals st tmax phases) k =
  Some (since st t,
        match nth_error phases (S k) with
        | Some q => since st (fst q)
        | None => tmax
        end,
        color_of name).
Proof.
  revert k. induction phases as [|p [|q l] IH]; intros k Hk.
  - destruct k; discriminate.
  - destruct k as [|k]; [|destruct k; discriminate].
    injection Hk as ->. reflexivity.
  - change (intervals st tmax (p :: q :: l))
      with ((since st (fst p), since st (fst q), color_of (snd p))
              :: intervals st tmax (q :: l)).
    destruct k as [|k].
    + injection Hk as ->. reflexivity.
    + cbn [nth_error] in *. now apply IH.
Qed.

Lemma nth_error_markers (st : option Z) (phases : list (Z * string))
    (k j : nat) (t : Z) (name : string) :
  nth_error phases k = Some (t, name) -> (j < 6)%nat ->
  nth_error (markers st phases) (6 * k + j)
  = nth_error (flat_map (fun ax => [Axvline ax (since st t);
                                    Text ax (since st t) name]) axes) j.
Proof.
  intros Hk Hj. unfold markers.
  exact (nth_error_flat_map_const
           (fun ph => flat_map (fun ax => [Axvline ax (since st (fst ph));
                                           Text ax (since st (fst ph)) (snd ph)])
                        axes)
           6 phases k j (t, name) (fun _ => eq_refl) Hk Hj).
Qed.

Lemma nth_error_shading (ivs : list (coord * coord * string)) (k j : nat)
    (iv : coord * coord * string) :
  nth_error ivs k = Some iv -> (j < 3)%nat ->
  nth_error (flat_map shade ivs) (3 * k + j) = nth_error (shade iv) j.
Proof.
  intros Hk Hj.
  exact (nth_error_flat_map_const shade 3 ivs k j iv (fun _ => eq_refl) Hk Hj).
Qed.

Lemma nth_error_combine {A B : Type} (l1 : list A) (l2 : list B) (k : nat)
    (a : A) (b : B) :
  nth_error l1 k = Some a -> nth_error l2 k = Some b ->
  nth_error (combine l1 l2) k = Some (a, b).
Proof.
  revert l2 k. induction l1 as [|x l1 IH]; intros [|y l2] [|k] H1 H2;
    try discriminate.
  - injection H1 as ->. injection H2 as ->. reflexivity.
  - cbn [combine nth_error] in *. now apply IH.
Qed.

Lemma nth_error_combine_fst {A B : Type} (l1 : list A) (l2 : list B) (k : nat) :
  List.length l1 = List.length l2 ->
  option_map fst (nth_error (combine l1 l2) k) = nth_error l1 k.
Proof.
  revert l2 k. induction l1 as [|x l1 IH]; intros [|y l2] [|k] Hl;
    try discriminate; try reflexivity.
  cbn [combine nth_error]. apply IH. now injection Hl.
Qed.

(** What the run draws for the phases. *)
Lemma overlay_closed `{Runtime} (prefix : string) (metrics_df : metrics_frame)
    (phases_df : list phase_row) (metrics_ts phases_ts : list Z) :
  parse_column timestamp (metrics_rows metrics_df) = Ok metrics_ts ->
  parse_column transition_timestamp phases_df = Ok phases_ts ->
  same_convention metrics_df phases_df = true ->
  let start_time := ts_min metrics_ts in
  let tmax := series_max (time_seconds_column start_time metrics_ts) in
  let phases := combine phases_ts (map transition_phase phases_df) in
  filter phase_overlay (calls (main prefix metrics_df phases_df))
  = (markers start_time phases
     ++ flat_map shade (intervals start_time tmax phases))%list.
Proof.
  intros Hm Hp Hsame start_time tmax phases.
  rewrite (main_closed prefix metrics_df phases_df _ _ Hm Hp Hsame).
  cbn [calls]. rewrite !filter_app.
  rewrite (filter_none _ _ (curves_no_overlay _ _)).
  rewrite (filter_none _ _ (failure_note_no_overlay _)).
  rewrite (filter_all _ _ (proj1 (markers_overlay _ _))).
  rewrite (filter_all _ _ (proj1 (shading_overlay _ _ _))).
  simpl. now rewrite app_nil_r.
Qed.

(** X15: what is drawn for the phases, when the two files follow one
    time-zone convention: nine calls per transition, and no other marker,
    label or shading.  First come, transition by transition and subplot
    by subplot, a marker line and the name of the phase at the time of
    the transition; then, phase by phase and subplot by subplot, the
    shading of the phase in its colour, from its transition to the next
    one and, for the last phase, to the largest time of the metrics. *)
Theorem phase_overlay_drawn `{Runtime} (prefix : string)
    (metrics_df : metrics_frame) (phases_df : list phase_row)
    (metrics_ts phases_ts : list Z) :
  parse_column timestamp (metrics_rows metrics_df) = Ok metrics_ts ->
  parse_column transition_timestamp phases_df = Ok phases_ts ->
  same_convention metrics_df phases_df = true ->
  let start_time := ts_min metrics_ts in
  let tmax := series_max (time_seconds_column start_time metrics_ts) in
  let overlay := filter phase_overlay (calls (main prefix metrics_df phases_df)) in
  List.length overlay = (9 * List.length phases_df)%nat /\
  forall k p t ax,
    nth_error phases_df k = Some p ->
    nth_error phases_ts k = Some t ->
    (ax < 3)%nat ->
    nth_error overlay (6 * k + 2 * ax)
      = Some (Axvline ax (since start_time t)) /\
    nth_error overlay (6 * k + 2 * ax + 1)
      = Some (Text ax (since start_time t) (transition_phase p)) /\
    nth_error overlay (6 * List.length phases_df + 3 * k + ax)
      = Some (Axvspan ax (since start_time t)
                (match nth_error phases_ts (S k) with
                 | Some t' => since start_time t'
                 | None => tmax
                 end)
                (color_of (transition_phase p))).
Proof.
  intros Hm Hp Hsame start_time tmax overlay.
  set (phases := combine phases_ts (map transition_phase phases_df)).
  assert (Hlen : List.length phases_ts = List.length phases_df)
    by exact (parse_column_length _ _ _ Hp).
  assert (Hn : List.length phases = List.length phases_df).
  { unfold phases. rewrite length_combine, length_map, Hlen. apply Nat.min_id. }
  assert (E : overlay = (markers start_time phases
                         ++ flat_map shade (intervals start_time tmax phases))%list)
    by exact (overlay_closed prefix _ _ _ _ Hm Hp Hsame).
  destruct (markers_overlay start_time phases) as [_ Hlm].
  destruct (shading_overlay start_time tmax phases) as [_ Hls].
  split.
  { rewrite E, length_app, Hlm, Hls. lia. }
  intros k p t ax Hkp Hkt Hax.
  assert (Hk : nth_error phases k = Some (t, transition_phase p)).
  { unfold phases. apply nth_error_combine; [exact Hkt|].
    now rewrite nth_error_map, Hkp. }
  assert (Hkn : (k < List.length phases)%nat).
  { apply nth_error_Some. rewrite Hk. discriminate. }
  rewrite E.
  split; [|split].
  - rewrite nth_error_app1 by lia.
    replace (6 * k + 2 * ax)%nat with (6 * k + (2 * ax))%nat by lia.
    rewrite (nth_error_markers start_time phases k (2 * ax) _ _ Hk) by lia.
    destruct ax as [|[|[|ax]]]; try reflexivity. lia.
  - rewrite nth_error_app1 by lia.
    replace (6 * k + 2 * ax + 1)%nat with (6 * k + (2 * ax + 1))%nat by lia.
    rewrite (nth_error_markers start_time phases k (2 * ax + 1) _ _ Hk) by lia.
    destruct ax as [|[|[|ax]]]; try reflexivity. lia.
  - rewrite nth_error_app2 by lia. rewrite Hlm, Hn.
    replace (6 * List.length phases_df + 3 * k + ax - 6 * List.length phases_df)%nat
      with (3 * k + ax)%nat by lia.
    rewrite (nth_error_shading _ k ax _
               (nth_error_intervals start_time tmax phases k t _ Hk) Hax).
    assert (Hnext : match nth_error phases (S k) with
                    | Some q => since start_time (fst q)
                    | None => tmax
                    end
                    = match nth_error phases_ts (S k) with
                      | Some t' => since start_time t'
                      | None => tmax
                      end).
    { rewrite <- (nth_error_combine_fst phases_ts
                    (map transition_phase phases_df) (S k))
        by now rewrite length_map.
      fold phases. now destruct (nth_error phases (S k)). }
    rewrite Hnext.
    destruct ax as [|[|[|ax]]]; try reflexivity. lia.
Qed.

Lemma custom_phases_overlay :
  let out := main (H := Reference.overload_runtime) "run-"
               OverloadExamples.one_minute OverloadExamples.custom_phases in
  let overlay := filter phase_overlay (calls out) in
  List.length overlay = 18%nat /\
  nth_error overlay 6 = Some (Axvline 0 (Some (30000000000 # 1000000000))) /\
  nth_error overlay 7
    = Some (Text 0 (Some (30000000000 # 1000000000)) "CHAOS") /\
  nth_error overlay 15
    = Some (Axvspan 0 (Some (30000000000 # 1000000000))
              (Some (60000000000 # 1000000000)) "#FFFFFF").
Proof.
  intros out overlay.
  destruct (@phase_overlay_drawn Reference.overload_runtime "run-"
              OverloadExamples.one_minute OverloadExamples.custom_phases
              [1735689600000000000; 1735689630000000000; 1735689660000000000]
              [1735689600000000000; 1735689630000000000])
    as [Hlen Hat].
  - vm_compute. reflexivity.
  - vm_compute. reflexivity.
  - vm_compute. reflexivity.
  - split; [exact Hlen|].
    exact (Hat 1%nat
             {| transition_timestamp := "2025-01-01T00:00:30";
                transition_phase := "CHAOS" |}
             1735689630000000000 0%nat eq_refl eq_refl (Nat.lt_0_succ 2)).
Defined.

(** *** The failure point *)



Lemma time_seconds_column_spec (metrics_ts : list Z) :
  metrics_ts <> [] ->
  exists start_time,
    ts_min metrics_ts = Some start_time /\
    In start_time metrics_ts /\
    Forall (fun t => start_time <= t) metrics_ts /\
    time_seconds_column (ts_min metrics_ts) metrics_ts
      = map (seconds_between start_time) metrics_ts.
Proof.
  intros Hne. destruct (ts_min_spec metrics_ts Hne) as (s & Hs & Hin & Hall).
  exists s. rewrite Hs. auto.
Qed.



(** *** The curves and the summary *)

Lemma seconds_between_nonneg (start_time t : Z) :
  start_time <= t -> (0 <= seconds_between start_time t)%Q.
Proof.
  intros Hle. unfold seconds_between, Qdiv.
  apply Qmult_le_0_compat.
  - change 0%Q with (inject_Z 0). rewrite <- Zle_Qle. lia.
  - discriminate.
Qed.

Lemma seconds_between_start (start_time : Z) :
  (seconds_between start_time start_time == 0)%Q.
Proof.
  unfold seconds_between. rewrite Z.sub_diag. reflexivity.
Qed.

Lemma map_fst_combine {A B C : Type} (f : A -> C) (l1 : list A) (l2 : list B) :
  List.length l1 = List.length l2 ->
  map (fun r => f (fst r)) (combine l1 l2) = map f l1.
Proof.
  revert l2. induction l1 as [|x l1 IH]; intros [|y l2]; simpl; intros Hl;
    try discriminate; [reflexivity|].
  f_equal. apply IH. now injection Hl.
Qed.

Lemma curves_inv (metrics_df : metrics_frame) (time_seconds : list Q)
    (ax : nat) (label : string) (xs ys : list Q) :
  In (Plot ax label xs ys) (curves metrics_df time_seconds) ->
  xs = time_seconds /\
  List.length ys = List.length (metrics_rows metrics_df).
Proof.
  unfold curves. rewrite !in_app_iff.
  intros [[E|[E|[]]]|[Hin|[E|[]]]];
    try (injection E as _ _ <- <-; now rewrite length_map).
  destruct (has_p99_latency_ms metrics_df); [|contradiction].
  destruct Hin as [E|[]]. injection E as _ _ <- <-. now rewrite length_map.
Qed.

(** Whatever the phase table, the curves are the only [plot] calls of a
    run, and they are drawn as soon as both columns parse. *)
Lemma plot_calls `{Runtime} (prefix : string) (metrics_df : metrics_frame)
    (phases_df : list phase_row) (metrics_ts : list Z) :
  parse_column timestamp (metrics_rows metrics_df) = Ok metrics_ts ->
  let time_seconds := time_seconds_column (ts_min metrics_ts) metrics_ts in
  (forall ax label xs ys,
     In (Plot ax label xs ys) (calls (main prefix metrics_df phases_df)) ->
     In (Plot ax label xs ys) (curves metrics_df time_seconds)) /\
  (forall phases_ts,
     parse_column transition_timestamp phases_df = Ok phases_ts ->
     incl (curves metrics_df time_seconds)
       (calls (main prefix metrics_df phases_df))).
Proof.
  intros Hm time_seconds.
  destruct (parse_column transition_timestamp phases_df) as [pts|e] eqn:Ep.
  - destruct (same_convention metrics_df phases_df) eqn:Es.
    + rewrite (main_closed prefix _ _ _ _ Hm Ep Es). cbn [calls].
      fold time_seconds. split.
      * intros ax label xs ys. rewrite !in_app_iff.
        intros [Hin|[Hin|[Hin|[Hin|Hin]]]]; [exact Hin| | | |].
        -- pose proof (proj1 (markers_overlay (ts_min metrics_ts)
                                (combine pts (map transition_phase phases_df))))
             as Hall.
           rewrite Forall_forall in Hall. discriminate (Hall _ Hin).
        -- pose proof (proj1 (shading_overlay (ts_min metrics_ts)
                                (series_max time_seconds)
                                (combine pts (map transition_phase phases_df))))
             as Hall.
           rewrite Forall_forall in Hall. discriminate (Hall _ Hin).
        -- destruct (failure_point _ _); [contradiction|].
           destruct Hin as [E|[]]. discriminate.
        -- destruct Hin as [E|[]]. discriminate.
      * intros ? _ c Hc. apply in_app_iff. now left.
    + rewrite (main_mismatch prefix _ _ _ _ Hm Ep Es). cbn [calls].
      fold time_seconds. split; [auto | intros ? _ c Hc; exact Hc].
  - rewrite main_unparsed.
    + cbn [calls]. split; [intros ax label xs ys [] | intros ? D; discriminate D].
    + intros m p' _ D. rewrite Ep in D. discriminate.
Qed.

(** X17: every curve of a run is drawn against one and the same time
    axis, the seconds from the earliest timestamp of the metrics to the
    timestamp of each row, in row order: one point per row, no time below
    zero, the earliest row at zero; and the throughput curve is drawn as
    soon as both timestamp columns parse. *)
Theorem curves_share_time_axis `{Runtime} (prefix : string)
    (metrics_df : metrics_frame) (phases_df : list phase_row)
    (metrics_ts : list Z) :
  parse_column timestamp (metrics_rows metrics_df) = Ok metrics_ts ->
  metrics_rows metrics_df <> [] ->
  exists start_time,
    In start_time metrics_ts /\
    Forall (fun t => start_time <= t) metrics_ts /\
    let time_seconds := map (seconds_between start_time) metrics_ts in
    Forall (fun x => 0 <= x)%Q time_seconds /\
    Exists (fun x => x == 0)%Q time_seconds /\
    (forall ax label xs ys,
       In (Plot ax label xs ys) (calls (main prefix metrics_df phases_df)) ->
       xs = time_seconds /\
       List.length ys = List.length xs /\
       List.length xs = List.length (metrics_rows metrics_df)) /\
    (forall phases_ts,
       parse_column transition_timestamp phases_df = Ok phases_ts ->
       In (Plot 0 "Throughput" time_seconds
             (map throughput (metrics_rows metrics_df)))
          (calls (main prefix metrics_df phases_df))).
Proof.
  intros Hm Hrows.
  assert (Hlen : List.length metrics_ts = List.length (metrics_rows metrics_df))
    by exact (parse_column_length _ _ _ Hm).
  assert (Hne : metrics_ts <> []).
  { intros ->. destruct (metrics_rows metrics_df); [contradiction | discriminate]. }
  destruct (time_seconds_column_spec metrics_ts Hne)
    as (start_time & _ & Hstart & Hall & Hcolumn).
  destruct (plot_calls prefix metrics_df phases_df metrics_ts Hm)
    as [Honly Hdrawn].
  rewrite Hcolumn in Honly, Hdrawn.
  exists start_time. split; [exact Hstart|]. split; [exact Hall|].
  cbv zeta. split; [|split; [|split]].
  - apply Forall_map. eapply Forall_impl; [|exact Hall].
    intros t. apply seconds_between_nonneg.
  - apply Exists_exists. exists (seconds_between start_time start_time).
    split; [now apply in_map | apply seconds_between_start].
  - intros ax label xs ys Hin. apply Honly, curves_inv in Hin.
    destruct Hin as [-> Hys]. rewrite length_map. split; [reflexivity|].
    split; [congruence | exact Hlen].
  - intros phases_ts Hp. apply (Hdrawn phases_ts Hp). now left.
Qed.

Lemma one_minute_time_axis :
  exists ys,
    In (Plot 2 "Workload"
          [0 # 1000000000; 30000000000 # 1000000000; 60000000000 # 1000000000]
          ys)
       (calls (main (H := Reference.overload_runtime) "run-"
                 OverloadExamples.one_minute OverloadExamples.aware_phases)) /\
    List.length ys = 3%nat.
Proof.
  assert (Hin : exists xs ys,
             In (Plot 2 "Workload" xs ys)
                (calls (main (H := Reference.overload_runtime) "run-"
                          OverloadExamples.one_minute
                          OverloadExamples.aware_phases))).
  { eexists. eexists. vm_compute. right. right. left. reflexivity. }
  destruct Hin as (xs & ys & Hin).
  destruct (@curves_share_time_axis Reference.overload_runtime "run-"
              OverloadExamples.one_minute OverloadExamples.aware_phases
              [1735689600000000000; 1735689630000000000; 1735689660000000000])
    as (start_time & Hstart & Hleast & _ & _ & Hall & _).
  - vm_compute. reflexivity.
  - discriminate.
  - destruct (Hall _ _ _ _ Hin) as (Hxs & Hys & Hn).
    assert (start_time = 1735689600000000000) as ->.
    { inversion_clear Hleast as [|? ? H0 _].
      destruct Hstart as [<-|[<-|[<-|[]]]]; [reflexivity | lia | lia]. }
    exists ys. subst xs. split; [exact Hin|].
    rewrite Hys. reflexivity.
Defined.

(** X18: when the two files follow one time-zone convention, the two
    peaks of the summary are maxima over all rows of the metrics,
    whatever their phase: each is a value some row has and no row
    exceeds, and it is printed with two decimals. *)
Theorem summary_reports_maxima `{Runtime} (prefix : string)
    (metrics_df : metrics_frame) (phases_df : list phase_row)
    (metrics_ts phases_ts : list Z) :
  parse_column timestamp (metrics_rows metrics_df) = Ok metrics_ts ->
  parse_column transition_timestamp phases_df = Ok phases_ts ->
  same_convention metrics_df phases_df = true ->
  metrics_rows metrics_df <> [] ->
  exists peak worst,
    In peak (map throughput (metrics_rows metrics_df)) /\
    Forall (fun r => throughput r <= peak)%Q (metrics_rows metrics_df) /\
    In worst (map avg_latency_ms (metrics_rows metrics_df)) /\
    Forall (fun r => avg_latency_ms r <= worst)%Q (metrics_rows metrics_df) /\
    In ("Peak throughput: " ++ format_float 2 peak ++ " ops/sec")
       (stdout (main prefix metrics_df phases_df)) /\
    In ("Maximum latency: " ++ format_float 2 worst ++ " ms")
       (stdout (main prefix metrics_df phases_df)).
Proof.
  intros Hm Hp Hsame Hrows.
  rewrite (main_closed prefix metrics_df phases_df _ _ Hm Hp Hsame).
  cbn [stdout].
  assert (Hlen : List.length metrics_ts = List.length (metrics_rows metrics_df))
    by exact (parse_column_length _ _ _ Hm).
  assert (Hne : metrics_ts <> []).
  { intros ->. destruct (metrics_rows metrics_df); [contradiction | discriminate]. }
  destruct (time_seconds_column_spec metrics_ts Hne)
    as (start_time & _ & _ & _ & ->).
  assert (Hl : List.length (metrics_rows metrics_df)
               = List.length (map (seconds_between start_time) metrics_ts))
    by now rewrite length_map.
  unfold summary. rewrite !(map_fst_combine _ _ _ Hl).
  destruct (series_max_spec (map throughput (metrics_rows metrics_df)))
    as (peak & -> & Hpeak & Hpeaks).
  { destruct (metrics_rows metrics_df); [contradiction | discriminate]. }
  destruct (series_max_spec (map avg_latency_ms (metrics_rows metrics_df)))
    as (worst & -> & Hworst & Hworsts).
  { destruct (metrics_rows metrics_df); [contradiction | discriminate]. }
  exists peak, worst.
  rewrite Forall_map in Hpeaks, Hworsts.
  split; [exact Hpeak|]. split; [exact Hpeaks|].
  split; [exact Hworst|]. split; [exact Hworsts|].
  cbn [fmt app]. split.
  - right. right. right. now left.
  - right. right. right. right. now left.
Qed.

Lemma one_minute_maxima :
  let out := main (H := Reference.overload_runtime) "run-"
               OverloadExamples.one_minute OverloadExamples.two_phases in
  In "Peak throughput: 250.00 ops/sec" (stdout out) /\
  In "Maximum latency: 9.00 ms" (stdout out).
Proof.
  intros out.
  destruct (@summary_reports_maxima Reference.overload_runtime "run-"
              OverloadExamples.one_minute OverloadExamples.two_phases
              [1735689600000000000; 1735689630000000000; 1735689660000000000]
              [1735689600000000000; 1735689630000000000])
    as (peak & worst & Hpeak & Hpeaks & Hworst & Hworsts & Hline3 & Hline4).
  - vm_compute. reflexivity.
  - vm_compute. reflexivity.
  - vm_compute. reflexivity.
  - discriminate.
  - assert (peak = 250%Q) as ->.
    { inversion_clear Hpeaks as [|? ? _ Hrest].
      inversion_clear Hrest as [|? ? H250 Hrest'].
      destruct Hpeak as [<-|[<-|[<-|[]]]];
        [exfalso; now apply H250 | reflexivity | exfalso; now apply H250]. }
    assert (worst = 9%Q) as ->.
    { inversion_clear Hworsts as [|? ? _ Hrest].
      inversion_clear Hrest as [|? ? _ Hrest'].
      inversion_clear Hrest' as [|? ? H9 _].
      destruct Hworst as [<-|[<-|[<-|[]]]];
        [exfalso; now apply H9 | exfalso; now apply H9 | reflexivity]. }
    split; [exact Hline3 | exact Hline4].
Defined.

(** *** Colours *)

(** X19: a phase is shaded white exactly when its name is not one of the
    eight the colour table knows. *)
Theorem white_iff_unknown_phase (phase_name : string) :
  color_of phase_name = "#FFFFFF" <-> ~ In phase_name known_phases.
Proof.
  unfold color_of, phase_colors, known_phases. cbn [lookup In].
  repeat match goal with
         | |- context [String.eqb phase_name ?k] =>
             destruct (String.eqb_spec phase_name k) as [->|?]
         end;
    (split; [intros E; try discriminate E; intuition congruence
            | intros Hn; try reflexivity; exfalso; apply Hn; auto 10]).
Qed.

End OverloadExtras.
